(** * Mechinweb serverless handlers and purchase page: a shallow embedding

    The repository is a set of request handlers that talk to a hosted
    invoicing API (through axios or fetch), to an SMTP relay (through
    nodemailer) and to a hosted database.  The handlers are embedded as
    functions in a small effect monad: every outbound interaction asks an
    oracle (the outside world) for its outcome and is recorded, in
    chronological order, in the list of events the computation returns.

    Console logging is not modelled, except that a property read inside a
    log statement fails as it does in the source when the object is
    [undefined].  JSON text is modelled by the value [JSON.parse] yields
    (or by the error it throws).  Every reading of the clock is an event of
    its own, so two readings in one expression may differ. *)

From Stdlib Require Import String Ascii List ZArith QArith Bool Lia.
From Stdlib Require Import DecimalString PrimFloat.
Import ListNotations.

Set Warnings "-register-all,-inexact-float".

Close Scope Q_scope.
Open Scope list_scope.
Open Scope string_scope.

(** ** JavaScript values *)

Module Js.

(** A string-valued property that may be [undefined]. *)
Definition str := option string.

(** Truthiness of a string-or-undefined value: [undefined] and the empty
    string are falsy. *)
Definition truthy (v : str) : bool :=
  match v with
  | Some s => negb (String.eqb s "")
  | None => false
  end.

(** Interpolation [`${v}`] in a template literal. *)
Definition show (v : str) : string :=
  match v with
  | Some s => s
  | None => "undefined"
  end.

(** [v || d] with a string default. *)
Definition or_default (v : str) (d : string) : string :=
  if truthy v then show v else d.

(** [a || b] on two string-or-undefined values. *)
Definition or_else (a b : str) : str :=
  if truthy a then a else b.

(** [Number.prototype.toString] on an integer. *)
Definition of_Z (z : Z) : string := NilZero.string_of_int (Z.to_int z).

(** [hay.includes(needle)]. *)
Fixpoint includes (needle hay : string) : bool :=
  String.prefix needle hay ||
  match hay with
  | EmptyString => false
  | String _ rest => includes needle rest
  end.

(** [Array.prototype.join]. *)
Definition join (sep : string) (l : list string) : string := String.concat sep l.

(** JSON values, as handed to [JSON.stringify].  A number is an IEEE 754
    double, as in JavaScript.  [JTime t] stands for the ISO-8601 rendering
    of the instant [t] (milliseconds since the epoch). *)
Inductive Json :=
| JNull
| JBool (b : bool)
| JNum (x : float)
| JInt (z : Z)
| JStr (s : string)
| JTime (t : Z)
| JArr (l : list Json)
| JObj (fields : list (string * Json)).

(** An object literal; [JSON.stringify] leaves out properties whose value
    is [undefined]. *)
Fixpoint defined (l : list (string * option Json)) : list (string * Json) :=
  match l with
  | [] => []
  | (k, Some v) :: rest => (k, v) :: defined rest
  | (_, None) :: rest => defined rest
  end.

Definition obj (fields : list (string * option Json)) : Json :=
  JObj (defined fields).

Definition jstr (v : str) : option Json := option_map JStr v.

(** Property lookup on a JSON object. *)
Fixpoint assoc (k : string) (l : list (string * Json)) : option Json :=
  match l with
  | [] => None
  | (k', v) :: rest => if String.eqb k k' then Some v else assoc k rest
  end.

Definition get (k : string) (j : Json) : option Json :=
  match j with
  | JObj l => assoc k l
  | _ => None
  end.

Definition keys (j : Json) : list string :=
  match j with
  | JObj l => map fst l
  | _ => []
  end.

End Js.

(** ** Errors *)

Module Err.

(** The part of a vendor JSON document the handlers look at. *)
Record Contact := {
  contact_id : Js.str;
  contact_name : Js.str;
  contact_email : Js.str
}.

Record Invoice := {
  invoice_id : Js.str;
  invoice_number : Js.str;
  total : option Js.Json;
  status : Js.str;
  last_payment_date : Js.str
}.

Record VendorData := {
  access_token : Js.str;
  contact : option Contact;
  contacts : option (list Contact);
  invoice : option Invoice;
  error_code : Js.str;          (* data.error *)
  error_description : Js.str;   (* data.error_description *)
  data_message : Js.str         (* data.message *)
}.

(** [error.response] of an axios error. *)
Record ErrResponse := {
  er_status : Z;
  er_statusText : string;
  er_data : option VendorData
}.

(** A thrown JavaScript error: [message], and for axios errors the
    optional [response] and [code]. *)
Record Error := {
  message : string;
  response : option ErrResponse;
  code : Js.str
}.

(** [new Error(msg)]. *)
Definition new_Error (msg : string) : Error :=
  {| message := msg; response := None; code := None |}.

(** The [TypeError] raised by reading property [prop] of [undefined]. *)
Definition TypeError_undefined (prop : string) : Error :=
  new_Error ("Cannot read properties of undefined (reading '" ++ prop ++ "')").

(** The [TypeError] raised by destructuring [undefined]: the pattern
    [const { prop, ... } = source]. *)
Definition TypeError_destructure (prop source : string) : Error :=
  new_Error ("Cannot destructure property '" ++ prop ++ "' of '" ++ source ++
             "' as it is undefined.").

(** [error.response?.status]. *)
Definition response_status (e : Error) : option Z :=
  option_map er_status (response e).

(** [error.response?.status === n]. *)
Definition status_is (e : Error) (n : Z) : bool :=
  match response_status e with
  | Some s => Z.eqb s n
  | None => false
  end.

(** [error.response?.data]. *)
Definition response_data (e : Error) : option VendorData :=
  match response e with
  | Some r => er_data r
  | None => None
  end.

(** [error.response?.data?.message]. *)
Definition response_data_message (e : Error) : Js.str :=
  match response_data e with
  | Some d => data_message d
  | None => None
  end.

(** [error.response?.data?.error]. *)
Definition response_data_error (e : Error) : Js.str :=
  match response_data e with
  | Some d => error_code d
  | None => None
  end.

(** Result of a computation that may throw. *)
Inductive Res (A : Type) :=
| Ok (a : A)
| Throw (e : Error).
Arguments Ok {A} a.
Arguments Throw {A} e.

End Err.
Export Err.

(** ** Outbound interactions *)

Module Net.

Inductive Method := GET | POST.

(** The refresh-token grant sent to the OAuth endpoint
    ([grant_type] is always ['refresh_token']). *)
Record TokenGrant := {
  refresh_token : Js.str;
  client_id : Js.str;
  client_secret : Js.str
}.

(** The contact document posted to [/contacts]. *)
Record CustomerPayload := {
  cp_contact_name : Js.str;
  cp_company_name : string;
  cp_email : Js.str;
  cp_phone : string
}.

Record LineItem := {
  li_name : Js.str;
  li_description : string;
  li_rate : Q;
  li_quantity : Z;
  li_item_total : Q
}.

(** A calendar date is kept as its UTC day number: the text
    [new Date(t).toISOString().split('T')[0]] names day [t / 86400000]. *)
Definition ms_per_day : Z := 24 * 60 * 60 * 1000.
Definition utc_day (t : Z) : Z := t / ms_per_day.

Record InvoicePayload := {
  ip_customer_id : Js.str;
  ip_invoice_number : string;
  ip_date : Z;
  ip_due_date : Z;
  ip_line_items : list LineItem;
  ip_notes : string;
  ip_terms : string;
  ip_currency_code : Js.str;
  ip_is_inclusive_tax : option bool
}.

Inductive Query :=
| NoQuery
| TokenQuery (g : TokenGrant)
| EmailQuery (email : Js.str)
| PerPageQuery (n : Z).

Inductive Payload :=
| NoPayload
| FormPayload (g : TokenGrant)
| ContactJson (c : CustomerPayload)
| InvoiceJson (p : InvoicePayload).

Record Headers := {
  Authorization : Js.str;
  organizationid : Js.str;    (* X-com-zoho-invoice-organizationid *)
  ContentType : Js.str
}.

Definition no_headers : Headers :=
  {| Authorization := None; organizationid := None; ContentType := None |}.

(** An HTTP request as the client library receives it; [timeout] is the
    [timeout] option in milliseconds, [None] when the call sets none. *)
Record Request := {
  method : Method;
  url : string;
  query : Query;
  payload : Payload;
  headers : Headers;
  timeout : option Z
}.

(** axios resolves with a response or rejects with an error. *)
Record AxiosResponse := {
  ax_status : Z;
  ax_statusText : string;
  ax_data : option VendorData
}.

Inductive AxiosOutcome :=
| AxiosResolved (r : AxiosResponse)
| AxiosRejected (e : Error).

(** fetch resolves with a response whatever the status, or rejects.
    [f_json] is what [response.json()] yields, [None] when the body is not
    JSON. *)
Record FetchResponse := {
  f_status : Z;
  f_text : string;
  f_json : option VendorData
}.

Definition f_ok (r : FetchResponse) : bool :=
  (200 <=? f_status r)%Z && (f_status r <=? 299)%Z.

Inductive FetchOutcome :=
| FetchResolved (r : FetchResponse)
| FetchRejected (e : Error).

(** An e-mail handed to [transporter.sendMail].  The HTML text is kept as
    the name of its template and the values interpolated into it. *)
Inductive HtmlArg :=
| HStr (s : string)
| HLocaleTime (t : Z)     (* new Date().toLocaleString() *)
| HIsoTime (t : Z)        (* new Date().toISOString() *)
| HLocaleDate (t : Z).    (* new Date().toLocaleDateString() *)

Record EmailOptions := {
  from : Js.str;
  to : Js.str;
  subject : string;
  html_template : string;
  html_args : list HtmlArg
}.

Record SendInfo := {
  messageId : Js.str;
  smtp_response : Js.str
}.

Inductive SendOutcome :=
| Sent (i : SendInfo)
| SendFailed (e : Error).

(** One recorded interaction with the outside world. *)
Inductive Event :=
| EvAxios (r : Request) (o : AxiosOutcome)
| EvFetch (r : Request) (o : FetchOutcome)
| EvVerify (o : option Error)
| EvSendMail (m : EmailOptions) (o : SendOutcome)
| EvSleep (ms : Z)
| EvClock (t : Z).

(** [process.env] / [Deno.env]. *)
Record Env := {
  ZOHO_CLIENT_ID : Js.str;
  ZOHO_CLIENT_SECRET : Js.str;
  ZOHO_REFRESH_TOKEN : Js.str;
  ZOHO_ORGANIZATION_ID : Js.str;
  EMAIL_USER : Js.str;
  EMAIL_PASSWORD : Js.str;
  NODE_ENV : Js.str;
  NETLIFY : Js.str;
  URL : Js.str
}.

(** The outside world.  Each oracle is indexed by the number of events
    that precede the interaction, so the same call may be answered
    differently each time it is made.  [race] says which of two failed
    promises under [Promise.all] settles first.  [createTransport] and
    [createTransporter] are what a call of the nodemailer property of
    that name does ([None]: it returns a transporter, [Some e]: it
    throws). *)
Record World := {
  env : Env;
  axios : nat -> Request -> AxiosOutcome;
  fetch : nat -> Request -> FetchOutcome;
  verify : nat -> option Error;
  sendMail : nat -> EmailOptions -> SendOutcome;
  clock : nat -> Z;
  race : nat -> bool;
  createTransport : option Error;
  createTransporter : option Error;
  node_version : string
}.

(** The effect monad: given the world and the number of events so far, a
    computation yields its result and the events it performed. *)
Definition M (A : Type) : Type := World -> nat -> Res A * list Event.

Definition ret {A} (a : A) : M A := fun _ _ => (Ok a, []).

Definition throw {A} (e : Error) : M A := fun _ _ => (Throw e, []).

Definition bind {A B} (m : M A) (k : A -> M B) : M B :=
  fun w n =>
    match m w n with
    | (Ok a, t) =>
        match k a w (length t + n) with
        | (r, t') => (r, (t ++ t')%list)
        end
    | (Throw e, t) => (Throw e, t)
    end.

(** [try { m } catch (e) { h e }]. *)
Definition catch {A} (m : M A) (h : Error -> M A) : M A :=
  fun w n =>
    match m w n with
    | (Ok a, t) => (Ok a, t)
    | (Throw e, t) =>
        match h e w (length t + n) with
        | (r, t') => (r, (t ++ t')%list)
        end
    end.

(** [await Promise.all([m1, m2])]: both computations are started; the
    result is the pair of their values, or the error of the one that
    fails (of the one that fails first when both do).  The model records
    the events of [m1] before those of [m2]. *)
Definition all2 {A B} (m1 : M A) (m2 : M B) : M (A * B) :=
  fun w n =>
    match m1 w n with
    | (r1, t1) =>
        match m2 w (length t1 + n) with
        | (r2, t2) =>
            (match r1, r2 with
             | Ok a, Ok b => Ok (a, b)
             | Throw e, Ok _ => Throw e
             | Ok _, Throw e => Throw e
             | Throw e1, Throw e2 =>
                 if race w (length (t1 ++ t2)%list + n) then Throw e1 else Throw e2
             end, (t1 ++ t2)%list)
        end
    end.

Definition ask : M World := fun w _ => (Ok w, []).

Definition axios_request (r : Request) : M AxiosResponse :=
  fun w n =>
    let o := axios w n r in
    (match o with
     | AxiosResolved resp => Ok resp
     | AxiosRejected e => Throw e
     end, [EvAxios r o]).

Definition fetch_request (r : Request) : M FetchResponse :=
  fun w n =>
    let o := fetch w n r in
    (match o with
     | FetchResolved resp => Ok resp
     | FetchRejected e => Throw e
     end, [EvFetch r o]).

Definition transporter_verify : M unit :=
  fun w n =>
    let o := verify w n in
    (match o with
     | None => Ok tt
     | Some e => Throw e
     end, [EvVerify o]).

Definition transporter_sendMail (m : EmailOptions) : M SendInfo :=
  fun w n =>
    let o := sendMail w n m in
    (match o with
     | Sent i => Ok i
     | SendFailed e => Throw e
     end, [EvSendMail m o]).

(** Calling a nodemailer factory. *)
Definition nodemailer (factory : World -> option Error) : M unit :=
  fun w _ =>
    (match factory w with
     | None => Ok tt
     | Some e => Throw e
     end, []).

(** [await new Promise(resolve => setTimeout(resolve, ms))]. *)
Definition sleep (ms : Z) : M unit := fun _ _ => (Ok tt, [EvSleep ms]).

(** [Date.now()] / [new Date()]. *)
Definition now : M Z := fun w n => (Ok (clock w n), [EvClock (clock w n)]).

(** A value that must be defined before a property of it is read. *)
Definition defined {A} (prop : string) (v : option A) : M A :=
  match v with
  | Some a => ret a
  | None => throw (TypeError_undefined prop)
  end.

(** A value that must be defined before it is destructured. *)
Definition destructured {A} (prop source : string) (v : option A) : M A :=
  match v with
  | Some a => ret a
  | None => throw (TypeError_destructure prop source)
  end.

Declare Scope js_scope.
Delimit Scope js_scope with js.
Notation "x <- m ;; k" := (bind m (fun x => k))
  (at level 61, m at next level, right associativity) : js_scope.
Notation "m ;;; k" := (bind m (fun _ => k))
  (at level 61, right associativity) : js_scope.

(** The HTTP requests an execution performed, in order. *)
Definition http_requests (t : list Event) : list Request :=
  flat_map (fun e => match e with
                     | EvAxios r _ => [r]
                     | EvFetch r _ => [r]
                     | _ => []
                     end) t.

(** The outbound calls (HTTP or SMTP) an execution performed. *)
Definition is_outbound (e : Event) : bool :=
  match e with
  | EvAxios _ _ | EvFetch _ _ | EvVerify _ | EvSendMail _ _ => true
  | EvSleep _ | EvClock _ => false
  end.

Definition outbound (t : list Event) : list Event := filter is_outbound t.

End Net.
Export Net.
Open Scope js_scope.

(** ** Netlify function interface *)

Module Netlify.

(** What [JSON.parse] makes of a body text. *)
Inductive Parsed (A : Type) :=
| Malformed (e : Error)
| Parses (a : A).
Arguments Malformed {A} e.
Arguments Parses {A} a.

(** The handler's [event].  [body] is [None] for a missing or empty body.
    [pathSegments] is [new URL('https://example.com' + event.path)
    .pathname.split('/').filter(Boolean)], [None] when the URL
    constructor throws. *)
Record NetlifyEvent (A : Type) := {
  httpMethod : string;
  pathSegments : option (list string);
  body : option (Parsed A)
}.
Arguments httpMethod {A} _.
Arguments pathSegments {A} _.
Arguments body {A} _.

Record Context := { awsRequestId : Js.str }.

Inductive Body :=
| EmptyBody
| JsonBody (j : Js.Json).

Record Response := {
  statusCode : Z;
  resp_headers : list (string * string);
  resp_body : Body
}.

(** [context.awsRequestId || Date.now().toString()]. *)
Definition requestId_of (context : Context) : M string :=
  if Js.truthy (awsRequestId context)
  then ret (Js.show (awsRequestId context))
  else (t <- now ;; ret (Js.of_Z t)).

(** [JSON.parse(event.body || '{}')]. *)
Definition parse_body_or_empty {A} (empty : A) (b : option (Parsed A)) : M A :=
  match b with
  | None => ret empty
  | Some (Parses a) => ret a
  | Some (Malformed e) => throw e
  end.

Definition json_headers : list (string * string) :=
  [("Access-Control-Allow-Origin", "*"); ("Content-Type", "application/json")].

(** The [error] property of a JSON response body. *)
Definition body_error (r : Response) : option Js.Json :=
  match resp_body r with
  | JsonBody j => Js.get "error" j
  | EmptyBody => None
  end.

Definition body_success (r : Response) : option Js.Json :=
  match resp_body r with
  | JsonBody j => Js.get "success" j
  | EmptyBody => None
  end.

(** Request documents of the Zoho functions. *)
Record CustomerData := {
  name : Js.str;
  email : Js.str;
  phone : Js.str;
  company : Js.str
}.

(** [quantity] is a count and is kept as an integer. *)
Record ServiceItem := {
  serviceName : Js.str;
  packageType : Js.str;
  quantity : Z;
  unitPrice : Q;
  totalPrice : Q
}.

Record InvoiceData := {
  serviceItems : option (list ServiceItem);
  currency : Js.str;
  notes : Js.str
}.

Record RequestData := {
  customerData : option CustomerData;
  rd_serviceItems : option (list ServiceItem);
  rd_currency : Js.str;
  rd_notes : Js.str;
  customerId : Js.str;
  rd_name : Js.str;
  rd_email : Js.str;
  rd_phone : Js.str;
  rd_company : Js.str
}.

(** [{}] *)
Definition empty_request : RequestData :=
  {| customerData := None; rd_serviceItems := None; rd_currency := None;
     rd_notes := None; customerId := None; rd_name := None;
     rd_email := None; rd_phone := None; rd_company := None |}.

(** The request document read as a customer record. *)
Definition as_customer (d : RequestData) : CustomerData :=
  {| name := rd_name d; email := rd_email d;
     phone := rd_phone d; company := rd_company d |}.

(** The request document read as invoice data. *)
Definition as_invoice (d : RequestData) : InvoiceData :=
  {| serviceItems := rd_serviceItems d; currency := rd_currency d;
     notes := rd_notes d |}.

(** An object literal whose property values may be [undefined]. *)
Definition Obj := list (string * option Js.Json).

Record ZohoConfig := {
  clientId : Js.str;
  clientSecret : Js.str;
  refreshToken : Js.str;
  organizationId : Js.str;
  baseUrl : string
}.

Definition zoho_headers (accessToken : Js.str) (cfg : ZohoConfig) (json : bool) : Headers :=
  {| Authorization := Some ("Zoho-oauthtoken " ++ Js.show accessToken);
     organizationid := organizationId cfg;
     ContentType := if json then Some "application/json" else None |}.

Definition grant_of (cfg : ZohoConfig) : TokenGrant :=
  {| refresh_token := refreshToken cfg;
     client_id := clientId cfg;
     client_secret := clientSecret cfg |}.

(** The [debug] object of the Zoho error responses. *)
Definition config_flags (cfg : ZohoConfig) : Js.Json :=
  Js.JObj [("hasClientId", Js.JBool (Js.truthy (clientId cfg)));
           ("hasClientSecret", Js.JBool (Js.truthy (clientSecret cfg)));
           ("hasRefreshToken", Js.JBool (Js.truthy (refreshToken cfg)));
           ("hasOrgId", Js.JBool (Js.truthy (organizationId cfg)))].

(** The four checks every Zoho function makes, in order. *)
Definition missing_names (cfg : ZohoConfig) : list string :=
  let missing := [] in
  let missing := if negb (Js.truthy (clientId cfg))
                 then (missing ++ ["ZOHO_CLIENT_ID"])%list else missing in
  let missing := if negb (Js.truthy (clientSecret cfg))
                 then (missing ++ ["ZOHO_CLIENT_SECRET"])%list else missing in
  let missing := if negb (Js.truthy (refreshToken cfg))
                 then (missing ++ ["ZOHO_REFRESH_TOKEN"])%list else missing in
  let missing := if negb (Js.truthy (organizationId cfg))
                 then (missing ++ ["ZOHO_ORGANIZATION_ID"])%list else missing in
  missing.

(** The line items [createZohoInvoice] maps the service items to;
    [with_quantity] tells whether the description ends with the
    quantity. *)
Definition line_item (with_quantity : bool) (item : ServiceItem) : LineItem :=
  {| li_name := serviceName item;
     li_description :=
       Js.show (serviceName item) ++ " - " ++ Js.show (packageType item) ++
       (if with_quantity
        then " Package (Quantity: " ++ Js.of_Z (quantity item) ++ ")"
        else " Package");
     li_rate := unitPrice item;
     li_quantity := quantity item;
     li_item_total := totalPrice item |}.

End Netlify.
Export Netlify.

(** ** netlify/functions/zohoIntegration.js, first revision *)

Module ZohoV1.

Definition ZOHO_CONFIG (e : Env) : ZohoConfig :=
  {| clientId := ZOHO_CLIENT_ID e;
     clientSecret := ZOHO_CLIENT_SECRET e;
     refreshToken := ZOHO_REFRESH_TOKEN e;
     organizationId := ZOHO_ORGANIZATION_ID e;
     baseUrl := "https://invoice.zoho.in/api/v3" |}.

Definition validateZohoConfig : M unit :=
  w <- ask ;;
  let missing := missing_names (ZOHO_CONFIG (env w)) in
  if (0 <? length missing)%nat
  then throw (new_Error ("Missing Zoho configuration: " ++ Js.join ", " missing))
  else ret tt.

Definition token_request (cfg : ZohoConfig) : Request :=
  {| method := POST;
     url := "https://accounts.zoho.in/oauth/v2/token";
     query := TokenQuery (grant_of cfg);
     payload := NoPayload;
     headers := no_headers;
     timeout := Some 10000%Z |}.

Definition invalid_credentials : string :=
  "Invalid Zoho credentials. Please check ZOHO_CLIENT_ID, ZOHO_CLIENT_SECRET, and ZOHO_REFRESH_TOKEN.".

Definition refresh_token_expired : string :=
  "Zoho refresh token expired. Please regenerate the refresh token.".

Definition getZohoAccessToken : M Js.str :=
  w <- ask ;;
  catch
    (response <- axios_request (token_request (ZOHO_CONFIG (env w))) ;;
     data <- defined "token_type" (ax_data response) ;;
     ret (access_token data))
    (fun error =>
       if status_is error 400 then throw (new_Error invalid_credentials)
       else if status_is error 401 then throw (new_Error refresh_token_expired)
       else throw (new_Error ("Zoho authentication failed: " ++ message error))).

Definition search_request (cfg : ZohoConfig) (accessToken email : Js.str) : Request :=
  {| method := GET;
     url := baseUrl cfg ++ "/contacts";
     query := EmailQuery email;
     payload := NoPayload;
     headers := zoho_headers accessToken cfg false;
     timeout := Some 15000%Z |}.

Definition findZohoCustomer (accessToken email : Js.str) : M Js.str :=
  w <- ask ;;
  catch
    (response <- axios_request (search_request (ZOHO_CONFIG (env w)) accessToken email) ;;
     data <- defined "contacts" (ax_data response) ;;
     match contacts data with
     | Some (customer :: _) => ret (contact_id customer)
     | _ => throw (new_Error "Customer not found")
     end)
    (fun error => throw (new_Error ("Customer lookup failed: " ++ message error))).

Definition customerPayload (customerData : CustomerData) : CustomerPayload :=
  {| cp_contact_name := name customerData;
     cp_company_name := Js.or_default (company customerData) "";
     cp_email := email customerData;
     cp_phone := Js.or_default (phone customerData) "" |}.

Definition create_request (cfg : ZohoConfig) (accessToken : Js.str)
    (customerData : CustomerData) : Request :=
  {| method := POST;
     url := baseUrl cfg ++ "/contacts";
     query := NoQuery;
     payload := ContactJson (customerPayload customerData);
     headers := zoho_headers accessToken cfg true;
     timeout := Some 15000%Z |}.

Definition createZohoCustomer (accessToken : Js.str)
    (customerData : option CustomerData) : M Js.str :=
  w <- ask ;;
  catch
    (c <- defined "email" customerData ;;
     response <- axios_request (create_request (ZOHO_CONFIG (env w)) accessToken c) ;;
     data <- defined "contact" (ax_data response) ;;
     created <- defined "contact_id" (contact data) ;;
     ret (contact_id created))
    (fun error =>
       if status_is error 400
       then (c <- defined "email" customerData ;;
             findZohoCustomer accessToken (email c))
       else throw error).

Definition invoicePayload (customerId : Js.str) (invoiceData : InvoiceData)
    (lineItems : list LineItem) (t_number t_date t_due : Z) : InvoicePayload :=
  {| ip_customer_id := customerId;
     ip_invoice_number := "INV-" ++ Js.of_Z t_number;
     ip_date := utc_day t_date;
     ip_due_date := utc_day (t_due + 30 * 24 * 60 * 60 * 1000);
     ip_line_items := lineItems;
     ip_notes := Js.or_default (notes invoiceData) "Thank you for choosing Mechinweb!";
     ip_terms := "Payment due within 30 days.";
     ip_currency_code := currency invoiceData;
     ip_is_inclusive_tax := Some false |}.

Definition invoice_request (cfg : ZohoConfig) (accessToken : Js.str)
    (p : InvoicePayload) : Request :=
  {| method := POST;
     url := baseUrl cfg ++ "/invoices";
     query := NoQuery;
     payload := InvoiceJson p;
     headers := zoho_headers accessToken cfg true;
     timeout := Some 20000%Z |}.

Definition invoice_summary (inv : Invoice) (customerId : Js.str) : Obj :=
  [("invoice_id", Js.jstr (invoice_id inv));
   ("invoice_number", Js.jstr (invoice_number inv));
   ("payment_url",
    Some (Js.JStr ("https://invoice.zoho.in/invoices/" ++ Js.show (invoice_id inv) ++ "/payment")));
   ("total", total inv);
   ("status", Js.jstr (status inv));
   ("customer_id", Js.jstr customerId)].

Definition createZohoInvoice (accessToken customerId : Js.str)
    (invoiceData : InvoiceData) : M Obj :=
  w <- ask ;;
  catch
    (items <- defined "map" (serviceItems invoiceData) ;;
     let lineItems := map (line_item true) items in
     t_number <- now ;;
     t_date <- now ;;
     t_due <- now ;;
     let p := invoicePayload customerId invoiceData lineItems t_number t_date t_due in
     response <- axios_request (invoice_request (ZOHO_CONFIG (env w)) accessToken p) ;;
     data <- defined "invoice" (ax_data response) ;;
     inv <- defined "invoice_id" (invoice data) ;;
     ret (invoice_summary inv customerId))
    (fun error =>
       throw (new_Error ("Invoice creation failed: " ++
                         Js.or_default (response_data_message error) (message error)))).

Definition status_request (cfg : ZohoConfig) (accessToken : Js.str)
    (invoiceId : string) : Request :=
  {| method := GET;
     url := baseUrl cfg ++ "/invoices/" ++ invoiceId;
     query := NoQuery;
     payload := NoPayload;
     headers := zoho_headers accessToken cfg false;
     timeout := Some 15000%Z |}.

Definition getZohoInvoiceStatus (accessToken : Js.str) (invoiceId : string) : M Obj :=
  w <- ask ;;
  catch
    (response <- axios_request (status_request (ZOHO_CONFIG (env w)) accessToken invoiceId) ;;
     data <- defined "invoice" (ax_data response) ;;
     inv <- defined "status" (invoice data) ;;
     ret [("status", Js.jstr (status inv));
          ("total", total inv);
          ("payment_date", Js.jstr (last_payment_date inv))])
    (fun error => throw (new_Error ("Invoice status check failed: " ++ message error))).

Definition preflight : Response :=
  {| statusCode := 200;
     resp_headers :=
       [("Access-Control-Allow-Origin", "*");
        ("Access-Control-Allow-Headers", "Content-Type, Authorization");
        ("Access-Control-Allow-Methods", "GET, POST, OPTIONS")];
     resp_body := EmptyBody |}.

Definition not_found (requestId : string) : Response :=
  {| statusCode := 404;
     resp_headers := json_headers;
     resp_body := JsonBody (Js.JObj [("success", Js.JBool false);
                                     ("error", Js.JStr "Endpoint not found");
                                     ("requestId", Js.JStr requestId)]) |}.

Definition failure (cfg : ZohoConfig) (requestId : string) (error : Error) : M Response :=
  t <- now ;;
  ret {| statusCode := 500;
         resp_headers := json_headers;
         resp_body := JsonBody (Js.JObj [("success", Js.JBool false);
                                         ("error", Js.JStr (message error));
                                         ("requestId", Js.JStr requestId);
                                         ("timestamp", Js.JTime t);
                                         ("debug", config_flags cfg)]) |}.

Definition success (fields : Obj) : Response :=
  {| statusCode := 200;
     resp_headers := json_headers;
     resp_body := JsonBody (Js.obj fields) |}.

Definition includes_segment (s : string) (l : list string) : bool :=
  existsb (String.eqb s) l.

Definition handler (event : NetlifyEvent RequestData) (context : Context) : M Response :=
  w <- ask ;;
  requestId <- requestId_of context ;;
  if httpMethod event =? "OPTIONS" then ret preflight
  else
    catch
      (validateZohoConfig ;;;
       pathSegments <- match pathSegments event with
                       | Some l => ret l
                       | None => throw (new_Error "Invalid URL")
                       end ;;
       accessToken <- getZohoAccessToken ;;
       if httpMethod event =? "POST" then
         requestData <- parse_body_or_empty empty_request (body event) ;;
         if includes_segment "customers" pathSegments then
           customerId <- createZohoCustomer accessToken (Some (as_customer requestData)) ;;
           ret (success [("success", Some (Js.JBool true));
                         ("contact_id", Js.jstr customerId);
                         ("requestId", Some (Js.JStr requestId))])
         else if includes_segment "invoices" pathSegments then
           invoice <- createZohoInvoice accessToken (customerId requestData)
                        (as_invoice requestData) ;;
           ret (success [("success", Some (Js.JBool true));
                         ("invoice", Some (Js.obj invoice));
                         ("requestId", Some (Js.JStr requestId))])
         else ret (not_found requestId)
       else if httpMethod event =? "GET" then
         if includes_segment "invoices" pathSegments && (2 <=? length pathSegments)%nat then
           let invoiceId := last pathSegments "" in
           status <- getZohoInvoiceStatus accessToken invoiceId ;;
           ret (success [("success", Some (Js.JBool true));
                         ("status", Some (Js.obj status));
                         ("requestId", Some (Js.JStr requestId))])
         else ret (not_found requestId)
       else ret (not_found requestId))
      (failure (ZOHO_CONFIG (env w)) requestId).

End ZohoV1.

(** ** netlify/functions/zohoIntegration.js, later revision

    The file holds a second, truncated copy whose visible part (from the end
    of [findZohoCustomer] to the handler) is the same text as this one. *)

Module ZohoV3.

Definition ZOHO_CONFIG := ZohoV1.ZOHO_CONFIG.

Definition validateZohoConfig : M unit :=
  w <- ask ;;
  let missing := missing_names (ZOHO_CONFIG (env w)) in
  if (0 <? length missing)%nat
  then throw (new_Error ("Missing Zoho configuration: " ++ Js.join ", " missing))
  else ret tt.

Definition token_request (cfg : ZohoConfig) : Request :=
  {| method := POST;
     url := "https://accounts.zoho.in/oauth/v2/token";
     query := NoQuery;
     payload := FormPayload (grant_of cfg);
     headers := {| Authorization := None; organizationid := None;
                   ContentType := Some "application/x-www-form-urlencoded" |};
     timeout := Some 15000%Z |}.

Definition refresh_token_expired : string :=
  "Zoho refresh token has expired. Please regenerate the refresh token in Zoho Developer Console.".

Definition invalid_client : string :=
  "Invalid Zoho client credentials. Please check ZOHO_CLIENT_ID and ZOHO_CLIENT_SECRET.".

Definition authentication_failed : string :=
  "Zoho authentication failed. Please check your credentials.".

Definition is_code (v : Js.str) (c : string) : bool :=
  match v with
  | Some s => String.eqb s c
  | None => false
  end.

Definition getZohoAccessToken : M Js.str :=
  w <- ask ;;
  catch
    (response <- axios_request (token_request (ZOHO_CONFIG (env w))) ;;
     match ax_data response with
     | Some tokenData =>
         if Js.truthy (access_token tokenData)
         then ret (access_token tokenData)
         else throw (new_Error "Invalid token response: missing access_token")
     | None => throw (new_Error "Invalid token response: missing access_token")
     end)
    (fun error =>
       if status_is error 400 then
         errorData <- defined "error" (response_data error) ;;
         if is_code (error_code errorData) "invalid_grant"
         then throw (new_Error refresh_token_expired)
         else if is_code (error_code errorData) "invalid_client"
         then throw (new_Error invalid_client)
         else throw (new_Error ("Zoho token error: " ++
                                Js.show (Js.or_else (error_description errorData)
                                                    (error_code errorData))))
       else if status_is error 401 then throw (new_Error authentication_failed)
       else throw (new_Error ("Zoho token request failed: " ++ message error))).

Definition probe_request (cfg : ZohoConfig) (accessToken : Js.str) : Request :=
  {| method := GET;
     url := baseUrl cfg ++ "/contacts";
     query := PerPageQuery 1;
     payload := NoPayload;
     headers := zoho_headers accessToken cfg false;
     timeout := Some 15000%Z |}.

Definition testZohoConnection (accessToken : Js.str) : M bool :=
  w <- ask ;;
  catch
    (response <- axios_request (probe_request (ZOHO_CONFIG (env w)) accessToken) ;;
     _ <- defined "contacts" (ax_data response) ;;
     ret true)
    (fun error =>
       if status_is error 401
       then throw (new_Error "Zoho API authorization failed. Check organization ID and API permissions.")
       else if status_is error 403
       then throw (new_Error "Access denied. Check ZOHO_ORGANIZATION_ID and ensure API access is enabled.")
       else throw (new_Error ("Zoho API test failed: " ++ message error))).

(** The customer object both [createZohoCustomer] and [findZohoCustomer]
    return: [{contact_id, contact_name, email}]. *)
Definition customer_of (c : Contact) : Contact :=
  {| contact_id := contact_id c;
     contact_name := contact_name c;
     contact_email := contact_email c |}.

Definition findZohoCustomer (accessToken email : Js.str) : M Contact :=
  w <- ask ;;
  catch
    (response <- axios_request (ZohoV1.search_request (ZOHO_CONFIG (env w)) accessToken email) ;;
     data <- defined "contacts" (ax_data response) ;;
     match contacts data with
     | Some (customer :: _) => ret (customer_of customer)
     | _ => throw (new_Error "Customer not found")
     end)
    (fun error => throw (new_Error ("Customer lookup failed: " ++ message error))).

(** [error.response?.data?.message?.includes('already exists')]. *)
Definition says_already_exists (error : Error) : bool :=
  match response_data_message error with
  | Some m => Js.includes "already exists" m
  | None => false
  end.

Definition createZohoCustomer (accessToken : Js.str)
    (customerData : option CustomerData) : M Contact :=
  w <- ask ;;
  catch
    (c <- defined "email" customerData ;;
     response <- axios_request (ZohoV1.create_request (ZOHO_CONFIG (env w)) accessToken c) ;;
     data <- defined "contact" (ax_data response) ;;
     created <- defined "contact_id" (contact data) ;;
     ret (customer_of created))
    (fun error =>
       if status_is error 400 && says_already_exists error
       then (c <- defined "email" customerData ;;
             findZohoCustomer accessToken (email c))
       else throw (new_Error ("Customer creation failed: " ++
                              Js.or_default (response_data_message error) (message error)))).

Definition createZohoInvoice := ZohoV1.createZohoInvoice.
Definition getZohoInvoiceStatus := ZohoV1.getZohoInvoiceStatus.

Definition customer_json (c : Contact) : Js.Json :=
  Js.obj [("contact_id", Js.jstr (contact_id c));
          ("contact_name", Js.jstr (contact_name c));
          ("email", Js.jstr (contact_email c))].

Definition method_not_allowed (requestId : string) : Response :=
  {| statusCode := 405;
     resp_headers := json_headers;
     resp_body := JsonBody (Js.JObj [("success", Js.JBool false);
                                     ("error", Js.JStr "Method not allowed");
                                     ("requestId", Js.JStr requestId)]) |}.

(** [if (method === 'POST' && event.body) requestData = JSON.parse(event.body)],
    a parse error being replaced by ['Invalid JSON in request body']. *)
Definition parse_request (event : NetlifyEvent RequestData) : M RequestData :=
  if httpMethod event =? "POST" then
    match body event with
    | None => ret empty_request
    | Some (Parses d) => ret d
    | Some (Malformed _) => throw (new_Error "Invalid JSON in request body")
    end
  else ret empty_request.

Definition is_some {A} (o : option A) : bool :=
  match o with Some _ => true | None => false end.

Definition handler (event : NetlifyEvent RequestData) (context : Context) : M Response :=
  w <- ask ;;
  requestId <- requestId_of context ;;
  if httpMethod event =? "OPTIONS" then ret ZohoV1.preflight
  else
    catch
      (validateZohoConfig ;;;
       accessToken <- getZohoAccessToken ;;
       _ <- testZohoConnection accessToken ;;
       requestData <- parse_request event ;;
       if httpMethod event =? "POST" then
         if is_some (customerData requestData) && is_some (rd_serviceItems requestData) then
           customer <- createZohoCustomer accessToken (customerData requestData) ;;
           invoice <- createZohoInvoice accessToken (contact_id customer)
                        {| serviceItems := rd_serviceItems requestData;
                           currency := Some (Js.or_default (rd_currency requestData) "USD");
                           notes := rd_notes requestData |} ;;
           t <- now ;;
           ret (ZohoV1.success [("success", Some (Js.JBool true));
                                ("customer", Some (customer_json customer));
                                ("invoice", Some (Js.obj invoice));
                                ("requestId", Some (Js.JStr requestId));
                                ("timestamp", Some (Js.JTime t))])
         else if Js.truthy (rd_name requestData) && Js.truthy (rd_email requestData) then
           customer <- createZohoCustomer accessToken (Some (as_customer requestData)) ;;
           ret (ZohoV1.success [("success", Some (Js.JBool true));
                                ("customer", Some (customer_json customer));
                                ("requestId", Some (Js.JStr requestId))])
         else throw (new_Error "Invalid request data. Expected customerData and serviceItems or customer details.")
       else if httpMethod event =? "GET" then
         pathSegments <- match pathSegments event with
                         | Some l => ret l
                         | None => throw (new_Error "Invalid URL")
                         end ;;
         if ZohoV1.includes_segment "invoices" pathSegments && (3 <=? length pathSegments)%nat then
           let invoiceId := last pathSegments "" in
           status <- getZohoInvoiceStatus accessToken invoiceId ;;
           ret (ZohoV1.success [("success", Some (Js.JBool true));
                                ("status", Some (Js.obj status));
                                ("requestId", Some (Js.JStr requestId))])
         else
           t <- now ;;
           ret (ZohoV1.success
                  [("success", Some (Js.JBool true));
                   ("message", Some (Js.JStr "Zoho integration is working correctly"));
                   ("timestamp", Some (Js.JTime t));
                   ("requestId", Some (Js.JStr requestId));
                   ("config",
                    Some (Js.JObj [("hasClientId", Js.JBool (Js.truthy (clientId (ZOHO_CONFIG (env w)))));
                                   ("hasClientSecret", Js.JBool (Js.truthy (clientSecret (ZOHO_CONFIG (env w)))));
                                   ("hasRefreshToken", Js.JBool (Js.truthy (refreshToken (ZOHO_CONFIG (env w)))));
                                   ("hasOrgId", Js.JBool (Js.truthy (organizationId (ZOHO_CONFIG (env w)))));
                                   ("apiConnectionSuccessful", Js.JBool true)]))])
       else ret (method_not_allowed requestId))
      (ZohoV1.failure (ZOHO_CONFIG (env w)) requestId).

End ZohoV3.

(** ** netlify/functions/createPayment.js *)

Module CreatePayment.

Definition ZOHO_CONFIG (e : Env) : ZohoConfig :=
  {| clientId := ZOHO_CLIENT_ID e;
     clientSecret := ZOHO_CLIENT_SECRET e;
     refreshToken := ZOHO_REFRESH_TOKEN e;
     organizationId := ZOHO_ORGANIZATION_ID e;
     baseUrl := "https://invoice.zoho.com/api/v3" |}.

Definition token_request (cfg : ZohoConfig) : Request :=
  {| method := POST;
     url := "https://accounts.zoho.com/oauth/v2/token";
     query := TokenQuery (grant_of cfg);
     payload := NoPayload;
     headers := no_headers;
     timeout := Some 10000%Z |}.

Definition getZohoAccessToken : M Js.str :=
  w <- ask ;;
  catch
    (response <- axios_request (token_request (ZOHO_CONFIG (env w))) ;;
     data <- defined "access_token" (ax_data response) ;;
     ret (access_token data))
    (fun error =>
       throw (new_Error ("Zoho authentication failed: " ++
                         Js.or_default (response_data_error error) (message error)))).

Definition findZohoCustomer (accessToken email : Js.str) : M Js.str :=
  w <- ask ;;
  catch
    (response <- axios_request (ZohoV1.search_request (ZOHO_CONFIG (env w)) accessToken email) ;;
     data <- defined "contacts" (ax_data response) ;;
     match contacts data with
     | Some (customer :: _) => ret (contact_id customer)
     | _ => throw (new_Error "Customer not found")
     end)
    (fun error => throw error).

Definition createZohoCustomer (accessToken : Js.str)
    (customerData : option CustomerData) : M Js.str :=
  w <- ask ;;
  catch
    (c <- defined "name" customerData ;;
     response <- axios_request (ZohoV1.create_request (ZOHO_CONFIG (env w)) accessToken c) ;;
     data <- defined "contact" (ax_data response) ;;
     created <- defined "contact_id" (contact data) ;;
     ret (contact_id created))
    (fun error =>
       if status_is error 400
       then (c <- defined "email" customerData ;;
             findZohoCustomer accessToken (email c))
       else throw error).

Definition invoicePayload (customerId : Js.str) (invoiceData : InvoiceData)
    (lineItems : list LineItem) (t_number t_date t_due : Z) : InvoicePayload :=
  {| ip_customer_id := customerId;
     ip_invoice_number := "INV-" ++ Js.of_Z t_number;
     ip_date := utc_day t_date;
     ip_due_date := utc_day (t_due + 30 * 24 * 60 * 60 * 1000);
     ip_line_items := lineItems;
     ip_notes := Js.or_default (notes invoiceData) "Thank you for choosing Mechinweb!";
     ip_terms := "Payment due within 30 days.";
     ip_currency_code := currency invoiceData;
     ip_is_inclusive_tax := None |}.

Definition invoice_summary (inv : Invoice) : Obj :=
  [("invoice_id", Js.jstr (invoice_id inv));
   ("invoice_number", Js.jstr (invoice_number inv));
   ("payment_url",
    Some (Js.JStr ("https://invoice.zoho.com/invoices/" ++ Js.show (invoice_id inv) ++ "/payment")));
   ("total", total inv);
   ("status", Js.jstr (status inv))].

Definition createZohoInvoice (accessToken customerId : Js.str)
    (invoiceData : InvoiceData) : M Obj :=
  w <- ask ;;
  catch
    (items <- defined "map" (serviceItems invoiceData) ;;
     let lineItems := map (line_item false) items in
     t_number <- now ;;
     t_date <- now ;;
     t_due <- now ;;
     let p := invoicePayload customerId invoiceData lineItems t_number t_date t_due in
     response <- axios_request (ZohoV1.invoice_request (ZOHO_CONFIG (env w)) accessToken p) ;;
     data <- defined "invoice" (ax_data response) ;;
     inv <- defined "invoice_id" (invoice data) ;;
     ret (invoice_summary inv))
    (fun error =>
       throw (new_Error ("Invoice creation failed: " ++
                         Js.or_default (response_data_message error) (message error)))).

Definition preflight : Response :=
  {| statusCode := 200;
     resp_headers :=
       [("Access-Control-Allow-Origin", "*");
        ("Access-Control-Allow-Headers", "Content-Type, Authorization");
        ("Access-Control-Allow-Methods", "POST, OPTIONS")];
     resp_body := EmptyBody |}.

Definition method_not_allowed : Response :=
  {| statusCode := 405;
     resp_headers := json_headers;
     resp_body := JsonBody (Js.JObj [("error", Js.JStr "Method not allowed")]) |}.

Definition failure (cfg : ZohoConfig) (requestId : string) (error : Error) : M Response :=
  t <- now ;;
  ret {| statusCode := 500;
         resp_headers := json_headers;
         resp_body :=
           JsonBody (Js.JObj
             [("success", Js.JBool false);
              ("error", Js.JStr (message error));
              ("requestId", Js.JStr requestId);
              ("timestamp", Js.JTime t);
              ("debug",
               Js.JObj [("hasZohoClientId", Js.JBool (Js.truthy (clientId cfg)));
                        ("hasZohoClientSecret", Js.JBool (Js.truthy (clientSecret cfg)));
                        ("hasZohoRefreshToken", Js.JBool (Js.truthy (refreshToken cfg)));
                        ("hasZohoOrgId", Js.JBool (Js.truthy (organizationId cfg)))])]) |}.

Definition handler (event : NetlifyEvent RequestData) (context : Context) : M Response :=
  w <- ask ;;
  requestId <- requestId_of context ;;
  if httpMethod event =? "OPTIONS" then ret preflight
  else if negb (httpMethod event =? "POST") then ret method_not_allowed
  else
    catch
      (let missing := missing_names (ZOHO_CONFIG (env w)) in
       (if (0 <? length missing)%nat
        then throw (new_Error ("Missing Zoho configuration: " ++ Js.join ", " missing))
        else ret tt) ;;;
       requestData <- parse_body_or_empty empty_request (body event) ;;
       accessToken <- getZohoAccessToken ;;
       customerId <- createZohoCustomer accessToken (customerData requestData) ;;
       invoice <- createZohoInvoice accessToken customerId (as_invoice requestData) ;;
       t <- now ;;
       ret (ZohoV1.success [("success", Some (Js.JBool true));
                            ("invoice", Some (Js.obj invoice));
                            ("requestId", Some (Js.JStr requestId));
                            ("timestamp", Some (Js.JTime t))]))
      (failure (ZOHO_CONFIG (env w)) requestId).

End CreatePayment.

(** ** Zoho test function (file name unknown) *)

Module TestZoho.

Definition zohoConfig (e : Env) : ZohoConfig :=
  {| clientId := ZOHO_CLIENT_ID e;
     clientSecret := ZOHO_CLIENT_SECRET e;
     refreshToken := ZOHO_REFRESH_TOKEN e;
     organizationId := ZOHO_ORGANIZATION_ID e;
     baseUrl := "https://invoice.zoho.com/api/v3" |}.

Definition str_length (v : Js.str) : Z :=
  match v with
  | Some s => Z.of_nat (String.length s)
  | None => 0
  end.

Definition envCheck (cfg : ZohoConfig) : list (string * Js.Json) :=
  [("ZOHO_CLIENT_ID", Js.JBool (Js.truthy (clientId cfg)));
   ("ZOHO_CLIENT_SECRET", Js.JBool (Js.truthy (clientSecret cfg)));
   ("ZOHO_REFRESH_TOKEN", Js.JBool (Js.truthy (refreshToken cfg)));
   ("ZOHO_ORGANIZATION_ID", Js.JBool (Js.truthy (organizationId cfg)));
   ("CLIENT_ID_LENGTH", Js.JInt (str_length (clientId cfg)));
   ("REFRESH_TOKEN_LENGTH", Js.JInt (str_length (refreshToken cfg)))].

Definition preflight : Response :=
  {| statusCode := 200;
     resp_headers :=
       [("Access-Control-Allow-Origin", "*");
        ("Access-Control-Allow-Headers", "Content-Type");
        ("Access-Control-Allow-Methods", "GET, OPTIONS")];
     resp_body := EmptyBody |}.

Definition probe_request (cfg : ZohoConfig) (accessToken : Js.str) : Request :=
  {| method := GET;
     url := "https://invoice.zoho.com/api/v3/contacts";
     query := PerPageQuery 1;
     payload := NoPayload;
     headers := zoho_headers accessToken cfg false;
     timeout := Some 15000%Z |}.

(** [error.response.data?.error || error.response.statusText]. *)
Definition api_error_text (r : ErrResponse) : string :=
  Js.or_default (match er_data r with Some d => error_code d | None => None end)
                (er_statusText r).

Definition is_code (v : Js.str) (c : string) : bool :=
  match v with
  | Some s => String.eqb s c
  | None => false
  end.

(** The message and the type the catch block derives from the error. *)
Definition classify (error : Error) : string * string :=
  match response error with
  | Some r =>
      let errorMessage :=
        "API Error " ++ Js.of_Z (er_status r) ++ ": " ++ api_error_text r in
      let errorMessage :=
        if (er_status r =? 400)%Z then
          "Invalid Zoho credentials. Please check your ZOHO_CLIENT_ID, ZOHO_CLIENT_SECRET, and ZOHO_REFRESH_TOKEN."
        else if (er_status r =? 401)%Z then
          "Zoho refresh token expired. Please regenerate your refresh token."
        else if (er_status r =? 403)%Z then
          "Access denied. Please check your ZOHO_ORGANIZATION_ID and API permissions."
        else errorMessage in
      (errorMessage, "api_error")
  | None =>
      if is_code (code error) "ECONNABORTED"
      then ("Request timeout. Zoho API might be slow or unreachable.", "timeout")
      else if is_code (code error) "ENOTFOUND"
      then ("Network error. Cannot reach Zoho servers.", "network")
      else (message error, "unknown")
  end.

(** [error.response?.data || error.message] is kept as the message when
    there is no response document. *)
Definition errorDetails (error : Error) : Js.Json :=
  match response_data error with
  | Some d => Js.obj [("error", Js.jstr (error_code d));
                      ("error_description", Js.jstr (error_description d));
                      ("message", Js.jstr (data_message d))]
  | None => Js.JStr (message error)
  end.

Definition handler (event : NetlifyEvent unit) (context : Context) : M Response :=
  w <- ask ;;
  if httpMethod event =? "OPTIONS" then ret preflight
  else
    catch
      (let cfg := zohoConfig (env w) in
       let missing := missing_names cfg in
       if (0 <? length missing)%nat then
         ret {| statusCode := 500;
                resp_headers := json_headers;
                resp_body :=
                  JsonBody (Js.JObj
                    [("success", Js.JBool false);
                     ("error", Js.JStr ("Missing Zoho configuration: " ++ Js.join ", " missing));
                     ("debug", Js.JObj (envCheck cfg))]) |}
       else
         tokenResponse <- axios_request (CreatePayment.token_request cfg) ;;
         data <- defined "token_type" (ax_data tokenResponse) ;;
         let accessToken := access_token data in
         apiTestResponse <- axios_request (probe_request cfg accessToken) ;;
         _ <- defined "contacts" (ax_data apiTestResponse) ;;
         t <- now ;;
         ret {| statusCode := 200;
                resp_headers := json_headers;
                resp_body :=
                  JsonBody (Js.JObj
                    [("success", Js.JBool true);
                     ("message", Js.JStr "Zoho configuration is working correctly");
                     ("timestamp", Js.JTime t);
                     ("debug",
                      Js.JObj (envCheck cfg ++
                               [("tokenObtained", Js.JBool true);
                                ("apiCallSuccessful", Js.JBool true);
                                ("organizationAccess", Js.JBool true)])%list)]) |})
      (fun error =>
         let (errorMessage, errorType) := classify error in
         t <- now ;;
         ret {| statusCode := 500;
                resp_headers := json_headers;
                resp_body :=
                  JsonBody (Js.JObj
                    [("success", Js.JBool false);
                     ("error", Js.JStr errorMessage);
                     ("errorType", Js.JStr errorType);
                     ("timestamp", Js.JTime t);
                     ("debug",
                      Js.JObj [("ZOHO_CLIENT_ID", Js.JBool (Js.truthy (ZOHO_CLIENT_ID (env w))));
                               ("ZOHO_CLIENT_SECRET", Js.JBool (Js.truthy (ZOHO_CLIENT_SECRET (env w))));
                               ("ZOHO_REFRESH_TOKEN", Js.JBool (Js.truthy (ZOHO_REFRESH_TOKEN (env w))));
                               ("ZOHO_ORGANIZATION_ID", Js.JBool (Js.truthy (ZOHO_ORGANIZATION_ID (env w))));
                               ("errorDetails", errorDetails error)])]) |}).

End TestZoho.

(** ** supabase/functions/zoho-integration/index.ts *)

Module Supabase.

(** The [Request] the edge function receives: its method, the path name
    of its URL and what [req.json()] yields. *)
Record EdgeRequest := {
  req_method : string;
  pathname : string;
  req_json : Parsed RequestData
}.

Record EdgeResponse := {
  edge_status : Z;
  edge_headers : list (string * string);
  edge_body : Body
}.

Record Config := {
  cfg_clientId : Js.str;
  cfg_clientSecret : Js.str;
  cfg_refreshToken : Js.str;
  cfg_organizationId : Js.str
}.

Definition zohoConfig (e : Env) : Config :=
  {| cfg_clientId := ZOHO_CLIENT_ID e;
     cfg_clientSecret := ZOHO_CLIENT_SECRET e;
     cfg_refreshToken := ZOHO_REFRESH_TOKEN e;
     cfg_organizationId := ZOHO_ORGANIZATION_ID e |}.

Definition token_request (config : Config) : Request :=
  {| method := POST;
     url := "https://accounts.zoho.com/oauth/v2/token";
     query := NoQuery;
     payload := FormPayload {| refresh_token := cfg_refreshToken config;
                               client_id := cfg_clientId config;
                               client_secret := cfg_clientSecret config |};
     headers := {| Authorization := None; organizationid := None;
                   ContentType := Some "application/x-www-form-urlencoded" |};
     timeout := None |}.

(** [await response.json()]; the text of the syntax error is the
    engine's. *)
Definition json_syntax_error : Error := new_Error "Unexpected token in JSON".

Definition response_json (r : FetchResponse) : M VendorData :=
  match f_json r with
  | Some d => ret d
  | None => throw json_syntax_error
  end.

Definition getZohoAccessToken (config : Config) : M VendorData :=
  response <- fetch_request (token_request config) ;;
  if negb (f_ok response)
  then throw (new_Error ("Failed to get Zoho access token: " ++
                         Js.of_Z (f_status response) ++ " " ++ f_text response))
  else response_json response.

Definition auth_headers (token : VendorData) (config : Config) (json : bool) : Headers :=
  {| Authorization := Some ("Zoho-oauthtoken " ++ Js.show (access_token token));
     organizationid := cfg_organizationId config;
     ContentType := if json then Some "application/json" else None |}.

Definition search_request (token : VendorData) (config : Config) (email : Js.str) : Request :=
  {| method := GET;
     url := "https://invoice.zoho.com/api/v3/contacts";
     query := EmailQuery email;
     payload := NoPayload;
     headers := auth_headers token config false;
     timeout := None |}.

Definition findZohoCustomer (email : Js.str) (config : Config) : M Contact :=
  tokenResponse <- getZohoAccessToken config ;;
  response <- fetch_request (search_request tokenResponse config email) ;;
  if negb (f_ok response)
  then throw (new_Error "Customer not found and could not be created")
  else
    data <- response_json response ;;
    match contacts data with
    | Some (first :: _) => ret first
    | _ => throw (new_Error "Customer not found")
    end.

Definition create_request (token : VendorData) (config : Config)
    (customerData : CustomerData) : Request :=
  {| method := POST;
     url := "https://invoice.zoho.com/api/v3/contacts";
     query := NoQuery;
     payload := ContactJson (ZohoV1.customerPayload customerData);
     headers := auth_headers token config true;
     timeout := None |}.

Definition createZohoCustomer (customerData : CustomerData) (config : Config)
    : M (option Contact) :=
  tokenResponse <- getZohoAccessToken config ;;
  response <- fetch_request (create_request tokenResponse config customerData) ;;
  if negb (f_ok response)
  then (found <- findZohoCustomer (email customerData) config ;; ret (Some found))
  else
    data <- response_json response ;;
    ret (contact data).

Definition invoice_request (token : VendorData) (config : Config)
    (p : InvoicePayload) : Request :=
  {| method := POST;
     url := "https://invoice.zoho.com/api/v3/invoices";
     query := NoQuery;
     payload := InvoiceJson p;
     headers := auth_headers token config true;
     timeout := None |}.

Definition createZohoInvoice (invoiceData : RequestData) (config : Config) : M Obj :=
  tokenResponse <- getZohoAccessToken config ;;
  items <- defined "map" (rd_serviceItems invoiceData) ;;
  let lineItems := map (line_item true) items in
  t_number <- now ;;
  t_date <- now ;;
  t_due <- now ;;
  let p := CreatePayment.invoicePayload (customerId invoiceData) (as_invoice invoiceData)
             lineItems t_number t_date t_due in
  response <- fetch_request (invoice_request tokenResponse config p) ;;
  if negb (f_ok response)
  then throw (new_Error ("Failed to create Zoho invoice: " ++
                         Js.of_Z (f_status response) ++ " " ++ f_text response))
  else
    data <- response_json response ;;
    inv <- defined "invoice_id" (invoice data) ;;
    ret (CreatePayment.invoice_summary inv).

Definition get_request (token : VendorData) (config : Config) (invoiceId : string) : Request :=
  {| method := GET;
     url := "https://invoice.zoho.com/api/v3/invoices/" ++ invoiceId;
     query := NoQuery;
     payload := NoPayload;
     headers := auth_headers token config false;
     timeout := None |}.

Definition getZohoInvoice (invoiceId : string) (config : Config) : M (option Invoice) :=
  tokenResponse <- getZohoAccessToken config ;;
  response <- fetch_request (get_request tokenResponse config invoiceId) ;;
  if negb (f_ok response)
  then throw (new_Error "Invoice not found")
  else
    data <- response_json response ;;
    ret (invoice data).

(** [path.split('/').pop()]: the text after the last slash. *)
Fixpoint last_segment_from (acc s : string) : string :=
  match s with
  | EmptyString => acc
  | String c rest =>
      if Ascii.eqb c "/"%char
      then last_segment_from "" rest
      else last_segment_from (acc ++ String c "") rest
  end.

Definition last_segment (s : string) : string := last_segment_from "" s.

Definition contact_json (c : Contact) : Js.Json :=
  Js.obj [("contact_id", Js.jstr (contact_id c));
          ("contact_name", Js.jstr (contact_name c));
          ("email", Js.jstr (contact_email c))].

Definition invoice_json (i : Invoice) : Js.Json :=
  Js.obj [("invoice_id", Js.jstr (invoice_id i));
          ("invoice_number", Js.jstr (invoice_number i));
          ("total", total i);
          ("status", Js.jstr (status i));
          ("last_payment_date", Js.jstr (last_payment_date i))].

Definition token_json (d : VendorData) : Js.Json :=
  Js.obj [("access_token", Js.jstr (access_token d))].

Definition json_response (corsHeaders : list (string * string)) (b : Body) : EdgeResponse :=
  {| edge_status := 200;
     edge_headers := (("Content-Type", "application/json") :: corsHeaders)%list;
     edge_body := b |}.

Definition opt_body {A} (f : A -> Js.Json) (v : option A) : Body :=
  match v with
  | Some a => JsonBody (f a)
  | None => EmptyBody
  end.

Definition parsed {A} (p : Parsed A) : M A :=
  match p with
  | Parses a => ret a
  | Malformed e => throw e
  end.

(** The function handed to [Deno.serve]; [corsHeaders] is imported from
    [../_shared/cors.ts]. *)
Definition serve (corsHeaders : list (string * string)) (req : EdgeRequest)
    : M EdgeResponse :=
  w <- ask ;;
  if req_method req =? "OPTIONS"
  then ret {| edge_status := 200; edge_headers := corsHeaders; edge_body := EmptyBody |}
  else
    catch
      (let path := pathname req in
       let zohoConfig := zohoConfig (env w) in
       if negb (Js.truthy (cfg_clientId zohoConfig))
          || negb (Js.truthy (cfg_clientSecret zohoConfig))
          || negb (Js.truthy (cfg_refreshToken zohoConfig))
       then throw (new_Error "Zoho credentials not configured. Please check ZOHO_CLIENT_ID, ZOHO_CLIENT_SECRET, and ZOHO_REFRESH_TOKEN environment variables.")
       else if Js.includes "/token" path then
         tokenResponse <- getZohoAccessToken zohoConfig ;;
         ret (json_response corsHeaders (JsonBody (token_json tokenResponse)))
       else if Js.includes "/customers" path && (req_method req =? "POST") then
         customerData <- parsed (req_json req) ;;
         customer <- createZohoCustomer (as_customer customerData) zohoConfig ;;
         ret (json_response corsHeaders (opt_body contact_json customer))
       else if Js.includes "/invoices" path && (req_method req =? "POST") then
         invoiceData <- parsed (req_json req) ;;
         invoice <- createZohoInvoice invoiceData zohoConfig ;;
         ret (json_response corsHeaders (JsonBody (Js.obj invoice)))
       else if Js.includes "/invoices/" path && (req_method req =? "GET") then
         let invoiceId := last_segment path in
         invoice <- getZohoInvoice invoiceId zohoConfig ;;
         ret (json_response corsHeaders (opt_body invoice_json invoice))
       else
         ret {| edge_status := 404;
                edge_headers := (("Content-Type", "application/json") :: corsHeaders)%list;
                edge_body := JsonBody (Js.JObj [("error", Js.JStr "Endpoint not found")]) |})
      (fun error =>
         t <- now ;;
         ret {| edge_status := 500;
                edge_headers := (("Content-Type", "application/json") :: corsHeaders)%list;
                edge_body :=
                  JsonBody (Js.JObj
                    [("error", Js.JStr (Js.or_default (Some (message error)) "Internal server error"));
                     ("details", Js.JObj [("timestamp", Js.JTime t);
                                          ("path", Js.JStr (pathname req))])]) |}).

End Supabase.

(** ** E-mail functions: shared request documents *)

Module Mail.

(** The [data] document of an e-mail request; every property may be
    missing. *)
Record EmailData := {
  d_name : Js.str;
  d_email : Js.str;
  d_subject : Js.str;
  d_message : Js.str;
  customer_name : Js.str;
  customer_email : Js.str;
  service_type : Js.str;
  budget_range : Js.str;
  timeline : Js.str;
  project_details : Js.str;
  company_name : Js.str;
  d_phone : Js.str;
  clientName : Js.str;
  clientEmail : Js.str;
  loginUrl : Js.str;
  d_serviceName : Js.str;
  d_packageType : Js.str;
  orderId : Js.str;
  amount : Js.str
}.

Record EmailRequest := {
  type : Js.str;
  data : option EmailData
}.

Definition empty_request : EmailRequest := {| type := None; data := None |}.

Definition is_type (t : Js.str) (s : string) : bool :=
  match t with
  | Some x => String.eqb x s
  | None => false
  end.

Definition hs (v : Js.str) : HtmlArg := HStr (Js.show v).

Definition business_address : string := "contact@mechinweb.com".

End Mail.
Export Mail.

(** ** netlify/functions/sendEmail.js *)

Module SendEmailV1.

Definition handleContactForm (data : option EmailData) : M unit :=
  w <- ask ;;
  d <- destructured "name" "data" data ;;
  let customerEmailOptions :=
    {| from := EMAIL_USER (env w);
       to := d_email d;
       subject := "Message Received - Mechinweb IT Services";
       html_template := "contact-confirmation";
       html_args := [hs (d_name d); hs (d_subject d); hs (d_message d)] |} in
  t <- now ;;
  let businessEmailOptions :=
    {| from := EMAIL_USER (env w);
       to := Some business_address;
       subject := "New Contact Message - " ++ Js.show (d_subject d);
       html_template := "contact-notification";
       html_args := [hs (d_name d); hs (d_email d); hs (d_subject d);
                     hs (d_message d); HLocaleTime t] |} in
  _ <- all2 (transporter_sendMail customerEmailOptions)
            (transporter_sendMail businessEmailOptions) ;;
  ret tt.

Definition handleQuoteRequest (data : option EmailData) : M unit :=
  w <- ask ;;
  d <- destructured "customer_name" "data" data ;;
  let customerEmailOptions :=
    {| from := EMAIL_USER (env w);
       to := customer_email d;
       subject := "Quote Request Received - Mechinweb IT Services";
       html_template := "quote-confirmation";
       html_args := [hs (customer_name d); hs (service_type d);
                     hs (budget_range d); hs (timeline d)] |} in
  t <- now ;;
  let businessEmailOptions :=
    {| from := EMAIL_USER (env w);
       to := Some business_address;
       subject := "New Quote Request - " ++ Js.show (customer_name d);
       html_template := "quote-notification";
       html_args := [hs (customer_name d); hs (customer_email d);
                     HStr (Js.or_default (company_name d) "Not provided");
                     HStr (Js.or_default (d_phone d) "Not provided");
                     hs (service_type d); hs (budget_range d); hs (timeline d);
                     hs (project_details d); HLocaleTime t] |} in
  _ <- all2 (transporter_sendMail customerEmailOptions)
            (transporter_sendMail businessEmailOptions) ;;
  ret tt.

Definition handleWelcomeEmail (data : option EmailData) : M unit :=
  w <- ask ;;
  d <- destructured "clientName" "data" data ;;
  let emailOptions :=
    {| from := EMAIL_USER (env w);
       to := clientEmail d;
       subject := "Welcome to Mechinweb - Your Account is Ready!";
       html_template := "welcome";
       html_args := [hs (clientName d); hs (clientName d); hs (clientEmail d);
                     hs (loginUrl d)] |} in
  _ <- transporter_sendMail emailOptions ;;
  ret tt.

Definition handlePaymentConfirmation (data : option EmailData) : M unit :=
  w <- ask ;;
  d <- destructured "clientName" "data" data ;;
  t <- now ;;
  let emailOptions :=
    {| from := EMAIL_USER (env w);
       to := clientEmail d;
       subject := "Payment Confirmation - Mechinweb IT Services";
       html_template := "payment-confirmation";
       html_args := [hs (clientName d); hs (d_serviceName d); hs (d_packageType d);
                     hs (orderId d); hs (amount d); HLocaleDate t] |} in
  _ <- transporter_sendMail emailOptions ;;
  ret tt.

Definition preflight : Response :=
  {| statusCode := 200;
     resp_headers :=
       [("Access-Control-Allow-Origin", "*");
        ("Access-Control-Allow-Headers", "Content-Type");
        ("Access-Control-Allow-Methods", "POST, OPTIONS")];
     resp_body := EmptyBody |}.

Definition credentials_missing : string :=
  "Email credentials not configured. Please set EMAIL_USER and EMAIL_PASSWORD in Netlify environment variables.".

(** [JSON.parse(event.body)] followed by the destructuring of the result;
    without a body one of the two throws, with a text that is the
    engine's. *)
Definition parse_body (b : option (Parsed EmailRequest)) : M EmailRequest :=
  match b with
  | None => throw (new_Error "Unexpected end of JSON input")
  | Some (Parses r) => ret r
  | Some (Malformed e) => throw e
  end.

Definition handler (event : NetlifyEvent EmailRequest) (context : Context) : M Response :=
  w <- ask ;;
  if httpMethod event =? "OPTIONS" then ret preflight
  else if negb (httpMethod event =? "POST") then ret CreatePayment.method_not_allowed
  else
    catch
      (request <- parse_body (body event) ;;
       (if negb (Js.truthy (EMAIL_USER (env w))) || negb (Js.truthy (EMAIL_PASSWORD (env w)))
        then throw (new_Error credentials_missing)
        else ret tt) ;;;
       nodemailer createTransporter ;;;
       (if is_type (type request) "contact_form" then handleContactForm (data request)
        else if is_type (type request) "quote_request" then handleQuoteRequest (data request)
        else if is_type (type request) "welcome_email" then handleWelcomeEmail (data request)
        else if is_type (type request) "payment_confirmation"
        then handlePaymentConfirmation (data request)
        else throw (new_Error "Invalid email type")) ;;;
       t <- now ;;
       ret {| statusCode := 200;
              resp_headers := json_headers;
              resp_body := JsonBody (Js.JObj [("success", Js.JBool true);
                                              ("message", Js.JStr "Email sent successfully");
                                              ("timestamp", Js.JTime t)]) |})
      (fun error =>
         t <- now ;;
         ret {| statusCode := 500;
                resp_headers := json_headers;
                resp_body := JsonBody (Js.JObj [("success", Js.JBool false);
                                                ("error", Js.JStr (message error));
                                                ("timestamp", Js.JTime t)]) |}).

End SendEmailV1.

(** ** E-mail function with retry (file name unknown) *)

Module SendEmail.

Definition verifyEmailConfig : M bool :=
  catch
    (transporter_verify ;;; ret true)
    (fun error => throw (new_Error ("Email configuration invalid: " ++ message error))).

(** The body of the loop [for (attempt = 1; attempt <= maxRetries;
    attempt++)], entered with [remaining = maxRetries + 1 - attempt]
    iterations to go.  Leaving the loop without a [return] yields
    [undefined], here [None]. *)
Fixpoint retry_loop (remaining attempt maxRetries : nat) (emailOptions : EmailOptions)
    : M (option SendInfo) :=
  match remaining with
  | O => ret None
  | S k =>
      catch
        (result <- transporter_sendMail emailOptions ;; ret (Some result))
        (fun error =>
           if (attempt =? maxRetries)%nat then throw error
           else
             sleep (2 ^ Z.of_nat attempt * 1000) ;;;
             retry_loop k (S attempt) maxRetries emailOptions)
  end.

Definition sendEmailWithRetry (emailOptions : EmailOptions) (maxRetries : nat)
    : M (option SendInfo) :=
  retry_loop maxRetries 1 maxRetries emailOptions.

(** Every caller leaves [maxRetries] at its default. *)
Definition default_maxRetries : nat := 2.

Definition required_missing : string :=
  "Missing required fields: name, email, subject, message".

Definition handleContactForm (data : option EmailData) (requestId : string) : M unit :=
  w <- ask ;;
  d <- defined "email" data ;;
  (if negb (Js.truthy (d_name d)) || negb (Js.truthy (d_email d))
      || negb (Js.truthy (d_subject d)) || negb (Js.truthy (d_message d))
   then throw (new_Error required_missing)
   else ret tt) ;;;
  let customerEmailOptions :=
    {| from := EMAIL_USER (env w);
       to := d_email d;
       subject := "Message Received - Mechinweb IT Services";
       html_template := "contact-confirmation";
       html_args := [hs (d_name d); hs (d_subject d); hs (d_message d)] |} in
  t <- now ;;
  let businessEmailOptions :=
    {| from := EMAIL_USER (env w);
       to := Some business_address;
       subject := "New Contact Message - " ++ Js.show (d_subject d);
       html_template := "contact-notification";
       html_args := [hs (d_name d); hs (d_email d); hs (d_subject d);
                     hs (d_message d); HLocaleTime t; HStr requestId] |} in
  _ <- all2 (sendEmailWithRetry customerEmailOptions default_maxRetries)
            (sendEmailWithRetry businessEmailOptions default_maxRetries) ;;
  ret tt.

Definition handleQuoteRequest (data : option EmailData) (requestId : string) : M unit :=
  w <- ask ;;
  d <- defined "customer_email" data ;;
  let customerEmailOptions :=
    {| from := EMAIL_USER (env w);
       to := customer_email d;
       subject := "Quote Request Received - Mechinweb IT Services";
       html_template := "quote-confirmation";
       html_args := [hs (customer_name d); hs (service_type d);
                     hs (budget_range d); hs (timeline d); HStr requestId] |} in
  t <- now ;;
  let businessEmailOptions :=
    {| from := EMAIL_USER (env w);
       to := Some business_address;
       subject := "New Quote Request - " ++ Js.show (customer_name d);
       html_template := "quote-notification";
       html_args := [hs (customer_name d); hs (customer_email d);
                     HStr (Js.or_default (company_name d) "Not provided");
                     HStr (Js.or_default (d_phone d) "Not provided");
                     hs (service_type d); hs (budget_range d); hs (timeline d);
                     hs (project_details d); HLocaleTime t; HStr requestId] |} in
  _ <- all2 (sendEmailWithRetry customerEmailOptions default_maxRetries)
            (sendEmailWithRetry businessEmailOptions default_maxRetries) ;;
  ret tt.

Definition handleWelcomeEmail (data : option EmailData) (requestId : string) : M unit :=
  w <- ask ;;
  d <- defined "clientEmail" data ;;
  let emailOptions :=
    {| from := EMAIL_USER (env w);
       to := clientEmail d;
       subject := "Welcome to Mechinweb - Your Account is Ready!";
       html_template := "welcome";
       html_args := [hs (clientName d); hs (clientName d); hs (clientEmail d);
                     hs (loginUrl d)] |} in
  _ <- sendEmailWithRetry emailOptions default_maxRetries ;;
  ret tt.

Definition handlePaymentConfirmation (data : option EmailData) (requestId : string)
    : M unit :=
  w <- ask ;;
  d <- defined "clientEmail" data ;;
  t <- now ;;
  let emailOptions :=
    {| from := EMAIL_USER (env w);
       to := clientEmail d;
       subject := "Payment Confirmation - Mechinweb IT Services";
       html_template := "payment-confirmation";
       html_args := [hs (clientName d); hs (d_serviceName d); hs (d_packageType d);
                     hs (orderId d); hs (amount d); HLocaleDate t; HStr requestId] |} in
  _ <- sendEmailWithRetry emailOptions default_maxRetries ;;
  ret tt.

Definition preflight : Response :=
  {| statusCode := 200;
     resp_headers :=
       [("Access-Control-Allow-Origin", "*");
        ("Access-Control-Allow-Headers", "Content-Type, Authorization");
        ("Access-Control-Allow-Methods", "POST, OPTIONS")];
     resp_body := EmptyBody |}.

Definition method_not_allowed (requestId : string) : Response :=
  {| statusCode := 405;
     resp_headers := json_headers;
     resp_body := JsonBody (Js.JObj [("success", Js.JBool false);
                                     ("error", Js.JStr "Method not allowed");
                                     ("requestId", Js.JStr requestId)]) |}.

(** [JSON.parse(event.body || '{}')], a parse error being replaced. *)
Definition parse_body (b : option (Parsed EmailRequest)) : M EmailRequest :=
  match b with
  | None => ret empty_request
  | Some (Parses r) => ret r
  | Some (Malformed _) => throw (new_Error "Invalid JSON in request body")
  end.

Definition handler (event : NetlifyEvent EmailRequest) (context : Context) : M Response :=
  w <- ask ;;
  requestId <- requestId_of context ;;
  if httpMethod event =? "OPTIONS" then ret preflight
  else if negb (httpMethod event =? "POST") then ret (method_not_allowed requestId)
  else
    catch
      (request <- parse_body (body event) ;;
       (if negb (Js.truthy (EMAIL_USER (env w))) || negb (Js.truthy (EMAIL_PASSWORD (env w)))
        then throw (new_Error SendEmailV1.credentials_missing)
        else ret tt) ;;;
       nodemailer createTransport ;;;
       _ <- verifyEmailConfig ;;
       (if is_type (type request) "contact_form"
        then handleContactForm (data request) requestId
        else if is_type (type request) "quote_request"
        then handleQuoteRequest (data request) requestId
        else if is_type (type request) "welcome_email"
        then handleWelcomeEmail (data request) requestId
        else if is_type (type request) "payment_confirmation"
        then handlePaymentConfirmation (data request) requestId
        else throw (new_Error ("Invalid email type: " ++ Js.show (type request)))) ;;;
       t <- now ;;
       ret {| statusCode := 200;
              resp_headers := json_headers;
              resp_body := JsonBody (Js.JObj [("success", Js.JBool true);
                                              ("message", Js.JStr "Email sent successfully");
                                              ("requestId", Js.JStr requestId);
                                              ("timestamp", Js.JTime t)]) |})
      (fun error =>
         t <- now ;;
         ret {| statusCode := 500;
                resp_headers := json_headers;
                resp_body :=
                  JsonBody (Js.obj
                    [("success", Some (Js.JBool false));
                     ("error", Some (Js.JStr (message error)));
                     ("requestId", Some (Js.JStr requestId));
                     ("timestamp", Some (Js.JTime t));
                     ("debug",
                      Some (Js.obj [("hasEmailUser", Some (Js.JBool (Js.truthy (EMAIL_USER (env w)))));
                                    ("hasEmailPassword", Some (Js.JBool (Js.truthy (EMAIL_PASSWORD (env w)))));
                                    ("emailUser", Js.jstr (EMAIL_USER (env w)));
                                    ("nodeVersion", Some (Js.JStr (node_version w)))]))]) |}).

End SendEmail.

(** ** E-mail test functions (file names unknown) *)

Module TestEmail.

Definition envCheck (e : Env) : Js.Json :=
  Js.obj [("EMAIL_USER", Some (Js.JBool (Js.truthy (EMAIL_USER e))));
          ("EMAIL_PASSWORD", Some (Js.JBool (Js.truthy (EMAIL_PASSWORD e))));
          ("EMAIL_USER_VALUE", Js.jstr (EMAIL_USER e));
          ("NODE_ENV", Js.jstr (NODE_ENV e));
          ("NETLIFY", Some (Js.JBool (Js.truthy (NETLIFY e))));
          ("URL", Js.jstr (URL e))].

Definition handler (event : NetlifyEvent unit) (context : Context) : M Response :=
  w <- ask ;;
  if httpMethod event =? "OPTIONS" then ret TestZoho.preflight
  else
    catch
      (if negb (Js.truthy (EMAIL_USER (env w))) || negb (Js.truthy (EMAIL_PASSWORD (env w)))
       then
         ret {| statusCode := 500;
                resp_headers := json_headers;
                resp_body := JsonBody (Js.JObj [("success", Js.JBool false);
                                                ("error", Js.JStr "Email credentials not configured");
                                                ("debug", envCheck (env w))]) |}
       else
         nodemailer createTransporter ;;;
         transporter_verify ;;;
         (if httpMethod event =? "POST" then
            t <- now ;;
            let testEmail :=
              {| from := EMAIL_USER (env w);
                 to := EMAIL_USER (env w);
                 subject := "Netlify Email Test - Mechinweb";
                 html_template := "email-test";
                 html_args := [HIsoTime t] |} in
            _ <- transporter_sendMail testEmail ;;
            ret tt
          else ret tt) ;;;
         t <- now ;;
         ret {| statusCode := 200;
                resp_headers := json_headers;
                resp_body := JsonBody (Js.JObj [("success", Js.JBool true);
                                                ("message", Js.JStr "Email configuration is working");
                                                ("timestamp", Js.JTime t);
                                                ("debug", envCheck (env w))]) |})
      (fun error =>
         t <- now ;;
         ret {| statusCode := 500;
                resp_headers := json_headers;
                resp_body :=
                  JsonBody (Js.JObj
                    [("success", Js.JBool false);
                     ("error", Js.JStr (message error));
                     ("timestamp", Js.JTime t);
                     ("debug",
                      Js.obj [("EMAIL_USER", Some (Js.JBool (Js.truthy (EMAIL_USER (env w)))));
                              ("EMAIL_PASSWORD", Some (Js.JBool (Js.truthy (EMAIL_PASSWORD (env w)))));
                              ("EMAIL_USER_VALUE", Js.jstr (EMAIL_USER (env w)))])]) |}).

End TestEmail.

Module TestMailer.

(** This function has no preflight branch and sets no headers. *)
Definition handler (event : NetlifyEvent unit) (context : Context) : M Response :=
  w <- ask ;;
  if negb (Js.truthy (EMAIL_USER (env w))) || negb (Js.truthy (EMAIL_PASSWORD (env w)))
  then
    ret {| statusCode := 500;
           resp_headers := [];
           resp_body := JsonBody (Js.JObj [("error", Js.JStr "Email credentials not configured.")]) |}
  else
    catch
      (nodemailer createTransporter ;;;
       transporter_verify ;;;
       ret {| statusCode := 200;
              resp_headers := [];
              resp_body := JsonBody (Js.JObj [("success", Js.JBool true);
                                              ("message", Js.JStr "Nodemailer is configured correctly!")]) |})
      (fun error =>
         ret {| statusCode := 500;
                resp_headers := [];
                resp_body := JsonBody (Js.JObj [("success", Js.JBool false);
                                                ("error", Js.JStr "Test failed.");
                                                ("errorMessage", Js.JStr (message error))]) |}).

End TestMailer.

(** ** src/pages/ServicePurchase.tsx

    Amounts are JavaScript numbers, that is IEEE 754 doubles: they are
    primitive floats, [+] and [*] are the rounded operations of the
    processor, and the literal [0] is positive zero. *)

Module ServicePurchase.

Inductive Package := basic | standard | enterprise.

Definition package_name (p : Package) : string :=
  match p with
  | basic => "basic"
  | standard => "standard"
  | enterprise => "enterprise"
  end.

(** A price table; a property may be missing ([convertedPricing] starts
    as [{}]). *)
Record Pricing := {
  p_basic : option float;
  p_standard : option float;
  p_enterprise : option float
}.

Definition price_of (p : Pricing) (k : Package) : option float :=
  match k with
  | basic => p_basic p
  | standard => p_standard p
  | enterprise => p_enterprise p
  end.

Record Service := {
  service_id : string;
  service_name : string;
  pricing : Pricing
}.

Record AddOn := {
  addon_id : string;
  addon_name : string;
  addon_description : string;
  price : float
}.

Record User := { user_id : string }.

(** The component state the pricing functions read. *)
Record State := {
  user : option User;
  service : option Service;
  selectedPackage : Package;
  quantity : float;
  selectedAddOns : list string;
  userCurrency : string;
  convertedPricing : Pricing;
  convertedAddOns : list AddOn
}.

(** [v || 0] on a number that may be missing: [undefined], both zeros
    and NaN are falsy. *)
Definition or_zero (v : option float) : float :=
  match v with
  | Some x => if PrimFloat.is_zero x || PrimFloat.is_nan x then 0%float else x
  | None => 0%float
  end.

Definition getCurrentPrice (st : State) : float :=
  match service st with
  | None => 0%float
  | Some s =>
      let pricing := if userCurrency st =? "USD" then pricing s else convertedPricing st in
      or_zero (price_of pricing (selectedPackage st))
  end.

Definition getAddOnPrice (st : State) (addOnId : string) : float :=
  match find (fun a => String.eqb (addon_id a) addOnId) (convertedAddOns st) with
  | Some addOn => price addOn
  | None => 0%float
  end.

Definition getTotalAddOnPrice (st : State) : float :=
  fold_left (fun total addOnId => (total + getAddOnPrice st addOnId)%float)
            (selectedAddOns st) 0%float.

Definition getTotalPrice (st : State) : float :=
  let basePrice := (getCurrentPrice st * quantity st)%float in
  let addOnPrice := (getTotalAddOnPrice st * quantity st)%float in
  (basePrice + addOnPrice)%float.

(** The row handed to [supabase.from('orders').insert]. *)
Definition Row := list (string * Js.Json).

Record Order := { order_id : string }.

(** What the insert resolves to: [{ data, error }]. *)
Record InsertResult := {
  ins_data : option Order;
  ins_error : option Error
}.

Inductive UiEvent :=
| EvSetIsLoading (b : bool)
| EvConvert (amount : float) (source target : string) (o : Res float)
| EvInsert (row : Row) (o : Res InsertResult)
| EvNavigate (target : string)
| EvAlert (text : string).

(** The page's surroundings.  [convertCurrency] is imported from
    [../utils/currency]; [setIsLoading] is not declared in the file, so
    the name resolves in the global scope: [setIsLoading_bound] says
    whether a function is bound there. *)
Record Browser := {
  convertCurrency_result : nat -> float -> string -> string -> Res float;
  insert_result : nat -> Row -> Res InsertResult;
  setIsLoading_bound : bool
}.

Definition P (A : Type) : Type := Browser -> nat -> Res A * list UiEvent.

Definition pret {A} (a : A) : P A := fun _ _ => (Ok a, []).
Definition pthrow {A} (e : Error) : P A := fun _ _ => (Throw e, []).

Definition pbind {A B} (m : P A) (k : A -> P B) : P B :=
  fun w n =>
    match m w n with
    | (Ok a, t) =>
        match k a w (length t + n) with
        | (r, t') => (r, (t ++ t')%list)
        end
    | (Throw e, t) => (Throw e, t)
    end.

(** [try { m } catch (e) { h e } finally { f }]. *)
Definition try_catch_finally {A} (m : P A) (h : Error -> P A) (f : P unit) : P A :=
  fun w n =>
    let '(r1, t1) :=
      match m w n with
      | (Ok a, t) => (Ok a, t)
      | (Throw e, t) =>
          match h e w (length t + n) with
          | (r, t') => (r, (t ++ t')%list)
          end
      end in
    match f w (length t1 + n) with
    | (Ok _, t2) => (r1, (t1 ++ t2)%list)
    | (Throw e, t2) => (Throw e, (t1 ++ t2)%list)
    end.

Notation "x <~ m ;; k" := (pbind m (fun x => k))
  (at level 61, m at next level, right associativity).

Definition setIsLoading (b : bool) : P unit :=
  fun w _ =>
    if setIsLoading_bound w
    then (Ok tt, [EvSetIsLoading b])
    else (Throw (new_Error "setIsLoading is not defined"), []).

Definition convertCurrency (amount : float) (source target : string) : P float :=
  fun w n =>
    let o := convertCurrency_result w n amount source target in
    (o, [EvConvert amount source target o]).

Definition insert_order (row : Row) : P InsertResult :=
  fun w n =>
    let o := insert_result w n row in
    (o, [EvInsert row o]).

Definition navigate (target : string) : P unit := fun _ _ => (Ok tt, [EvNavigate target]).
Definition alert (text : string) : P unit := fun _ _ => (Ok tt, [EvAlert text]).

Definition handlePurchase (st : State) : P unit :=
  match user st, service st with
  | Some u, Some s =>
      try_catch_finally
        (_ <~ setIsLoading true ;;
         let totalPrice := getTotalPrice st in
         let basePrice := getCurrentPrice st in
         usdPrice <~ (if userCurrency st =? "USD" then pret totalPrice
                      else convertCurrency totalPrice (userCurrency st) "USD") ;;
         usdBasePrice <~ (if userCurrency st =? "USD" then pret basePrice
                          else convertCurrency basePrice (userCurrency st) "USD") ;;
         amount_inr <~ (if userCurrency st =? "INR" then pret totalPrice
                        else convertCurrency usdPrice "USD" "INR") ;;
         amount_aud <~ (if userCurrency st =? "AUD" then pret totalPrice
                        else convertCurrency usdPrice "USD" "AUD") ;;
         result <~ insert_order
                     [("client_id", Js.JStr (user_id u));
                      ("service_id", Js.JStr (service_id s));
                      ("package_type", Js.JStr (package_name (selectedPackage st)));
                      ("amount_usd", Js.JNum usdPrice);
                      ("amount_inr", Js.JNum amount_inr);
                      ("amount_aud", Js.JNum amount_aud);
                      ("currency", Js.JStr (userCurrency st));
                      ("status", Js.JStr "pending")] ;;
         match ins_error result with
         | Some error => pthrow error
         | None =>
             match ins_data result with
             | Some order => navigate ("/payment/" ++ order_id order)
             | None => pthrow (new_Error "Cannot read properties of null (reading 'id')")
             end
         end)
        (fun _ => alert "Failed to create order. Please try again.")
        (setIsLoading false)
  | _, _ => pret tt
  end.

(** The rows an execution handed to the database. *)
Definition inserted (t : list UiEvent) : list Row :=
  flat_map (fun e => match e with EvInsert row _ => [row] | _ => [] end) t.

End ServicePurchase.

(** ** src/pages/EmailVerificationPage.tsx *)

Module EmailVerificationPage.

Record UserMetadata := { meta_name : Js.str }.

(** The user object of the authentication service, as far as the page
    reads it. *)
Record AuthUser := {
  auth_id : string;
  auth_email : Js.str;
  email_confirmed_at : Js.str;
  user_metadata : option UserMetadata
}.

Record Session := { session_user : option AuthUser }.

(** [location.state?.userData || {}]. *)
Record UserData := {
  ud_name : Js.str;
  ud_phone : Js.str;
  ud_company : Js.str
}.

Definition Row := list (string * Js.Json).

(** What a query on [clients] resolves to: [{ data, error }]. *)
Record QueryResult := {
  q_data : option string;
  q_error : option Error
}.

Inductive PageEvent :=
| EvGetUser (o : Res (option AuthUser))
| EvSelectProfile (id : string) (o : Res QueryResult)
| EvInsertProfile (row : Row) (o : Res QueryResult)
| EvUpdateProfile (id : string) (row : Row) (o : Res QueryResult)
| EvNow (t : Z)
| EvResend (kind email redirect : string) (o : Res QueryResult)
| EvSetIsVerified (b : bool)
| EvSetIsResending (b : bool)
| EvSetResendMessage (text : string)
| EvSetTimeout (target : string) (ms : Z).

(** The page's surroundings: the authentication service, the [clients]
    table, the clock and [window.location.origin]. *)
Record Page := {
  getUser_result : nat -> Res (option AuthUser);
  select_result : nat -> string -> Res QueryResult;
  insert_result : nat -> Row -> Res QueryResult;
  update_result : nat -> string -> Row -> Res QueryResult;
  resend_result : nat -> string -> string -> Res QueryResult;
  page_clock : nat -> Z;
  origin : string
}.

Definition V (A : Type) : Type := Page -> nat -> Res A * list PageEvent.

Definition vret {A} (a : A) : V A := fun _ _ => (Ok a, []).

Definition vbind {A B} (m : V A) (k : A -> V B) : V B :=
  fun w n =>
    match m w n with
    | (Ok a, t) =>
        match k a w (length t + n) with
        | (r, t') => (r, (t ++ t')%list)
        end
    | (Throw e, t) => (Throw e, t)
    end.

(** [try { m } catch (e) { h e }]. *)
Definition vcatch {A} (m : V A) (h : Error -> V A) : V A :=
  fun w n =>
    match m w n with
    | (Ok a, t) => (Ok a, t)
    | (Throw e, t) =>
        match h e w (length t + n) with
        | (r, t') => (r, (t ++ t')%list)
        end
    end.

(** [try { m } finally { f }]. *)
Definition vfinally {A} (m : V A) (f : V unit) : V A :=
  fun w n =>
    match m w n with
    | (r, t) =>
        match f w (length t + n) with
        | (Ok _, t') => (r, (t ++ t')%list)
        | (Throw e, t') => (Throw e, (t ++ t')%list)
        end
    end.

Notation "x <~ m ;; k" := (vbind m (fun x => k))
  (at level 61, m at next level, right associativity).

Definition emit (e : PageEvent) : V unit := fun _ _ => (Ok tt, [e]).

Definition getUser : V (option AuthUser) :=
  fun w n => let o := getUser_result w n in (o, [EvGetUser o]).

Definition select_profile (id : string) : V QueryResult :=
  fun w n => let o := select_result w n id in (o, [EvSelectProfile id o]).

Definition insert_profile (row : Row) : V QueryResult :=
  fun w n => let o := insert_result w n row in (o, [EvInsertProfile row o]).

Definition update_profile (id : string) (row : Row) : V QueryResult :=
  fun w n => let o := update_result w n id row in (o, [EvUpdateProfile id row o]).

Definition resend (kind email redirect : string) : V QueryResult :=
  fun w n =>
    let o := resend_result w n email redirect in
    (o, [EvResend kind email redirect o]).

(** [new Date().toISOString()]. *)
Definition now_iso : V Z :=
  fun w n => let t := page_clock w n in (Ok t, [EvNow t]).

Definition window_origin : V string := fun w _ => (Ok (origin w), []).

(** [v || null]. *)
Definition or_null (v : Js.str) : Js.Json :=
  if Js.truthy v then Js.JStr (Js.show v) else Js.JNull.

(** [user.user_metadata?.name]. *)
Definition metadata_name (user : AuthUser) : Js.str :=
  match user_metadata user with
  | Some m => meta_name m
  | None => None
  end.

Definition new_profile (user : AuthUser) (userData : UserData) (t : Z) : Row :=
  Js.defined
    [("id", Some (Js.JStr (auth_id user)));
     ("name", Some (Js.JStr (Js.or_default (Js.or_else (ud_name userData) (metadata_name user))
                                           "User")));
     ("email", Js.jstr (auth_email user));
     ("phone", Some (or_null (ud_phone userData)));
     ("company", Some (or_null (ud_company userData)));
     ("email_verified", Some (Js.JBool true));
     ("email_verified_at", Some (Js.JTime t))].

Definition verified_now (t : Z) : Row :=
  [("email_verified", Js.JBool true); ("email_verified_at", Js.JTime t)].

Definition createClientProfile (user : AuthUser) (userData : UserData) : V unit :=
  vcatch
    (existing <~ select_profile (auth_id user) ;;
     match q_data existing with
     | None =>
         t <~ now_iso ;;
         _ <~ insert_profile (new_profile user userData t) ;;
         vret tt
     | Some _ =>
         t <~ now_iso ;;
         _ <~ update_profile (auth_id user) (verified_now t) ;;
         vret tt
     end)
    (fun _ => vret tt).

(** What both the initial check and the listener do for a confirmed
    user. *)
Definition confirmed (user : AuthUser) (userData : UserData) : V unit :=
  _ <~ emit (EvSetIsVerified true) ;;
  _ <~ createClientProfile user userData ;;
  emit (EvSetTimeout "/client/thank-you" 2000).

Definition checkVerification (userData : UserData) : V unit :=
  user <~ getUser ;;
  match user with
  | Some u =>
      if Js.truthy (email_confirmed_at u) then confirmed u userData else vret tt
  | None => vret tt
  end.

(** The listener handed to [supabase.auth.onAuthStateChange]. *)
Definition onAuthStateChange (userData : UserData) (event : string)
    (session : option Session) : V unit :=
  if event =? "SIGNED_IN" then
    match session with
    | Some s =>
        match session_user s with
        | Some u =>
            if Js.truthy (email_confirmed_at u) then confirmed u userData else vret tt
        | None => vret tt
        end
    | None => vret tt
    end
  else vret tt.

Definition not_found_message : string :=
  "Email address not found. Please register again.".
Definition failed_message : string :=
  "Failed to resend verification email. Please try again.".
Definition sent_message : string :=
  "Verification email sent! Please check your inbox.".
Definition error_message : string :=
  "An error occurred. Please try again.".

(** [email] is [location.state?.email || '']. *)
Definition handleResendEmail (email : string) : V unit :=
  if email =? "" then emit (EvSetResendMessage not_found_message)
  else
    _ <~ emit (EvSetIsResending true) ;;
    _ <~ emit (EvSetResendMessage "") ;;
    vfinally
      (vcatch
         (o <~ window_origin ;;
          result <~ resend "signup" email (o ++ "/client/verify-email") ;;
          match q_error result with
          | Some _ => emit (EvSetResendMessage failed_message)
          | None => emit (EvSetResendMessage sent_message)
          end)
         (fun _ => emit (EvSetResendMessage error_message)))
      (emit (EvSetIsResending false)).

(** The class of the paragraph that shows [resendMessage]. *)
Definition message_class (resendMessage : string) : string :=
  if Js.includes "sent" resendMessage then "text-green-600" else "text-red-600".

End EmailVerificationPage.

(** * Specifications *)

(** ** Concrete data used by the examples *)

Module Sample.

Definition no_env : Env :=
  {| ZOHO_CLIENT_ID := None; ZOHO_CLIENT_SECRET := None;
     ZOHO_REFRESH_TOKEN := None; ZOHO_ORGANIZATION_ID := None;
     EMAIL_USER := None; EMAIL_PASSWORD := None;
     NODE_ENV := None; NETLIFY := None; URL := None |}.

Definition full_env : Env :=
  {| ZOHO_CLIENT_ID := Some "id"; ZOHO_CLIENT_SECRET := Some "secret";
     ZOHO_REFRESH_TOKEN := Some "refresh"; ZOHO_ORGANIZATION_ID := Some "org";
     EMAIL_USER := Some "no-reply@mechinweb.com"; EMAIL_PASSWORD := Some "pw";
     NODE_ENV := None; NETLIFY := None; URL := None |}.

Definition no_data : VendorData :=
  {| access_token := None; contact := None; contacts := None; invoice := None;
     error_code := None; error_description := None; data_message := None |}.

Definition token_data : VendorData :=
  {| access_token := Some "tok"; contact := None; contacts := None; invoice := None;
     error_code := None; error_description := None; data_message := None |}.

Definition alice : Contact :=
  {| contact_id := Some "c-1"; contact_name := Some "Alice";
     contact_email := Some "alice@example.com" |}.

Definition alice_data : CustomerData :=
  {| name := Some "Alice"; email := Some "alice@example.com";
     phone := None; company := None |}.

Definition created_data : VendorData :=
  {| access_token := None; contact := Some alice; contacts := None; invoice := None;
     error_code := None; error_description := None; data_message := None |}.

Definition found_data : VendorData :=
  {| access_token := None; contact := None; contacts := Some [alice]; invoice := None;
     error_code := None; error_description := None; data_message := None |}.

Definition error_data (code msg : Js.str) : VendorData :=
  {| access_token := None; contact := None; contacts := None; invoice := None;
     error_code := code; error_description := None; data_message := msg |}.

Definition ok_response (d : VendorData) : AxiosResponse :=
  {| ax_status := 200; ax_statusText := "OK"; ax_data := Some d |}.

(** The error axios raises for a reply with the given status. *)
Definition http_error (st : Z) (d : VendorData) : Error :=
  {| message := "Request failed with status code " ++ Js.of_Z st;
     response := Some {| er_status := st; er_statusText := ""; er_data := Some d |};
     code := Some "ERR_BAD_REQUEST" |}.

Definition fetched (st : Z) (d : VendorData) : FetchResponse :=
  {| f_status := st; f_text := ""; f_json := Some d |}.

Definition sent : SendInfo := {| messageId := Some "<1@mechinweb.com>"; smtp_response := Some "250 OK" |}.

(** A world whose HTTP oracles answer by position and in which everything
    else succeeds. *)
Definition world (e : Env) (ax : nat -> AxiosOutcome) (fe : nat -> FetchOutcome)
    (mail : nat -> SendOutcome) : World :=
  {| env := e;
     axios := fun n _ => ax n;
     fetch := fun n _ => fe n;
     verify := fun _ => None;
     sendMail := fun n _ => mail n;
     clock := fun _ => 0%Z;
     race := fun _ => true;
     createTransport := None;
     createTransporter := None;
     node_version := "v18" |}.

Definition all_ok : nat -> AxiosOutcome := fun _ => AxiosResolved (ok_response no_data).
Definition all_fetched : nat -> FetchOutcome := fun _ => FetchResolved (fetched 200 no_data).
Definition all_sent : nat -> SendOutcome := fun _ => Sent sent.

Definition context : Context := {| awsRequestId := Some "req-1" |}.

End Sample.

(** ** C1: find-or-create customer *)

(** The pattern as the specification words it, for a creation call made
    through axios: the created contact on success, the fallback search
    when the failure satisfies [fallback], and otherwise the error
    [rethrown], with no further call. *)
Definition FindOrCreate {A} (create : M A) (post : World -> Request) (search : M A)
    (value : Contact -> A) (fallback : Error -> bool) (rethrown : Error -> Error) : Prop :=
  forall w n,
    (forall r d k,
        axios w n (post w) = AxiosResolved r -> ax_data r = Some d -> contact d = Some k ->
        create w n = (Ok (value k), [EvAxios (post w) (AxiosResolved r)]))
    /\ (forall e,
        axios w n (post w) = AxiosRejected e -> fallback e = true ->
        create w n = (fst (search w (S n)),
                      EvAxios (post w) (AxiosRejected e) :: snd (search w (S n))))
    /\ (forall e,
        axios w n (post w) = AxiosRejected e -> fallback e = false ->
        create w n = (Throw (rethrown e), [EvAxios (post w) (AxiosRejected e)])).

(** The search yields the first contact of the vendor's list. *)
Definition ReturnsFirst {A} (search : M A) (get : World -> Request) (value : Contact -> A)
    : Prop :=
  forall w n r d k rest,
    axios w n (get w) = AxiosResolved r -> ax_data r = Some d ->
    contacts d = Some (k :: rest) ->
    search w n = (Ok (value k), [EvAxios (get w) (AxiosResolved r)]).

(** The same pattern for the edge function, whose calls go through fetch
    and are each preceded by a token exchange (one event). *)
Definition EdgeFindOrCreate (fallback : FetchResponse -> bool) : Prop :=
  forall w n customerData config rt token,
    fetch w n (Supabase.token_request config) = FetchResolved rt ->
    f_ok rt = true -> f_json rt = Some token ->
    let post := Supabase.create_request token config customerData in
    let first := EvFetch (Supabase.token_request config) (FetchResolved rt) in
    (forall r d,
        fetch w (S n) post = FetchResolved r -> f_ok r = true -> f_json r = Some d ->
        Supabase.createZohoCustomer customerData config w n =
        (Ok (contact d), [first; EvFetch post (FetchResolved r)]))
    /\ (forall r,
        fetch w (S n) post = FetchResolved r -> fallback r = true ->
        let search := Supabase.findZohoCustomer (email customerData) config w (S (S n)) in
        Supabase.createZohoCustomer customerData config w n =
        (match fst search with Ok k => Ok (Some k) | Throw e => Throw e end,
         first :: EvFetch post (FetchResolved r) :: snd search))
    /\ (forall e,
        fetch w (S n) post = FetchRejected e ->
        Supabase.createZohoCustomer customerData config w n =
        (Throw e, [first; EvFetch post (FetchRejected e)])).

Module C1_input.

(** The vendor answers the creation call of the edge function with status
    500 and the search that follows with one contact. *)
Definition config : Supabase.Config := Supabase.zohoConfig Sample.full_env.

Definition answers (n : nat) : FetchOutcome :=
  match n with
  | 1 => FetchResolved (Sample.fetched 500 Sample.no_data)
  | 3 => FetchResolved (Sample.fetched 200 Sample.found_data)
  | _ => FetchResolved (Sample.fetched 200 Sample.token_data)
  end.

Definition world : World :=
  Sample.world Sample.full_env Sample.all_ok answers Sample.all_sent.

End C1_input.

(** ** C2: retries *)

(** An outbound call that did not succeed. *)
Definition failed (e : Event) : bool :=
  match e with
  | EvAxios _ (AxiosRejected _) => true
  | EvFetch _ (FetchRejected _) => true
  | EvFetch _ (FetchResolved r) => negb (f_ok r)
  | EvVerify (Some _) => true
  | EvSendMail _ (SendFailed _) => true
  | _ => false
  end.

(** The call an event records, without its outcome. *)
Inductive Call :=
| HttpCall (r : Request)
| VerifyCall
| MailCall (m : EmailOptions).

Definition call_of (e : Event) : option Call :=
  match e with
  | EvAxios r _ => Some (HttpCall r)
  | EvFetch r _ => Some (HttpCall r)
  | EvVerify _ => Some VerifyCall
  | EvSendMail m _ => Some (MailCall m)
  | EvSleep _ => None
  | EvClock _ => None
  end.

(** No retry: a call that failed is not made again later in the
    execution. *)
Fixpoint no_reissue (t : list Event) : Prop :=
  match t with
  | [] => True
  | e :: rest =>
      (failed e = true -> Forall (fun e' => call_of e' <> call_of e) rest)
      /\ no_reissue rest
  end.

(** The outcomes of the send attempts of an execution, and its waits. *)
Definition send_attempts (t : list Event) : list SendOutcome :=
  flat_map (fun e => match e with EvSendMail _ o => [o] | _ => [] end) t.

Definition waits (t : list Event) : list Z :=
  flat_map (fun e => match e with EvSleep ms => [ms] | _ => [] end) t.

(** The wait after failed attempt number [attempt], in milliseconds. *)
Definition backoff_ms (attempt : nat) : Z := 2 ^ Z.of_nat attempt * 1000.

Module C2_input.

Definition message : EmailOptions :=
  {| from := Some "no-reply@mechinweb.com"; to := Some "alice@example.com";
     subject := "Hello"; html_template := "welcome"; html_args := [] |}.

(** The relay refuses the first attempt and accepts the second. *)
Definition flaky (n : nat) : SendOutcome :=
  match n with
  | O => SendFailed (new_Error "421 try again")
  | _ => Sent Sample.sent
  end.

Definition world : World :=
  Sample.world Sample.full_env Sample.all_ok Sample.all_fetched flaky.

End C2_input.

(** ** C3: joint e-mail fan-out *)

(** The outcome of each send of an execution: a send is a run of attempts,
    and an attempt followed by the back-off wait is not its last. *)
Fixpoint final_sends (t : list Event) : list SendOutcome :=
  match t with
  | [] => []
  | EvSendMail _ o :: rest =>
      match rest with
      | EvSleep _ :: _ => final_sends rest
      | _ => o :: final_sends rest
      end
  | _ :: rest => final_sends rest
  end.



(** The sends of an execution, each with its message and its outcome;
    the attempts of one send are grouped as in [final_sends]. *)
Fixpoint final_mails (t : list Event) : list (EmailOptions * SendOutcome) :=
  match t with
  | [] => []
  | EvSendMail m o :: rest =>
      match rest with
      | EvSleep _ :: _ => final_mails rest
      | _ => (m, o) :: final_mails rest
      end
  | _ :: rest => final_mails rest
  end.

(** The two e-mails of a submission were both handed to the relay,
    whatever became of the other: the confirmation, to the customer, and
    the notification, to the business address.  [succeeded] holds exactly
    when both were sent, and when one failed the error of a failed send is
    what [reports] holds of. *)
Definition Jointly (customer : Js.str) (confirmation notification : string)
    (succeeded : Prop) (reports : Error -> Prop) (t : list Event) : Prop :=
  exists m1 o1 m2 o2,
    final_mails t = [(m1, o1); (m2, o2)]
    /\ to m1 = customer /\ html_template m1 = confirmation
    /\ to m2 = Some business_address /\ html_template m2 = notification
    /\ (succeeded <-> exists i1 i2, o1 = Sent i1 /\ o2 = Sent i2)
    /\ (forall e, o1 = SendFailed e \/ o2 = SendFailed e ->
                  exists e', (o1 = SendFailed e' \/ o2 = SendFailed e') /\ reports e').


(** [Jointly] for a handler: it answers 200, or 500 with the message of
    the error as [error]. *)
Definition JointlyAnswered (customer : Js.str) (confirmation notification : string)
    (x : Res Response * list Event) : Prop :=
  exists resp,
    fst x = Ok resp
    /\ Jointly customer confirmation notification
         (statusCode resp = 200%Z)
         (fun e => statusCode resp = 500%Z
                   /\ body_error resp = Some (Js.JStr (message e)))
         (snd x).

Module C3_input.

Definition contact : EmailData :=
  {| d_name := Some "Alice"; d_email := Some "alice@example.com";
     d_subject := Some "Hello"; d_message := Some "Hi there";
     customer_name := None; customer_email := None; service_type := None;
     budget_range := None; timeline := None; project_details := None;
     company_name := None; d_phone := None; clientName := None;
     clientEmail := None; loginUrl := None; d_serviceName := None;
     d_packageType := None; orderId := None; amount := None |}.

Definition request : EmailRequest :=
  {| type := Some "contact_form"; data := Some contact |}.

Definition event : NetlifyEvent EmailRequest :=
  {| httpMethod := "POST"; pathSegments := Some []; body := Some (Parses request) |}.

(** The relay accepts the customer's message and refuses the business
    notification twice. *)
Definition relay (n : nat) : SendOutcome :=
  match n with
  | 2 => Sent Sample.sent
  | _ => SendFailed (new_Error "550 mailbox unavailable")
  end.

Definition world : World :=
  Sample.world Sample.full_env Sample.all_ok Sample.all_fetched relay.





(** nodemailer as published: it exports [createTransport] and no
    [createTransporter], so that calling the latter throws. *)
Definition published : World :=
  {| env := Sample.full_env;
     axios := fun _ _ => Sample.all_ok 0%nat;
     fetch := fun _ _ => Sample.all_fetched 0%nat;
     verify := fun _ => None;
     sendMail := fun _ _ => Sent Sample.sent;
     clock := fun _ => 0%Z;
     race := fun _ => true;
     createTransport := None;
     createTransporter :=
       Some (new_Error "nodemailer.createTransporter is not a function");
     node_version := "v18" |}.

End C3_input.

(** ** C4: classification of token-refresh failures *)

(** The message the first revision of zohoIntegration.js gives a failed
    exchange, by the status of the vendor's reply. *)
Definition v1_token_message (e : Error) : string :=
  if status_is e 400 then ZohoV1.invalid_credentials
  else if status_is e 401 then ZohoV1.refresh_token_expired
  else "Zoho authentication failed: " ++ message e.

(** The message the later revision gives: status 400 is told apart by the
    vendor's error code. *)
Definition v3_token_message (e : Error) : string :=
  if status_is e 400 then
    match response_data e with
    | None => message (TypeError_undefined "error")
    | Some d =>
        if ZohoV3.is_code (error_code d) "invalid_grant" then ZohoV3.refresh_token_expired
        else if ZohoV3.is_code (error_code d) "invalid_client" then ZohoV3.invalid_client
        else "Zoho token error: " ++
             Js.show (Js.or_else (error_description d) (error_code d))
    end
  else if status_is e 401 then ZohoV3.authentication_failed
  else "Zoho token request failed: " ++ message e.

(** A handler surfaces a failed exchange: whenever the configuration is
    complete and the vendor rejects the token request with [e], a request
    other than the preflight is answered 500 with [success: false] and the
    classified message. *)
Definition SurfacesTokenError
    (handler : NetlifyEvent RequestData -> Context -> M Response)
    (token_request : World -> Request) (classify : Error -> string) : Prop :=
  forall w ev ctx e,
    (httpMethod ev =? "OPTIONS") = false ->
    pathSegments ev <> None ->
    missing_names (ZohoV1.ZOHO_CONFIG (env w)) = [] ->
    (forall k, axios w k (token_request w) = AxiosRejected e) ->
    exists resp t,
      handler ev ctx w 0 = (Ok resp, t)
      /\ statusCode resp = 500%Z
      /\ body_success resp = Some (Js.JBool false)
      /\ body_error resp = Some (Js.JStr (classify e)).

Module C4_input.

Definition rejecting (e : Error) : World :=
  Sample.world Sample.full_env (fun _ => AxiosRejected e) Sample.all_fetched Sample.all_sent.

Definition invalid_grant : Error :=
  Sample.http_error 400 (Sample.error_data (Some "invalid_grant") None).

Definition invalid_client : Error :=
  Sample.http_error 400 (Sample.error_data (Some "invalid_client") None).

Definition unauthorized : Error :=
  Sample.http_error 401 Sample.no_data.

Definition event : NetlifyEvent RequestData :=
  {| httpMethod := "GET"; pathSegments := Some ["invoices"; "42"]; body := None |}.

End C4_input.

(** ** C5: validation of the environment *)

(** The four variables, in the order the handlers check them. *)
Definition zoho_variables (e : Env) : list (string * Js.str) :=
  [("ZOHO_CLIENT_ID", ZOHO_CLIENT_ID e);
   ("ZOHO_CLIENT_SECRET", ZOHO_CLIENT_SECRET e);
   ("ZOHO_REFRESH_TOKEN", ZOHO_REFRESH_TOKEN e);
   ("ZOHO_ORGANIZATION_ID", ZOHO_ORGANIZATION_ID e)].

(** Exactly the names of the variables that are missing (unset or empty),
    in that order. *)
Definition missing_variables (e : Env) : list string :=
  map fst (filter (fun p => negb (Js.truthy (snd p))) (zoho_variables e)).

(** A handler validates the environment on the requests [applies] selects:
    with a variable missing it answers 500, names exactly the missing
    variables, and makes no outbound call. *)
Definition ValidatesConfig {A} (handler : NetlifyEvent A -> Context -> M Response)
    (applies : NetlifyEvent A -> bool) : Prop :=
  forall w ev ctx,
    applies ev = true ->
    missing_variables (env w) <> [] ->
    exists resp t,
      handler ev ctx w 0 = (Ok resp, t)
      /\ statusCode resp = 500%Z
      /\ body_error resp =
         Some (Js.JStr ("Missing Zoho configuration: " ++
                        Js.join ", " (missing_variables (env w))))
      /\ outbound t = [].

Definition not_preflight {A} (ev : NetlifyEvent A) : bool :=
  negb (httpMethod ev =? "OPTIONS").

Definition is_post {A} (ev : NetlifyEvent A) : bool :=
  httpMethod ev =? "POST".

Module C5_input.

Definition world : World :=
  Sample.world Sample.no_env Sample.all_ok Sample.all_fetched Sample.all_sent.

Definition get : NetlifyEvent RequestData :=
  {| httpMethod := "GET"; pathSegments := Some []; body := None |}.

(** Only the organisation id is missing. *)
Definition no_organization : Env :=
  {| ZOHO_CLIENT_ID := Some "id"; ZOHO_CLIENT_SECRET := Some "secret";
     ZOHO_REFRESH_TOKEN := Some "refresh"; ZOHO_ORGANIZATION_ID := None;
     EMAIL_USER := None; EMAIL_PASSWORD := None;
     NODE_ENV := None; NETLIFY := None; URL := None |}.

End C5_input.

(** ** C6: invoice documents *)

(** What the specification says of the line item built for a service
    item. *)
Definition LineItemOf (item : ServiceItem) (li : LineItem) : Prop :=
  li_name li = serviceName item
  /\ (exists tail,
        li_description li =
        Js.show (serviceName item) ++ " - " ++ Js.show (packageType item) ++ " Package" ++ tail)
  /\ li_rate li = unitPrice item
  /\ li_quantity li = quantity item
  /\ li_item_total li = totalPrice item.

(** The dates of an invoice document built from the clock readings
    [t_date] and [t_due]. *)
Definition DueIn30Days (p : InvoicePayload) (t_date t_due : Z) : Prop :=
  ip_date p = utc_day t_date
  /\ ip_due_date p = (utc_day t_due + 30)%Z
  /\ (utc_day t_date = utc_day t_due -> ip_due_date p = (ip_date p + 30)%Z).

(** The five properties of an invoice summary, taken from the vendor's
    invoice; [host] is the host of the payment page. *)
Definition summary_of (host : string) (inv : Invoice) : Obj :=
  [("invoice_id", Js.jstr (invoice_id inv));
   ("invoice_number", Js.jstr (invoice_number inv));
   ("payment_url",
    Some (Js.JStr ("https://" ++ host ++ "/invoices/" ++ Js.show (invoice_id inv) ++ "/payment")));
   ("total", total inv);
   ("status", Js.jstr (status inv))].

Module C6_input.

Definition item : ServiceItem :=
  {| serviceName := Some "Email Migration"; packageType := Some "basic";
     quantity := 2%Z; unitPrice := 10%Q; totalPrice := 20%Q |}.

Definition data : InvoiceData :=
  {| serviceItems := Some [item]; currency := Some "USD"; notes := None |}.

Definition vendor_invoice : Invoice :=
  {| invoice_id := Some "inv-7"; invoice_number := Some "INV-7";
     total := Some (Js.JNum 20%float); status := Some "draft"; last_payment_date := None |}.

Definition invoice_data : VendorData :=
  {| access_token := None; contact := None; contacts := None; invoice := Some vendor_invoice;
     error_code := None; error_description := None; data_message := None |}.

Definition world : World :=
  Sample.world Sample.full_env (fun _ => AxiosResolved (Sample.ok_response invoice_data))
    Sample.all_fetched Sample.all_sent.

End C6_input.

(** ** C7: timeouts *)

(** The kinds of call the Zoho functions make. *)
Inductive CallKind := TokenRefresh | ContactCall | InvoiceCreation | InvoiceStatus.

Definition kind_of (r : Request) : CallKind :=
  match payload r, query r with
  | FormPayload _, _ => TokenRefresh
  | _, TokenQuery _ => TokenRefresh
  | ContactJson _, _ => ContactCall
  | _, EmailQuery _ => ContactCall
  | _, PerPageQuery _ => ContactCall
  | InvoiceJson _, _ => InvoiceCreation
  | NoPayload, NoQuery => InvoiceStatus
  end.

(** A table of constant timeouts, in milliseconds, by kind of call;
    [token] is the timeout of the token refresh. *)
Definition timeout_table (token : Z) (k : CallKind) : Z :=
  match k with
  | TokenRefresh => token
  | ContactCall => 15000
  | InvoiceCreation => 20000
  | InvoiceStatus => 15000
  end.

(** Every HTTP call of the execution carries the timeout the table gives
    its kind. *)
Definition timeouts_from (table : CallKind -> Z) (t : list Event) : Prop :=
  Forall (fun r => timeout r = Some (table (kind_of r))) (http_requests t).

(** No HTTP call of the execution carries a timeout. *)
Definition no_timeouts (t : list Event) : Prop :=
  Forall (fun r => timeout r = None) (http_requests t).

Module C7_input.

Definition request : Supabase.EdgeRequest :=
  {| Supabase.req_method := "GET"; Supabase.pathname := "/zoho-integration/token";
     Supabase.req_json := Parses Netlify.empty_request |}.

Definition world : World :=
  Sample.world Sample.full_env Sample.all_ok
    (fun _ => FetchResolved (Sample.fetched 200 Sample.token_data)) Sample.all_sent.

End C7_input.
(** ** C8 and C10: purchase page *)

(** The price the page lists for an add-on id: the price of the first
    add-on of the list with this id, 0 for an id that is not in the
    list. *)
Fixpoint listed_price (addOns : list ServicePurchase.AddOn) (id : string) : float :=
  match addOns with
  | [] => 0%float
  | a :: rest =>
      if String.eqb (ServicePurchase.addon_id a) id
      then ServicePurchase.price a
      else listed_price rest id
  end.

(** The sum of the listed prices of the add-ons with the given ids: they
    are added one after the other, in the order of the ids, starting from
    0, and every addition rounds. *)
Definition addons_sum (st : ServicePurchase.State) (ids : list string) : float :=
  fold_left (fun s id => (s + listed_price (ServicePurchase.convertedAddOns st) id)%float)
            ids 0%float.

(** The price table of the customer's currency: the service's own table
    for USD, the converted one otherwise. *)
Definition shown_table (st : ServicePurchase.State) (s : ServicePurchase.Service)
    : ServicePurchase.Pricing :=
  if String.eqb (ServicePurchase.userCurrency st) "USD"
  then ServicePurchase.pricing s
  else ServicePurchase.convertedPricing st.

(** A price that is neither a zero nor NaN. *)
Definition ordinary (p : float) : bool :=
  negb (PrimFloat.is_zero p || PrimFloat.is_nan p).

(** The selected package has no price to show: no service is loaded, the
    table has no entry for the package, or the entry is a zero or NaN. *)
Definition unpriced (st : ServicePurchase.State) : Prop :=
  match ServicePurchase.service st with
  | None => True
  | Some s =>
      match ServicePurchase.price_of (shown_table st s) (ServicePurchase.selectedPackage st) with
      | None => True
      | Some p => ordinary p = false
      end
  end.

(** The total as the specification words it: the unit price plus the sum
    of the add-on prices, multiplied by the quantity. *)
Definition factored_total (unit sum q : float) : float := ((unit + sum) * q)%float.

Module Purchase_input.

Import ServicePurchase.

Definition addOns : list AddOn :=
  [{| addon_id := "priority-support"; addon_name := "Priority Support";
      addon_description := "24/7 priority technical support"; price := 10%float |};
   {| addon_id := "backup-service"; addon_name := "Backup Service";
      addon_description := "Daily automated backups"; price := 5%float |};
   {| addon_id := "ssl-certificate"; addon_name := "SSL Certificate";
      addon_description := "Premium SSL certificate included"; price := 15%float |};
   {| addon_id := "monitoring"; addon_name := "Monitoring";
      addon_description := "Real-time performance monitoring"; price := 8%float |}].

Definition prices : Pricing :=
  {| p_basic := Some 20%float; p_standard := Some 50%float;
     p_enterprise := Some 120%float |}.

Definition state : State :=
  {| user := Some {| user_id := "u-1" |};
     service := Some {| service_id := "email-migration";
                        service_name := "Email Migration"; pricing := prices |};
     selectedPackage := standard;
     quantity := 3%float;
     selectedAddOns := ["backup-service"; "monitoring"; "unknown"];
     userCurrency := "USD";
     convertedPricing := prices;
     convertedAddOns := addOns |}.

(** A service at 30.4 with one add-on at 15.2, ordered five times. *)
Definition rounding : State :=
  {| user := Some {| user_id := "u-1" |};
     service := Some {| service_id := "email-migration";
                        service_name := "Email Migration";
                        pricing := {| p_basic := Some 30.4%float;
                                      p_standard := Some 50%float;
                                      p_enterprise := Some 120%float |} |};
     selectedPackage := basic;
     quantity := 5%float;
     selectedAddOns := ["backup-service"];
     userCurrency := "USD";
     convertedPricing := prices;
     convertedAddOns :=
       [{| addon_id := "backup-service"; addon_name := "Backup Service";
           addon_description := "Daily automated backups"; price := 15.2%float |}] |}.

(** A browser in which [setIsLoading] is bound and every call succeeds. *)
Definition browser : Browser :=
  {| convertCurrency_result := fun _ amount _ _ => Ok amount;
     insert_result := fun _ _ => Ok {| ins_data := Some {| order_id := "o-1" |};
                                       ins_error := None |};
     setIsLoading_bound := true |}.

(** The page as the file has it: nothing binds [setIsLoading]. *)
Definition browser_unbound : Browser :=
  {| convertCurrency_result := fun _ amount _ _ => Ok amount;
     insert_result := fun _ _ => Ok {| ins_data := Some {| order_id := "o-1" |};
                                       ins_error := None |};
     setIsLoading_bound := false |}.

End Purchase_input.

(** ** C9: preflight *)

(** A handler answers every OPTIONS request with the fixed response
    [answer], whatever the environment, the body and the world, and makes
    no outbound call. *)
Definition Preflight {A} (handler : NetlifyEvent A -> Context -> M Response)
    (answer : Response) : Prop :=
  forall w ev ctx,
    httpMethod ev = "OPTIONS" ->
    fst (handler ev ctx w 0) = Ok answer
    /\ outbound (snd (handler ev ctx w 0)) = [].

(** Status 200, an empty body and CORS headers. *)
Definition cors_ok (r : Response) : Prop :=
  statusCode r = 200%Z
  /\ resp_body r = EmptyBody
  /\ In ("Access-Control-Allow-Origin", "*") (resp_headers r)
  /\ In "Access-Control-Allow-Headers" (map fst (resp_headers r))
  /\ In "Access-Control-Allow-Methods" (map fst (resp_headers r)).

Module C9_input.

Definition options : NetlifyEvent unit :=
  {| httpMethod := "OPTIONS"; pathSegments := Some []; body := None |}.

Definition bare : World :=
  Sample.world Sample.no_env Sample.all_ok Sample.all_fetched Sample.all_sent.

Definition configured : World :=
  Sample.world Sample.full_env Sample.all_ok Sample.all_fetched Sample.all_sent.

End C9_input.

(** ** Further properties of the handlers *)

(** The status of a response is one of [allowed]; [success: true] is only
    sent with status 200, and a 200 response is the empty preflight answer
    or carries [success: true]. *)
Definition status_agrees (allowed : list Z) (r : Response) : Prop :=
  In (statusCode r) allowed
  /\ (body_success r = Some (Js.JBool true) -> statusCode r = 200%Z)
  /\ (statusCode r = 200%Z ->
      resp_body r = EmptyBody \/ body_success r = Some (Js.JBool true)).

(** A handler never rejects: it answers every request, and its answer
    satisfies [status_agrees]. *)
Definition Answers {A} (handler : NetlifyEvent A -> Context -> M Response)
    (allowed : list Z) : Prop :=
  forall w ev ctx,
    exists resp, fst (handler ev ctx w 0) = Ok resp /\ status_agrees allowed resp.

(** The [error] text of an answer of the edge function. *)
Definition edge_error (r : Supabase.EdgeResponse) : option Js.Json :=
  match Supabase.edge_body r with
  | JsonBody j => Js.get "error" j
  | _ => None
  end.

(** The edge function answers 200, or 404 or 500 with an [error] text. *)
Definition edge_status_agrees (r : Supabase.EdgeResponse) : Prop :=
  Supabase.edge_status r = 200%Z
  \/ (In (Supabase.edge_status r) [404; 500]%Z
      /\ exists text, edge_error r = Some (Js.JStr text)).

(** [holds P x] is [P x]; symbolic execution runs on [x] and leaves [P]
    alone until the execution is known. *)
Definition holds {A} (P : A -> Prop) (a : A) : Prop := P a.

Arguments holds : simpl never.

(** The kinds of the HTTP calls of an execution, in order. *)
Definition call_kinds (t : list Event) : list CallKind := map kind_of (http_requests t).

(** The access token the vendor granted: the [access_token] of the first
    token refresh that resolved. *)
Fixpoint granted_token (t : list Event) : Js.str :=
  match t with
  | [] => None
  | EvAxios r (AxiosResolved resp) :: rest =>
      match kind_of r with
      | TokenRefresh =>
          match ax_data resp with
          | Some d => access_token d
          | None => None
          end
      | _ => granted_token rest
      end
  | _ :: rest => granted_token rest
  end.

(** Every call other than the token refresh is authorised with the granted
    token and names the configured organisation. *)
Definition forwards_token (e : Env) (t : list Event) : Prop :=
  Forall (fun r =>
            kind_of r = TokenRefresh
            \/ (Authorization (headers r)
                = Some ("Zoho-oauthtoken " ++ Js.show (granted_token t))
                /\ organizationid (headers r) = ZOHO_ORGANIZATION_ID e))
         (http_requests t).

Module X_input.

(** The vendor grants no token: its reply to the refresh has no
    [access_token]. *)
Definition tokenless : World :=
  Sample.world Sample.full_env
    (fun n => match n with
              | O => AxiosResolved (Sample.ok_response Sample.no_data)
              | _ => AxiosResolved (Sample.ok_response Sample.created_data)
              end)
    Sample.all_fetched Sample.all_sent.

Definition create_customer : NetlifyEvent RequestData :=
  {| httpMethod := "POST"; pathSegments := Some ["customers"];
     body := Some (Parses {| customerData := None; rd_serviceItems := None;
                             rd_currency := None; rd_notes := None; customerId := None;
                             rd_name := Some "Alice"; rd_email := Some "alice@example.com";
                             rd_phone := None; rd_company := None |}) |}.

End X_input.

(** The messages an execution handed to the relay. *)
Definition mails (t : list Event) : list EmailOptions :=
  flat_map (fun e => match e with EvSendMail m _ => [m] | _ => [] end) t.

(** The first outbound call is the verification of the SMTP connection,
    and nothing follows it when it fails. *)
Definition verified_first (t : list Event) : Prop :=
  match outbound t with
  | [] => True
  | EvVerify None :: _ => True
  | EvVerify (Some _) :: rest => rest = []
  | _ => False
  end.

(** Both credentials of the relay are set. *)
Definition mail_configured (e : Env) : bool :=
  Js.truthy (EMAIL_USER e) && Js.truthy (EMAIL_PASSWORD e).

(** The four request types the e-mail functions know. *)
Definition known_type (t : Js.str) : bool :=
  is_type t "contact_form" || is_type t "quote_request"
  || is_type t "welcome_email" || is_type t "payment_confirmation".

(** The four fields a contact form must carry. *)
Definition contact_complete (d : EmailData) : bool :=
  Js.truthy (d_name d) && Js.truthy (d_email d)
  && Js.truthy (d_subject d) && Js.truthy (d_message d).

(** A world in which the relay is configured and the transporter can be
    made and verified. *)
Definition relay_ready (w : World) : Prop :=
  mail_configured (env w) = true
  /\ createTransport w = None
  /\ (forall k, verify w k = None).

(** A request that posts a customer or an invoice. *)
Definition creates (r : Request) : bool :=
  match payload r with
  | ContactJson _ | InvoiceJson _ => true
  | _ => false
  end.

(** The HTTP calls of the execution are no other than the token request
    and, after it, the connection test (where the function has one) made
    with some token; none of them creates anything, and no mail is
    sent. *)
Definition only_calls (token_call : Request) (test_call : option (Js.str -> Request))
    (t : list Event) : Prop :=
  (http_requests t = []
   \/ http_requests t = [token_call]
   \/ match test_call with
      | Some test => exists token, http_requests t = [token_call; test token]
      | None => False
      end)
  /\ existsb creates (http_requests t) = false
     /\ mails t = [].

Module X_mail.

(** A contact form without an e-mail address. *)
Definition anonymous : EmailData :=
  {| d_name := Some "Alice"; d_email := None;
     d_subject := Some "Hello"; d_message := Some "Hi there";
     customer_name := None; customer_email := None; service_type := None;
     budget_range := None; timeline := None; project_details := None;
     company_name := None; d_phone := None; clientName := None;
     clientEmail := None; loginUrl := None; d_serviceName := None;
     d_packageType := None; orderId := None; amount := None |}.

Definition post (ty : string) (d : EmailData) : NetlifyEvent EmailRequest :=
  {| httpMethod := "POST"; pathSegments := Some [];
     body := Some (Parses {| type := Some ty; data := Some d |}) |}.

Definition welcome : EmailData :=
  {| d_name := None; d_email := None; d_subject := None; d_message := None;
     customer_name := None; customer_email := None; service_type := None;
     budget_range := None; timeline := None; project_details := None;
     company_name := None; d_phone := None; clientName := Some "Alice";
     clientEmail := Some "alice@example.com";
     loginUrl := Some "https://mechinweb.com/client/login"; d_serviceName := None;
     d_packageType := None; orderId := None; amount := None |}.

End X_mail.

(** ** Further properties of the retry loop *)

Definition send_failed (o : SendOutcome) : bool :=
  match o with
  | SendFailed _ => true
  | Sent _ => false
  end.

(** The time an execution spent waiting, in milliseconds. *)
Definition total_wait (t : list Event) : Z := fold_right Z.add 0%Z (waits t).

(** ** Further properties of the vendor helpers *)

(** What a computation throws carries one of the given labels at the
    head of its message. *)
Definition labelled {A} (labels : list string) (r : Res A) : Prop :=
  match r with
  | Ok _ => True
  | Throw e => existsb (fun l => String.prefix l (message e)) labels = true
  end.

(** What a computation throws is the error of the call it made, as it
    came, or one of the two errors of an empty reply. *)
Definition rethrown {A} (o : AxiosOutcome) (r : Res A) : Prop :=
  match r with
  | Ok _ => True
  | Throw e =>
      o = AxiosRejected e
      \/ e = new_Error "Customer not found"
      \/ e = TypeError_undefined "contacts"
  end.

(** The one call [createZohoInvoice] makes: none without service items,
    otherwise a POST of an invoice for the given customer, with one line
    per item, non-empty notes, the fixed terms and the currency asked
    for. *)
Definition invoice_call_shape (cid : Js.str) (data : InvoiceData) (t : list Event) : Prop :=
  match http_requests t with
  | [] => serviceItems data = None
  | [r] =>
      exists items p,
        serviceItems data = Some items
        /\ method r = POST
        /\ payload r = InvoiceJson p
        /\ ip_customer_id p = cid
        /\ length (ip_line_items p) = length items
        /\ ip_notes p <> ""
        /\ ip_terms p = "Payment due within 30 days."
        /\ ip_currency_code p = currency data
  | _ => False
  end.

(** The contact a resolved contact call names: the contact created, or
    the first contact found. *)
Definition contact_of_reply (r : Request) (resp : AxiosResponse) : Js.str :=
  match ax_data resp with
  | None => None
  | Some d =>
      match method r with
      | POST =>
          match contact d with
          | Some c => contact_id c
          | None => None
          end
      | GET =>
          match contacts d with
          | Some (c :: _) => contact_id c
          | _ => None
          end
      end
  end.

(** Every invoice of the execution is issued to the contact the last
    resolved contact call before it named; [known] is that contact at the
    start. *)
Fixpoint bills_last_contact (known : Js.str) (t : list Event) : Prop :=
  match t with
  | [] => True
  | EvAxios r o :: rest =>
      match kind_of r, o with
      | InvoiceCreation, _ =>
          match payload r with
          | InvoiceJson p => ip_customer_id p = known
          | _ => False
          end
          /\ bills_last_contact known rest
      | ContactCall, AxiosResolved resp =>
          bills_last_contact (contact_of_reply r resp) rest
      | _, _ => bills_last_contact known rest
      end
  | _ :: rest => bills_last_contact known rest
  end.

(** The calls an execution made through [fetch], with their outcomes. *)
Definition fetches (t : list Event) : list (Request * FetchOutcome) :=
  flat_map (fun e => match e with EvFetch r o => [(r, o)] | _ => [] end) t.

(** The calls come in pairs: a token request, then one call authorised
    with the token that request just returned. *)
Fixpoint token_per_call (config : Supabase.Config) (l : list (Request * FetchOutcome)) : Prop :=
  match l with
  | [] => True
  | (r, o) :: rest =>
      r = Supabase.token_request config
      /\ match rest with
         | [] => True
         | (r', _) :: rest' =>
             (exists rt token,
                 o = FetchResolved rt /\ f_json rt = Some token
                 /\ Authorization (headers r')
                    = Some ("Zoho-oauthtoken " ++ Js.show (access_token token))
                 /\ organizationid (headers r') = Supabase.cfg_organizationId config)
             /\ token_per_call config rest'
         end
  end.

(** A text without a slash. *)
Fixpoint slash_free (s : string) : bool :=
  match s with
  | EmptyString => true
  | String c rest => negb (Ascii.eqb c "/"%char) && slash_free rest
  end.

Module X_route.

(** A request with a method none of the functions serves. *)
Definition put : NetlifyEvent RequestData :=
  {| httpMethod := "PUT"; pathSegments := Some ["customers"]; body := None |}.

(** The vendor answers every call with a token and a contact list. *)
Definition granting : World :=
  Sample.world Sample.full_env
    (fun _ => AxiosResolved
                (Sample.ok_response
                   {| access_token := Some "tok"; contact := None;
                      contacts := Some [Sample.alice]; invoice := None;
                      error_code := None; error_description := None;
                      data_message := None |}))
    Sample.all_fetched Sample.all_sent.

End X_route.

(** [req.method === 'OPTIONS'] on a request to the edge function. *)
Definition req_method_is_options (req : Supabase.EdgeRequest) : bool :=
  String.eqb (Supabase.req_method req) "OPTIONS".

Module X_edge.

Definition delete_token : Supabase.EdgeRequest :=
  {| Supabase.req_method := "DELETE";
     Supabase.pathname := "/functions/v1/zoho-integration/token";
     Supabase.req_json := Malformed Supabase.json_syntax_error |}.

Definition granting : World :=
  Sample.world Sample.full_env Sample.all_ok
    (fun _ => FetchResolved (Sample.fetched 200 Sample.token_data)) Sample.all_sent.

Definition get_customers : Supabase.EdgeRequest :=
  {| Supabase.req_method := "GET";
     Supabase.pathname := "/functions/v1/zoho-integration/customers";
     Supabase.req_json := Malformed Supabase.json_syntax_error |}.

End X_edge.

(** ** Further properties of the purchase page *)

Module PurchaseFacts.

Import ServicePurchase.

(** [setSelectedAddOns], the state setter the add-on form is given. *)
Definition setSelectedAddOns (ids : list string) (st : State) : State :=
  {| user := user st; service := service st; selectedPackage := selectedPackage st;
     quantity := quantity st; selectedAddOns := ids; userCurrency := userCurrency st;
     convertedPricing := convertedPricing st; convertedAddOns := convertedAddOns st |}.

Definition navigations (t : list UiEvent) : list string :=
  flat_map (fun e => match e with EvNavigate target => [target] | _ => [] end) t.

Definition alerts (t : list UiEvent) : list string :=
  flat_map (fun e => match e with EvAlert text => [text] | _ => [] end) t.

Definition loading_flags (t : list UiEvent) : list bool :=
  flat_map (fun e => match e with EvSetIsLoading b => [b] | _ => [] end) t.

Record Conversion := {
  conv_amount : float;
  conv_source : string;
  conv_target : string;
  conv_result : Res float
}.

Definition conversions (t : list UiEvent) : list Conversion :=
  flat_map (fun e => match e with
                     | EvConvert a s g o =>
                         [{| conv_amount := a; conv_source := s; conv_target := g;
                             conv_result := o |}]
                     | _ => []
                     end) t.

Definition insert_outcomes (t : list UiEvent) : list (Res InsertResult) :=
  flat_map (fun e => match e with EvInsert _ o => [o] | _ => [] end) t.

(** A visitor who is signed in, on a page whose service is loaded. *)
Definition can_order (st : State) : bool :=
  match user st, service st with
  | Some _, Some _ => true
  | _, _ => false
  end.

(** What the customer sees of a purchase.  For a visitor who is not signed
    in, or without a service, nothing happens at all.  Otherwise exactly
    one of two things is shown: the payment page of the order that the
    one insert returned without an error, or the one alert. *)
Definition outcome_shown (st : State) (x : Res unit * list UiEvent) : Prop :=
  if can_order st
  then
    match navigations (snd x), alerts (snd x) with
    | [target], [] =>
        exists result order,
          insert_outcomes (snd x) = [Ok result]
          /\ ins_error result = None /\ ins_data result = Some order
          /\ target = "/payment/" ++ order_id order
    | [], [text] => text = "Failed to create order. Please try again."
    | _, _ => False
    end
  else x = (Ok tt, []).

(** With [setIsLoading] bound the handler never rejects, and the flag it
    raised is lowered again; with [setIsLoading] unbound nothing reaches
    the database. *)
Definition loading_handled (w : Browser) (x : Res unit * list UiEvent) : Prop :=
  if setIsLoading_bound w
  then fst x = Ok tt
       /\ (loading_flags (snd x) = [] \/ loading_flags (snd x) = [true; false])
  else inserted (snd x) = [] /\ conversions (snd x) = [].

Definition resolved (c : Conversion) : bool :=
  match conv_result c with
  | Ok _ => true
  | Throw _ => false
  end.

(** The currency conversions of a purchase: into USD from the customer's
    currency, or from USD into INR or AUD, never from a currency into
    itself; at most four; and a row is stored only when all of them
    resolved. *)
Definition conversions_sound (st : State) (t : list UiEvent) : Prop :=
  Forall (fun c =>
            conv_source c <> conv_target c
            /\ ((conv_source c = userCurrency st /\ conv_target c = "USD")
                \/ (conv_source c = "USD"
                    /\ (conv_target c = "INR" \/ conv_target c = "AUD"))))
         (conversions t)
  /\ (length (conversions t) <= 4)%nat
  /\ (inserted t = [] \/ forallb resolved (conversions t) = true).

End PurchaseFacts.

Module X_purchase.

Import ServicePurchase.

(** A customer who pays in euros. *)
Definition euro_state : State :=
  {| user := user Purchase_input.state;
     service := service Purchase_input.state;
     selectedPackage := basic;
     quantity := 2%float;
     selectedAddOns := ["monitoring"];
     userCurrency := "EUR";
     convertedPricing := Purchase_input.prices;
     convertedAddOns := Purchase_input.addOns |}.

(** A service at 30.4 with three add-ons, selected in two orders. *)
Definition three_addOns : list AddOn :=
  [{| addon_id := "a"; addon_name := "A"; addon_description := ""; price := 15.2%float |};
   {| addon_id := "b"; addon_name := "B"; addon_description := ""; price := 7.6%float |};
   {| addon_id := "c"; addon_name := "C"; addon_description := ""; price := 12.16%float |}].

Definition selecting (ids : list string) : State :=
  {| user := user Purchase_input.rounding;
     service := service Purchase_input.rounding;
     selectedPackage := basic;
     quantity := 1%float;
     selectedAddOns := ids;
     userCurrency := "USD";
     convertedPricing := Purchase_input.prices;
     convertedAddOns := three_addOns |}.

End X_purchase.

(** ** Properties of the e-mail verification page *)

Module VerificationFacts.

Import EmailVerificationPage.

Definition lookups (t : list PageEvent) : list (string * Res QueryResult) :=
  flat_map (fun e => match e with EvSelectProfile id o => [(id, o)] | _ => [] end) t.

Inductive Write :=
| Inserted (row : Row)
| Updated (id : string) (row : Row).

Definition writes (t : list PageEvent) : list Write :=
  flat_map (fun e => match e with
                     | EvInsertProfile row _ => [Inserted row]
                     | EvUpdateProfile id row _ => [Updated id row]
                     | _ => []
                     end) t.

Definition timers (t : list PageEvent) : list (string * Z) :=
  flat_map (fun e => match e with EvSetTimeout target ms => [(target, ms)] | _ => [] end) t.

Definition messages (t : list PageEvent) : list string :=
  flat_map (fun e => match e with EvSetResendMessage text => [text] | _ => [] end) t.

Definition resending_flags (t : list PageEvent) : list bool :=
  flat_map (fun e => match e with EvSetIsResending b => [b] | _ => [] end) t.

Record Resend := {
  rs_kind : string;
  rs_email : string;
  rs_redirect : string;
  rs_outcome : Res QueryResult
}.

Definition resends (t : list PageEvent) : list Resend :=
  flat_map (fun e => match e with
                     | EvResend k m r o =>
                         [{| rs_kind := k; rs_email := m; rs_redirect := r;
                             rs_outcome := o |}]
                     | _ => []
                     end) t.

(** The profile of [user] was looked up once, first, and written at most
    once: inserted when the lookup found none, with the user's id, a
    non-empty name and the verified flag; updated, in the verification
    fields only, when the lookup found one; not written when the lookup
    was rejected. *)
Definition profile_handled (user : AuthUser) (t : list PageEvent) : Prop :=
  exists o rest,
    t = EvSelectProfile (auth_id user) o :: rest
    /\ lookups rest = []
    /\ match writes rest with
       | [] => exists e, o = Throw e
       | [Inserted row] =>
           (exists r, o = Ok r /\ q_data r = None)
           /\ Js.assoc "id" row = Some (Js.JStr (auth_id user))
           /\ Js.assoc "email_verified" row = Some (Js.JBool true)
           /\ exists name, Js.assoc "name" row = Some (Js.JStr name) /\ name <> ""
       | [Updated id row] =>
           (exists r p, o = Ok r /\ q_data r = Some p)
           /\ id = auth_id user
           /\ Js.assoc "email_verified" row = Some (Js.JBool true)
           /\ map fst row = ["email_verified"; "email_verified_at"]
       | _ => False
       end.

(** The message a resend ends with. *)
Definition final_message (o : Res QueryResult) : string :=
  match o with
  | Ok r =>
      match q_error r with
      | None => sent_message
      | Some _ => failed_message
      end
  | Throw _ => error_message
  end.

Definition was_sent (o : Res QueryResult) : bool :=
  match o with
  | Ok r =>
      match q_error r with
      | None => true
      | Some _ => false
      end
  | Throw _ => false
  end.

(** How a click on "Resend Email" is reported. *)
Definition resend_reported (w : Page) (email : string) (t : list PageEvent) : Prop :=
  if email =? ""
  then t = [EvSetResendMessage not_found_message]
       /\ message_class not_found_message = "text-red-600"
  else
    exists o,
      resends t = [{| rs_kind := "signup"; rs_email := email;
                      rs_redirect := origin w ++ "/client/verify-email";
                      rs_outcome := o |}]
      /\ messages t = [""; final_message o]
      /\ resending_flags t = [true; false]
      /\ last t (EvSetIsResending true) = EvSetIsResending false
      /\ (message_class (final_message o) = "text-green-600" <-> was_sent o = true).

(** A confirmed user is sent on to the thank-you page, two seconds later,
    after their profile was handled; for anyone else the page touches
    neither the database nor the timer. *)
Definition redirected (candidate : option AuthUser) (t : list PageEvent) : Prop :=
  match timers t with
  | [] =>
      writes t = [] /\ lookups t = []
      /\ match candidate with
         | Some u => Js.truthy (email_confirmed_at u) = false
         | None => True
         end
  | [(target, ms)] =>
      target = "/client/thank-you" /\ ms = 2000%Z
      /\ last t (EvSetIsVerified false) = EvSetTimeout "/client/thank-you" 2000
      /\ exists u, candidate = Some u
                   /\ Js.truthy (email_confirmed_at u) = true
                   /\ map fst (lookups t) = [auth_id u]
  | _ => False
  end.

(** The user the initial check was given. *)
Definition checked_user (t : list PageEvent) : option AuthUser :=
  match t with
  | EvGetUser (Ok u) :: _ => u
  | _ => None
  end.

(** The user of a sign-in event. *)
Definition signed_in_user (event : string) (session : option Session) : option AuthUser :=
  if event =? "SIGNED_IN" then
    match session with
    | Some s => session_user s
    | None => None
    end
  else None.

End VerificationFacts.

Module X_verify.

Import EmailVerificationPage.

Definition alice : AuthUser :=
  {| auth_id := "u-1"; auth_email := Some "alice@example.com";
     email_confirmed_at := Some "2024-01-01T00:00:00Z";
     user_metadata := None |}.

Definition no_data : UserData := {| ud_name := None; ud_phone := None; ud_company := None |}.

Definition nothing : QueryResult := {| q_data := None; q_error := None |}.

(** A page on which every call resolves and no profile exists yet. *)
Definition page : Page :=
  {| getUser_result := fun _ => Ok (Some alice);
     select_result := fun _ _ => Ok nothing;
     insert_result := fun _ _ => Ok nothing;
     update_result := fun _ _ _ => Ok nothing;
     resend_result := fun _ _ _ => Ok nothing;
     page_clock := fun _ => 0%Z;
     origin := "https://mechinweb.com" |}.

End X_verify.

(** * Proofs *)

Create HintDb js discriminated.

#[export] Hint Unfold bind catch all2 ask ret throw axios_request fetch_request
  transporter_verify transporter_sendMail sleep now defined destructured nodemailer
  requestId_of parse_body_or_empty : js.

#[export] Hint Unfold
  ZohoV1.handler ZohoV1.validateZohoConfig ZohoV1.getZohoAccessToken
  ZohoV1.findZohoCustomer ZohoV1.createZohoCustomer ZohoV1.createZohoInvoice
  ZohoV1.getZohoInvoiceStatus ZohoV1.failure
  ZohoV3.handler ZohoV3.validateZohoConfig ZohoV3.getZohoAccessToken
  ZohoV3.testZohoConnection ZohoV3.findZohoCustomer ZohoV3.createZohoCustomer
  ZohoV3.createZohoInvoice ZohoV3.getZohoInvoiceStatus ZohoV3.parse_request
  CreatePayment.handler CreatePayment.getZohoAccessToken CreatePayment.findZohoCustomer
  CreatePayment.createZohoCustomer CreatePayment.createZohoInvoice CreatePayment.failure
  TestZoho.handler
  Supabase.serve Supabase.getZohoAccessToken Supabase.findZohoCustomer
  Supabase.createZohoCustomer Supabase.createZohoInvoice Supabase.getZohoInvoice
  Supabase.response_json Supabase.parsed
  SendEmailV1.handler SendEmailV1.handleContactForm SendEmailV1.handleQuoteRequest
  SendEmailV1.handleWelcomeEmail SendEmailV1.handlePaymentConfirmation
  SendEmailV1.parse_body
  SendEmail.handler SendEmail.handleContactForm SendEmail.handleQuoteRequest
  SendEmail.handleWelcomeEmail SendEmail.handlePaymentConfirmation
  SendEmail.parse_body SendEmail.verifyEmailConfig SendEmail.sendEmailWithRetry
  SendEmail.default_maxRetries
  TestEmail.handler TestMailer.handler : js.

(** One step of symbolic execution: case analysis on the innermost
    scrutinee the computation is stuck on. *)
Ltac case_step :=
  match goal with
  | |- context [match ?x with _ => _ end] =>
      lazymatch x with
      | context [match _ with _ => _ end] => fail
      | _ => destruct x eqn:?
      end
  end.

Ltac norm := repeat (progress (autounfold with js; cbn)).

Ltac run := norm; repeat (case_step; norm).

(** *** The four implementations of [createZohoCustomer] *)

Lemma v1_find_or_create token c :
  FindOrCreate (ZohoV1.createZohoCustomer token (Some c))
    (fun w => ZohoV1.create_request (ZohoV1.ZOHO_CONFIG (env w)) token c)
    (ZohoV1.findZohoCustomer token (email c))
    contact_id (fun e => status_is e 400) (fun e => e).
Proof.
  intros w n. repeat split.
  - intros r d k H Hd Hk.
    unfold ZohoV1.createZohoCustomer, bind, catch, ask, axios_request, defined, ret; cbn.
    rewrite H; cbn. rewrite Hd; cbn. rewrite Hk. reflexivity.
  - intros e H Hs.
    destruct (ZohoV1.findZohoCustomer token (email c) w (S n)) as [r t] eqn:Hf.
    unfold ZohoV1.createZohoCustomer, bind, catch, ask, axios_request, defined, ret.
    cbn -[ZohoV1.findZohoCustomer].
    rewrite H. cbn -[ZohoV1.findZohoCustomer].
    rewrite Hs. cbn -[ZohoV1.findZohoCustomer]. rewrite Hf. reflexivity.
  - intros e H Hs.
    unfold ZohoV1.createZohoCustomer, bind, catch, ask, axios_request, defined, ret, throw; cbn.
    rewrite H; cbn. rewrite Hs. reflexivity.
Qed.

Lemma payment_find_or_create token c :
  FindOrCreate (CreatePayment.createZohoCustomer token (Some c))
    (fun w => ZohoV1.create_request (CreatePayment.ZOHO_CONFIG (env w)) token c)
    (CreatePayment.findZohoCustomer token (email c))
    contact_id (fun e => status_is e 400) (fun e => e).
Proof.
  intros w n. repeat split.
  - intros r d k H Hd Hk.
    unfold CreatePayment.createZohoCustomer, bind, catch, ask, axios_request, defined, ret; cbn.
    rewrite H; cbn. rewrite Hd; cbn. rewrite Hk. reflexivity.
  - intros e H Hs.
    destruct (CreatePayment.findZohoCustomer token (email c) w (S n)) as [r t] eqn:Hf.
    unfold CreatePayment.createZohoCustomer, bind, catch, ask, axios_request, defined, ret.
    cbn -[CreatePayment.findZohoCustomer].
    rewrite H. cbn -[CreatePayment.findZohoCustomer].
    rewrite Hs. cbn -[CreatePayment.findZohoCustomer]. rewrite Hf. reflexivity.
  - intros e H Hs.
    unfold CreatePayment.createZohoCustomer, bind, catch, ask, axios_request, defined, ret, throw; cbn.
    rewrite H; cbn. rewrite Hs. reflexivity.
Qed.

Lemma v3_find_or_create token c :
  FindOrCreate (ZohoV3.createZohoCustomer token (Some c))
    (fun w => ZohoV1.create_request (ZohoV3.ZOHO_CONFIG (env w)) token c)
    (ZohoV3.findZohoCustomer token (email c))
    ZohoV3.customer_of
    (fun e => status_is e 400 && ZohoV3.says_already_exists e)
    (fun e => new_Error ("Customer creation failed: " ++
                         Js.or_default (response_data_message e) (message e))).
Proof.
  intros w n. repeat split.
  - intros r d k H Hd Hk.
    unfold ZohoV3.createZohoCustomer, bind, catch, ask, axios_request, defined, ret; cbn.
    rewrite H; cbn. rewrite Hd; cbn. rewrite Hk. reflexivity.
  - intros e H Hs.
    destruct (ZohoV3.findZohoCustomer token (email c) w (S n)) as [r t] eqn:Hf.
    unfold ZohoV3.createZohoCustomer, bind, catch, ask, axios_request, defined, ret.
    cbn -[ZohoV3.findZohoCustomer ZohoV3.says_already_exists].
    rewrite H. cbn -[ZohoV3.findZohoCustomer ZohoV3.says_already_exists].
    rewrite Hs. cbn -[ZohoV3.findZohoCustomer]. rewrite Hf. reflexivity.
  - intros e H Hs.
    unfold ZohoV3.createZohoCustomer, bind, catch, ask, axios_request, defined, ret, throw.
    cbn -[ZohoV3.says_already_exists].
    rewrite H; cbn -[ZohoV3.says_already_exists]. rewrite Hs. reflexivity.
Qed.

Lemma edge_token_ok w n config rt token :
  fetch w n (Supabase.token_request config) = FetchResolved rt ->
  f_ok rt = true -> f_json rt = Some token ->
  Supabase.getZohoAccessToken config w n =
  (Ok token, [EvFetch (Supabase.token_request config) (FetchResolved rt)]).
Proof.
  intros H Hok Hj.
  unfold Supabase.getZohoAccessToken, Supabase.response_json, bind, fetch_request, ret; cbn.
  rewrite H; cbn. rewrite Hok; cbn. rewrite Hj. reflexivity.
Qed.

Lemma edge_find_or_create : EdgeFindOrCreate (fun r => negb (f_ok r)).
Proof.
  intros w n c config rt token H Hok Hj post first. repeat split.
  - intros r d Hp Hr Hd.
    unfold Supabase.createZohoCustomer, bind.
    rewrite (edge_token_ok _ _ _ _ _ H Hok Hj).
    unfold fetch_request, Supabase.response_json, ret; cbn.
    fold post. rewrite Hp; cbn. rewrite Hr; cbn. rewrite Hd. reflexivity.
  - intros r Hp Hr search.
    unfold Supabase.createZohoCustomer, bind.
    rewrite (edge_token_ok _ _ _ _ _ H Hok Hj).
    unfold fetch_request, ret. cbn -[Supabase.findZohoCustomer].
    fold post. rewrite Hp. cbn -[Supabase.findZohoCustomer].
    rewrite Hr. cbn -[Supabase.findZohoCustomer].
    fold search. destruct search as [[k|e] t]; cbn; rewrite ?app_nil_r; reflexivity.
  - intros e Hp.
    unfold Supabase.createZohoCustomer, bind.
    rewrite (edge_token_ok _ _ _ _ _ H Hok Hj).
    unfold fetch_request; cbn. fold post. rewrite Hp. reflexivity.
Qed.

Lemma v1_returns_first token email :
  ReturnsFirst (ZohoV1.findZohoCustomer token email)
    (fun w => ZohoV1.search_request (ZohoV1.ZOHO_CONFIG (env w)) token email) contact_id.
Proof.
  intros w n r d k rest H Hd Hk.
  unfold ZohoV1.findZohoCustomer, bind, catch, ask, axios_request, defined, ret; cbn.
  rewrite H; cbn. rewrite Hd; cbn. rewrite Hk. reflexivity.
Qed.

Lemma payment_returns_first token email :
  ReturnsFirst (CreatePayment.findZohoCustomer token email)
    (fun w => ZohoV1.search_request (CreatePayment.ZOHO_CONFIG (env w)) token email) contact_id.
Proof.
  intros w n r d k rest H Hd Hk.
  unfold CreatePayment.findZohoCustomer, bind, catch, ask, axios_request, defined, ret; cbn.
  rewrite H; cbn. rewrite Hd; cbn. rewrite Hk. reflexivity.
Qed.

Lemma v3_returns_first token email :
  ReturnsFirst (ZohoV3.findZohoCustomer token email)
    (fun w => ZohoV1.search_request (ZohoV3.ZOHO_CONFIG (env w)) token email)
    ZohoV3.customer_of.
Proof.
  intros w n r d k rest H Hd Hk.
  unfold ZohoV3.findZohoCustomer, bind, catch, ask, axios_request, defined, ret; cbn.
  rewrite H; cbn. rewrite Hd; cbn. rewrite Hk. reflexivity.
Qed.

Lemma edge_returns_first w n email config rt token r d k rest :
  fetch w n (Supabase.token_request config) = FetchResolved rt ->
  f_ok rt = true -> f_json rt = Some token ->
  fetch w (S n) (Supabase.search_request token config email) = FetchResolved r ->
  f_ok r = true -> f_json r = Some d -> contacts d = Some (k :: rest) ->
  Supabase.findZohoCustomer email config w n =
  (Ok k, [EvFetch (Supabase.token_request config) (FetchResolved rt);
          EvFetch (Supabase.search_request token config email) (FetchResolved r)]).
Proof.
  intros H Hok Hj Hs Hr Hd Hk.
  unfold Supabase.findZohoCustomer, bind.
  rewrite (edge_token_ok _ _ _ _ _ H Hok Hj).
  unfold fetch_request, Supabase.response_json, ret; cbn.
  rewrite Hs; cbn. rewrite Hr; cbn. rewrite Hd; cbn. rewrite Hk. reflexivity.
Qed.

(** C1 (as amended).  [createZohoCustomer] returns the contact (its id in
    the first revision of zohoIntegration.js and in createPayment.js)
    created by the vendor POST when that call succeeds, and the result of
    a search by the same e-mail, which yields the first contact found, in
    the fallback case.  The fallback is taken on status 400 in the first
    revision of zohoIntegration.js and in createPayment.js, where every
    other failure propagates unchanged and without a search; on status 400
    with a vendor message containing "already exists" in the later
    revision of zohoIntegration.js, where every other failure is rethrown
    as "Customer creation failed: ..." without a search; and on every
    reply with a non-2xx status in the Supabase edge function, where only
    a rejected fetch propagates without a search. *)
Theorem find_or_create_customer :
  (forall token c,
      FindOrCreate (ZohoV1.createZohoCustomer token (Some c))
        (fun w => ZohoV1.create_request (ZohoV1.ZOHO_CONFIG (env w)) token c)
        (ZohoV1.findZohoCustomer token (email c))
        contact_id (fun e => status_is e 400) (fun e => e)
      /\ ReturnsFirst (ZohoV1.findZohoCustomer token (email c))
           (fun w => ZohoV1.search_request (ZohoV1.ZOHO_CONFIG (env w)) token (email c))
           contact_id)
  /\ (forall token c,
      FindOrCreate (CreatePayment.createZohoCustomer token (Some c))
        (fun w => ZohoV1.create_request (CreatePayment.ZOHO_CONFIG (env w)) token c)
        (CreatePayment.findZohoCustomer token (email c))
        contact_id (fun e => status_is e 400) (fun e => e)
      /\ ReturnsFirst (CreatePayment.findZohoCustomer token (email c))
           (fun w => ZohoV1.search_request (CreatePayment.ZOHO_CONFIG (env w)) token (email c))
           contact_id)
  /\ (forall token c,
      FindOrCreate (ZohoV3.createZohoCustomer token (Some c))
        (fun w => ZohoV1.create_request (ZohoV3.ZOHO_CONFIG (env w)) token c)
        (ZohoV3.findZohoCustomer token (email c))
        ZohoV3.customer_of
        (fun e => status_is e 400 && ZohoV3.says_already_exists e)
        (fun e => new_Error ("Customer creation failed: " ++
                             Js.or_default (response_data_message e) (message e)))
      /\ ReturnsFirst (ZohoV3.findZohoCustomer token (email c))
           (fun w => ZohoV1.search_request (ZohoV3.ZOHO_CONFIG (env w)) token (email c))
           ZohoV3.customer_of)
  /\ EdgeFindOrCreate (fun r => negb (f_ok r))
  /\ (forall w n email config rt token r d k rest,
      fetch w n (Supabase.token_request config) = FetchResolved rt ->
      f_ok rt = true -> f_json rt = Some token ->
      fetch w (S n) (Supabase.search_request token config email) = FetchResolved r ->
      f_ok r = true -> f_json r = Some d -> contacts d = Some (k :: rest) ->
      Supabase.findZohoCustomer email config w n =
      (Ok k, [EvFetch (Supabase.token_request config) (FetchResolved rt);
              EvFetch (Supabase.search_request token config email) (FetchResolved r)])).
Proof.
  repeat split.
  - apply v1_find_or_create.
  - apply v1_find_or_create.
  - apply v1_find_or_create.
  - apply v1_returns_first.
  - apply payment_find_or_create.
  - apply payment_find_or_create.
  - apply payment_find_or_create.
  - apply payment_returns_first.
  - apply v3_find_or_create.
  - apply v3_find_or_create.
  - apply v3_find_or_create.
  - apply v3_returns_first.
  - apply edge_find_or_create; assumption.
  - apply edge_find_or_create; assumption.
  - apply edge_find_or_create; assumption.
  - apply edge_returns_first.
Qed.

(** The amended statement at a concrete input: the first revision answers
    a status-400 rejection of the creation call with the search. *)
Lemma find_or_create_customer_witness :
  let w := Sample.world Sample.full_env
             (fun n => match n with
                       | O => AxiosRejected (Sample.http_error 400 Sample.no_data)
                       | _ => AxiosResolved (Sample.ok_response Sample.found_data)
                       end)
             Sample.all_fetched Sample.all_sent in
  let post := ZohoV1.create_request (ZohoV1.ZOHO_CONFIG (env w)) (Some "tok") Sample.alice_data in
  ZohoV1.createZohoCustomer (Some "tok") (Some Sample.alice_data) w 0 =
  (fst (ZohoV1.findZohoCustomer (Some "tok") (email Sample.alice_data) w 1),
   EvAxios post (AxiosRejected (Sample.http_error 400 Sample.no_data))
   :: snd (ZohoV1.findZohoCustomer (Some "tok") (email Sample.alice_data) w 1)).
Proof.
  intros w post.
  apply (proj1 (proj2 (proj1 (proj1 find_or_create_customer (Some "tok") Sample.alice_data) w 0))).
  - reflexivity.
  - reflexivity.
Defined.

(** C1 as stated fails on the Supabase edge function: a creation call
    answered with status 500 does not propagate an error; the search is
    made and its contact returned. *)
Lemma edge_create_searches_after_500 :
  let token := Sample.token_data in
  let post := Supabase.create_request token C1_input.config Sample.alice_data in
  fetch C1_input.world 1 post = FetchResolved (Sample.fetched 500 Sample.no_data)
  /\ fst (Supabase.createZohoCustomer Sample.alice_data C1_input.config C1_input.world 0)
     = Ok (Some Sample.alice)
  /\ http_requests
       (snd (Supabase.createZohoCustomer Sample.alice_data C1_input.config C1_input.world 0))
     = [Supabase.token_request C1_input.config;
        post;
        Supabase.token_request C1_input.config;
        Supabase.search_request token C1_input.config (email Sample.alice_data)].
Proof.
  repeat split; reflexivity.
Qed.

(** *** Retry loop *)

Lemma retry_loop_attempts m maxRetries :
  forall remaining attempt w n,
    (length (send_attempts (snd (SendEmail.retry_loop remaining attempt maxRetries m w n)))
     <= remaining)%nat.
Proof.
  induction remaining as [|k IH]; intros attempt w n.
  - cbn. lia.
  - cbn -[Z.pow Z.mul]. unfold catch, bind, transporter_sendMail, ret, sleep, throw.
    destruct (sendMail w n m) as [i|e]; cbn -[Z.pow Z.mul]; [lia|].
    destruct (attempt =? maxRetries)%nat; cbn -[Z.pow Z.mul]; [lia|].
    specialize (IH (S attempt) w (S (S n))).
    destruct (SendEmail.retry_loop k (S attempt) maxRetries m w (S (S n))) as [r t].
    cbn in *. lia.
Qed.

Lemma retry_loop_waits m maxRetries :
  forall remaining attempt w n,
    let t := snd (SendEmail.retry_loop remaining attempt maxRetries m w n) in
    waits t = map backoff_ms (seq attempt (length (waits t))).
Proof.
  induction remaining as [|k IH]; intros attempt w n.
  - reflexivity.
  - cbn -[Z.pow Z.mul]. unfold catch, bind, transporter_sendMail, ret, sleep, throw.
    destruct (sendMail w n m) as [i|e]; cbn -[Z.pow Z.mul]; [reflexivity|].
    destruct (attempt =? maxRetries)%nat; cbn -[Z.pow Z.mul]; [reflexivity|].
    specialize (IH (S attempt) w (S (S n))).
    destruct (SendEmail.retry_loop k (S attempt) maxRetries m w (S (S n))) as [r t].
    cbn -[Z.pow Z.mul] in *. unfold backoff_ms at 1. f_equal. exact IH.
Qed.

Lemma retry_default m w n :
  SendEmail.sendEmailWithRetry m SendEmail.default_maxRetries w n =
  match sendMail w n m with
  | Sent i => (Ok (Some i), [EvSendMail m (Sent i)])
  | SendFailed e1 =>
      match sendMail w (2 + n) m with
      | Sent i =>
          (Ok (Some i),
           [EvSendMail m (SendFailed e1); EvSleep (backoff_ms 1); EvSendMail m (Sent i)])
      | SendFailed e2 =>
          (Throw e2,
           [EvSendMail m (SendFailed e1); EvSleep (backoff_ms 1);
            EvSendMail m (SendFailed e2)])
      end
  end.
Proof.
  unfold SendEmail.sendEmailWithRetry, SendEmail.default_maxRetries, backoff_ms.
  cbn -[Z.pow Z.mul]. unfold catch, bind, transporter_sendMail, ret, sleep, throw.
  destruct (sendMail w n m) as [i|e1]; cbn -[Z.pow Z.mul]; [reflexivity|].
  destruct (sendMail w (S (S n)) m) as [i|e2]; reflexivity.
Qed.

(** *** No other handler makes a failed call again *)

Create HintDb requests discriminated.

#[export] Hint Unfold call_of
  ZohoV1.token_request ZohoV1.search_request ZohoV1.create_request
  ZohoV1.invoice_request ZohoV1.status_request
  ZohoV3.token_request ZohoV3.probe_request
  CreatePayment.token_request TestZoho.probe_request
  Supabase.token_request Supabase.search_request Supabase.create_request
  Supabase.invoice_request Supabase.get_request : requests.

Ltac distinct_calls :=
  repeat match goal with
         | |- Forall _ [] => constructor
         | |- Forall _ (_ :: _) => constructor
         | |- _ <> _ => autounfold with requests; cbn; (discriminate || congruence)
         end.

Ltac audit_reissue :=
  cbn;
  repeat match goal with
         | |- _ /\ _ => split
         | |- True => exact I
         | |- false = true -> _ => discriminate
         | |- _ = true -> _ =>
             let H := fresh "Hfailed" in
             intros H; first [congruence | clear H; distinct_calls]
         end.

Lemma v1_no_reissue w ev ctx : no_reissue (snd (ZohoV1.handler ev ctx w 0)).
Proof. run; audit_reissue. Qed.

Lemma v3_no_reissue w ev ctx : no_reissue (snd (ZohoV3.handler ev ctx w 0)).
Proof. run; audit_reissue. Qed.

Lemma payment_no_reissue w ev ctx : no_reissue (snd (CreatePayment.handler ev ctx w 0)).
Proof. run; audit_reissue. Qed.

Lemma test_zoho_no_reissue w ev ctx : no_reissue (snd (TestZoho.handler ev ctx w 0)).
Proof. run; audit_reissue. Qed.

Lemma edge_no_reissue w cors req : no_reissue (snd (Supabase.serve cors req w 0)).
Proof. run; audit_reissue. Qed.

Lemma mail_v1_no_reissue w ev ctx : no_reissue (snd (SendEmailV1.handler ev ctx w 0)).
Proof. run; audit_reissue. Qed.

Lemma test_email_no_reissue w ev ctx : no_reissue (snd (TestEmail.handler ev ctx w 0)).
Proof. run; audit_reissue. Qed.

Lemma test_mailer_no_reissue w ev ctx : no_reissue (snd (TestMailer.handler ev ctx w 0)).
Proof. run; audit_reissue. Qed.

(** C2.  [sendEmailWithRetry] makes at most [maxRetries] send attempts,
    two with the default every caller uses; the wait after failed attempt
    number [k] is [2^k] seconds; with the default it returns the result of
    the first attempt when that succeeds, otherwise waits 2 seconds and
    returns the result of the second attempt or throws the second
    attempt's error.  In no other handler is a failed outbound call made
    again. *)
Theorem email_retry_policy :
  (forall m maxRetries w n,
      let t := snd (SendEmail.sendEmailWithRetry m maxRetries w n) in
      (length (send_attempts t) <= maxRetries)%nat
      /\ waits t = map backoff_ms (seq 1 (length (waits t))))
  /\ (forall m w n,
      SendEmail.sendEmailWithRetry m SendEmail.default_maxRetries w n =
      match sendMail w n m with
      | Sent i => (Ok (Some i), [EvSendMail m (Sent i)])
      | SendFailed e1 =>
          match sendMail w (2 + n) m with
          | Sent i =>
              (Ok (Some i),
               [EvSendMail m (SendFailed e1); EvSleep (backoff_ms 1); EvSendMail m (Sent i)])
          | SendFailed e2 =>
              (Throw e2,
               [EvSendMail m (SendFailed e1); EvSleep (backoff_ms 1);
                EvSendMail m (SendFailed e2)])
          end
      end)
  /\ SendEmail.default_maxRetries = 2%nat
  /\ backoff_ms 1 = 2000%Z
  /\ (forall w ev ctx,
      no_reissue (snd (ZohoV1.handler ev ctx w 0))
      /\ no_reissue (snd (ZohoV3.handler ev ctx w 0))
      /\ no_reissue (snd (CreatePayment.handler ev ctx w 0)))
  /\ (forall w ev ctx,
      no_reissue (snd (TestZoho.handler ev ctx w 0))
      /\ no_reissue (snd (TestEmail.handler ev ctx w 0))
      /\ no_reissue (snd (TestMailer.handler ev ctx w 0)))
  /\ (forall w ev ctx, no_reissue (snd (SendEmailV1.handler ev ctx w 0)))
  /\ (forall w cors req, no_reissue (snd (Supabase.serve cors req w 0))).
Proof.
  split; [|split; [|split; [|split; [|split; [|split; [|split]]]]]].
  - intros m maxRetries w n t. split.
    + apply retry_loop_attempts.
    + apply (retry_loop_waits m maxRetries maxRetries 1 w n).
  - apply retry_default.
  - reflexivity.
  - reflexivity.
  - intros w ev ctx. split; [|split].
    + apply v1_no_reissue.
    + apply v3_no_reissue.
    + apply payment_no_reissue.
  - intros w ev ctx. split; [|split].
    + apply test_zoho_no_reissue.
    + apply test_email_no_reissue.
    + apply test_mailer_no_reissue.
  - apply mail_v1_no_reissue.
  - apply edge_no_reissue.
Qed.

(** The retrying sender does make a failed call again: the property the
    other handlers enjoy is not empty. *)
Remark retry_reissues :
  ~ no_reissue (snd (SendEmail.sendEmailWithRetry C2_input.message 2 C2_input.world 0)).
Proof.
  cbn. intros [H _]. specialize (H eq_refl).
  inversion H as [|? ? _ H2]. inversion H2 as [|? ? Hne _]. apply Hne. reflexivity.
Qed.

Example retry_second_attempt :
  SendEmail.sendEmailWithRetry C2_input.message 2 C2_input.world 0 =
  (Ok (Some Sample.sent),
   [EvSendMail C2_input.message (SendFailed (new_Error "421 try again"));
    EvSleep 2000;
    EvSendMail C2_input.message (Sent Sample.sent)]).
Proof. reflexivity. Qed.

(** *** Fan-out of the two e-mails *)






Ltac joint_core :=
  do 4 eexists; (split; [reflexivity|]);
  (split; [reflexivity|]); (split; [reflexivity|]);
  (split; [reflexivity|]); (split; [reflexivity|]);
  split;
  [ split;
    [ let H := fresh in
      intros H; first [discriminate H | do 2 eexists; split; reflexivity]
    | let H := fresh in
      let H' := fresh in
      intros (? & ? & H & H');
      first [discriminate H | discriminate H' | reflexivity] ]
  | let H := fresh in
    intros ? [H|H]; try discriminate H;
    first [ eexists; split;
            [left; reflexivity | first [reflexivity | split; reflexivity]]
          | eexists; split;
            [right; reflexivity | first [reflexivity | split; reflexivity]] ] ].


Ltac joint_answered :=
  unfold holds, JointlyAnswered, Jointly; cbn;
  eexists; (split; [reflexivity|]); cbn; joint_core.

(** A branch that a ready relay excludes. *)
Ltac not_ready :=
  exfalso;
  match goal with
  | Hv : forall k, verify _ k = None, H : verify _ _ = Some _ |- _ =>
      rewrite Hv in H; discriminate H
  | H : createTransport _ = None, H' : createTransport _ = Some _ |- _ =>
      rewrite H in H'; discriminate H'
  | H : createTransporter _ = None, H' : createTransporter _ = Some _ |- _ =>
      rewrite H in H'; discriminate H'
  | Hu : Js.truthy (EMAIL_USER _) = true, Hp : Js.truthy (EMAIL_PASSWORD _) = true |- _ =>
      unfold Js.truthy in Hu, Hp;
      repeat match goal with
             | H : ?x = _ |- _ => rewrite H in Hu
             | H : ?x = _ |- _ => rewrite H in Hp
             end;
      cbn in Hu, Hp; congruence
  end.

Lemma complete_fields d :
  contact_complete d = true ->
  Js.truthy (d_name d) = true /\ Js.truthy (d_email d) = true
  /\ Js.truthy (d_subject d) = true /\ Js.truthy (d_message d) = true.
Proof.
  unfold contact_complete. intros H.
  apply andb_prop in H as [H Hm]. apply andb_prop in H as [H Hs].
  apply andb_prop in H as [Hn He]. auto.
Qed.





Lemma typed_contact rq :
  type rq = Some "contact_form" -> is_type (type rq) "contact_form" = true.
Proof. intros H. now rewrite H. Qed.


Ltac answered_leaf := first [not_ready | joint_answered].

Lemma retry_contact_answered w ev ctx rq d :
  httpMethod ev = "POST" -> body ev = Some (Parses rq) ->
  type rq = Some "contact_form" -> data rq = Some d ->
  contact_complete d = true -> relay_ready w ->
  holds (JointlyAnswered (d_email d) "contact-confirmation" "contact-notification")
        (SendEmail.handler ev ctx w 0).
Proof.
  intros Hm Hb Hty Hd Hc (Hcfg & Hct & Hv).
  apply andb_prop in Hcfg as [Hu Hp].
  destruct (complete_fields d Hc) as (Hn & He & Hs & Hmsg).
  autounfold with js. rewrite Hm, Hb. cbn -[Js.truthy].
  rewrite Hu, Hp, Hct. cbn -[Js.truthy].
  rewrite (typed_contact rq Hty), Hd.
  unfold SendEmail.handleContactForm. autounfold with js. cbn -[Js.truthy].
  rewrite Hn, He, Hs, Hmsg. run; answered_leaf.
Qed.






Example fanout_reports_failed_send :
  let '(res, t) := SendEmail.handler C3_input.event Sample.context C3_input.world 0 in
  option_map statusCode (match res with Ok r => Some r | Throw _ => None end) = Some 500%Z
  /\ final_sends t = [Sent Sample.sent; SendFailed (new_Error "550 mailbox unavailable")]
  /\ match res with
     | Ok r => body_error r = Some (Js.JStr "550 mailbox unavailable")
     | Throw _ => False
     end.
Proof. cbn. repeat split. Qed.


(** With nodemailer as published, [nodemailer.createTransporter] is not a
    function: sendEmail.js then answers every submission with 500 and
    hands nothing to the relay. *)
Remark first_sender_without_transporter :
  exists resp t,
    SendEmailV1.handler C3_input.event Sample.context C3_input.published 0 = (Ok resp, t)
    /\ statusCode resp = 500%Z
    /\ body_error resp = Some (Js.JStr "nodemailer.createTransporter is not a function")
    /\ final_mails t = [].
Proof. do 2 eexists. split; [reflexivity|]. repeat split. Qed.

(** *** Token-refresh failures *)

Lemma v1_token_rejected w n e :
  axios w n (ZohoV1.token_request (ZohoV1.ZOHO_CONFIG (env w))) = AxiosRejected e ->
  ZohoV1.getZohoAccessToken w n =
  (Throw (new_Error (v1_token_message e)),
   [EvAxios (ZohoV1.token_request (ZohoV1.ZOHO_CONFIG (env w))) (AxiosRejected e)]).
Proof.
  intros H. unfold v1_token_message.
  unfold ZohoV1.getZohoAccessToken, bind, catch, ask, axios_request, throw; cbn.
  rewrite H; cbn.
  destruct (status_is e 400); [reflexivity|].
  destruct (status_is e 401); reflexivity.
Qed.

Lemma v3_token_rejected w n e :
  axios w n (ZohoV3.token_request (ZohoV3.ZOHO_CONFIG (env w))) = AxiosRejected e ->
  ZohoV3.getZohoAccessToken w n =
  (Throw (new_Error (v3_token_message e)),
   [EvAxios (ZohoV3.token_request (ZohoV3.ZOHO_CONFIG (env w))) (AxiosRejected e)]).
Proof.
  intros H. unfold v3_token_message.
  unfold ZohoV3.getZohoAccessToken, bind, catch, ask, axios_request, throw, defined, ret; cbn.
  rewrite H; cbn.
  destruct (status_is e 400); cbn.
  - destruct (response_data e) as [d|]; cbn; [|reflexivity].
    destruct (ZohoV3.is_code (error_code d) "invalid_grant"); [reflexivity|].
    destruct (ZohoV3.is_code (error_code d) "invalid_client"); reflexivity.
  - destruct (status_is e 401); reflexivity.
Qed.

Lemma v1_surfaces :
  SurfacesTokenError ZohoV1.handler
    (fun w => ZohoV1.token_request (ZohoV1.ZOHO_CONFIG (env w))) v1_token_message.
Proof.
  intros w ev ctx e Hm Hp Hc Hr.
  unfold ZohoV1.handler, ZohoV1.validateZohoConfig, ZohoV1.failure.
  unfold bind at 1. unfold ask at 1. cbn -[ZohoV1.getZohoAccessToken missing_names v1_token_message].
  unfold bind at 1.
  destruct (requestId_of ctx w 0) as [[rid|x] t0] eqn:Hrid.
  2:{ unfold requestId_of in Hrid. destruct (Js.truthy (awsRequestId ctx)); discriminate Hrid. }
  rewrite Hm.
  unfold catch, bind, ask, throw, ret, now.
  cbn -[ZohoV1.getZohoAccessToken missing_names v1_token_message].
  rewrite Hc. cbn -[ZohoV1.getZohoAccessToken v1_token_message].
  destruct (pathSegments ev) as [l|]; [|congruence].
  cbn -[ZohoV1.getZohoAccessToken v1_token_message].
  rewrite (v1_token_rejected w _ e (Hr _)).
  cbn -[v1_token_message].
  eexists; eexists; split; [reflexivity|]. repeat split.
Qed.

Lemma v3_surfaces :
  SurfacesTokenError ZohoV3.handler
    (fun w => ZohoV3.token_request (ZohoV3.ZOHO_CONFIG (env w))) v3_token_message.
Proof.
  intros w ev ctx e Hm Hp Hc Hr.
  unfold ZohoV3.handler, ZohoV3.validateZohoConfig, ZohoV1.failure.
  unfold bind at 1. unfold ask at 1. cbn -[ZohoV3.getZohoAccessToken missing_names v3_token_message].
  unfold bind at 1.
  destruct (requestId_of ctx w 0) as [[rid|x] t0] eqn:Hrid.
  2:{ unfold requestId_of in Hrid. destruct (Js.truthy (awsRequestId ctx)); discriminate Hrid. }
  rewrite Hm.
  unfold catch, bind, ask, throw, ret, now.
  cbn -[ZohoV3.getZohoAccessToken missing_names v3_token_message].
  unfold ZohoV3.ZOHO_CONFIG. rewrite Hc. cbn -[ZohoV3.getZohoAccessToken v3_token_message].
  rewrite (v3_token_rejected w _ e (Hr _)).
  cbn -[v3_token_message].
  eexists; eexists; split; [reflexivity|]. repeat split.
Qed.

(** C4 (as amended).  A rejected refresh-token exchange is thrown as a
    human-readable message.  In the first revision of zohoIntegration.js
    the message is determined by the vendor status: 400 gives the
    invalid-credentials message, 401 the refresh-token-expired message,
    anything else "Zoho authentication failed: " followed by the
    underlying error text.  In the later revision status 400 is told apart
    by the vendor's error code ([invalid_grant]: refresh token expired,
    [invalid_client]: invalid client credentials, otherwise "Zoho token
    error: " with the vendor's description), 401 gives an
    authentication-failed message and anything else "Zoho token request
    failed: " followed by the underlying error text.  Both handlers answer
    such a failure with status 500 and a JSON body holding
    [success: false] and the message. *)
Theorem token_refresh_errors :
  (forall w n e,
      axios w n (ZohoV1.token_request (ZohoV1.ZOHO_CONFIG (env w))) = AxiosRejected e ->
      ZohoV1.getZohoAccessToken w n =
      (Throw (new_Error (v1_token_message e)),
       [EvAxios (ZohoV1.token_request (ZohoV1.ZOHO_CONFIG (env w))) (AxiosRejected e)]))
  /\ (forall e, status_is e 400 = true -> v1_token_message e = ZohoV1.invalid_credentials)
  /\ (forall e, status_is e 401 = true -> v1_token_message e = ZohoV1.refresh_token_expired)
  /\ (forall e, status_is e 400 = false -> status_is e 401 = false ->
                v1_token_message e = "Zoho authentication failed: " ++ message e)
  /\ (forall w n e,
      axios w n (ZohoV3.token_request (ZohoV3.ZOHO_CONFIG (env w))) = AxiosRejected e ->
      ZohoV3.getZohoAccessToken w n =
      (Throw (new_Error (v3_token_message e)),
       [EvAxios (ZohoV3.token_request (ZohoV3.ZOHO_CONFIG (env w))) (AxiosRejected e)]))
  /\ (forall e d, status_is e 400 = true -> response_data e = Some d ->
                  error_code d = Some "invalid_grant" ->
                  v3_token_message e = ZohoV3.refresh_token_expired)
  /\ (forall e d, status_is e 400 = true -> response_data e = Some d ->
                  error_code d = Some "invalid_client" ->
                  v3_token_message e = ZohoV3.invalid_client)
  /\ (forall e, status_is e 401 = true -> v3_token_message e = ZohoV3.authentication_failed)
  /\ (forall e, status_is e 400 = false -> status_is e 401 = false ->
                v3_token_message e = "Zoho token request failed: " ++ message e)
  /\ SurfacesTokenError ZohoV1.handler
       (fun w => ZohoV1.token_request (ZohoV1.ZOHO_CONFIG (env w))) v1_token_message
  /\ SurfacesTokenError ZohoV3.handler
       (fun w => ZohoV3.token_request (ZohoV3.ZOHO_CONFIG (env w))) v3_token_message.
Proof.
  split; [exact v1_token_rejected|].
  split; [intros e H; unfold v1_token_message; rewrite H; reflexivity|].
  split.
  { intros e H. unfold v1_token_message. rewrite H.
    destruct (status_is e 400) eqn:H4; [|reflexivity].
    unfold status_is in *. destruct (response_status e); [|discriminate].
    apply Z.eqb_eq in H, H4. congruence. }
  split; [intros e H4 H1; unfold v1_token_message; rewrite H4, H1; reflexivity|].
  split; [exact v3_token_rejected|].
  split; [intros e d H Hd Hc; unfold v3_token_message; rewrite H, Hd, Hc; reflexivity|].
  split; [intros e d H Hd Hc; unfold v3_token_message; rewrite H, Hd, Hc; reflexivity|].
  split.
  { intros e H. unfold v3_token_message. rewrite H.
    destruct (status_is e 400) eqn:H4; [|reflexivity].
    unfold status_is in *. destruct (response_status e); [|discriminate].
    apply Z.eqb_eq in H, H4. congruence. }
  split; [intros e H4 H1; unfold v3_token_message; rewrite H4, H1; reflexivity|].
  split; [exact v1_surfaces | exact v3_surfaces].
Qed.

Lemma token_refresh_errors_witness :
  exists resp t,
    ZohoV1.handler C4_input.event Sample.context
      (C4_input.rejecting C4_input.unauthorized) 0 = (Ok resp, t)
    /\ statusCode resp = 500%Z
    /\ body_success resp = Some (Js.JBool false)
    /\ body_error resp = Some (Js.JStr (v1_token_message C4_input.unauthorized)).
Proof.
  apply (proj1 (proj2 (proj2 (proj2 (proj2 (proj2 (proj2 (proj2 (proj2 (proj2
           token_refresh_errors)))))))))).
  - reflexivity.
  - discriminate.
  - reflexivity.
  - intros k. reflexivity.
Defined.

(** C4 as stated fails on the later revision: two rejections with the same
    status 400 are given different messages, the one for [invalid_grant]
    being the refresh-token-expired message, and status 401 is given the
    authentication-failed message. *)
Lemma token_message_not_by_status :
  status_is C4_input.invalid_grant 400 = true
  /\ status_is C4_input.invalid_client 400 = true
  /\ fst (ZohoV3.getZohoAccessToken (C4_input.rejecting C4_input.invalid_grant) 0)
     = Throw (new_Error ZohoV3.refresh_token_expired)
  /\ fst (ZohoV3.getZohoAccessToken (C4_input.rejecting C4_input.invalid_client) 0)
     = Throw (new_Error ZohoV3.invalid_client)
  /\ status_is C4_input.unauthorized 401 = true
  /\ fst (ZohoV3.getZohoAccessToken (C4_input.rejecting C4_input.unauthorized) 0)
     = Throw (new_Error ZohoV3.authentication_failed)
  /\ ZohoV3.refresh_token_expired <> ZohoV3.invalid_client.
Proof.
  repeat split; try reflexivity. discriminate.
Qed.

(** *** Validation of the environment *)

Ltac config_leaf :=
  first
    [ congruence
    | match goal with H : ?x <> ?x |- _ => destruct (H eq_refl) end
    | eexists; eexists; (split; [reflexivity|]); cbn; repeat split ].

Ltac config_proof Happ Hmiss :=
  unfold not_preflight, is_post in Happ;
  unfold missing_variables, zoho_variables in *;
  cbn -[Js.truthy] in Hmiss;
  autounfold with js; unfold missing_names; cbn -[Js.truthy];
  try rewrite Happ;
  try (apply negb_true_iff in Happ; rewrite Happ);
  repeat (progress (autounfold with js; cbn -[Js.truthy]));
  repeat match goal with
         | |- context [Js.truthy ?v] =>
             destruct (Js.truthy v) eqn:?; cbn -[Js.truthy] in *
         end;
  repeat (case_step; repeat (progress (autounfold with js; cbn -[Js.truthy])));
  config_leaf.

Lemma v1_validates : ValidatesConfig ZohoV1.handler not_preflight.
Proof. intros w ev ctx Happ Hmiss. config_proof Happ Hmiss. Qed.

Lemma v3_validates : ValidatesConfig ZohoV3.handler not_preflight.
Proof. intros w ev ctx Happ Hmiss. config_proof Happ Hmiss. Qed.

Lemma test_zoho_validates : ValidatesConfig TestZoho.handler not_preflight.
Proof. intros w ev ctx Happ Hmiss. config_proof Happ Hmiss. Qed.

Lemma payment_validates : ValidatesConfig CreatePayment.handler is_post.
Proof.
  intros w ev ctx Happ Hmiss.
  assert (Hpost : httpMethod ev = "POST") by (apply String.eqb_eq; exact Happ).
  unfold CreatePayment.handler. rewrite Hpost. clear Happ.
  assert (Happ : true = true) by reflexivity.
  config_proof Happ Hmiss.
Qed.

Lemma missing_variables_exact e n :
  In n (missing_variables e) <->
  exists v, In (n, v) (zoho_variables e) /\ Js.truthy v = false.
Proof.
  unfold missing_variables. rewrite in_map_iff. split.
  - intros [[k v] [Hk Hin]]. cbn in Hk. subst k.
    apply filter_In in Hin. destruct Hin as [Hin Hv]. cbn in Hv.
    exists v. split; [exact Hin|]. now apply negb_true_iff.
  - intros [v [Hin Hv]]. exists (n, v). split; [reflexivity|].
    apply filter_In. split; [exact Hin|]. cbn. now apply negb_true_iff.
Qed.

Lemma proceeds_only_when_complete {A}
    (handler : NetlifyEvent A -> Context -> M Response) applies :
  ValidatesConfig handler applies ->
  forall w ev ctx,
    applies ev = true ->
    outbound (snd (handler ev ctx w 0)) <> [] ->
    missing_variables (env w) = [].
Proof.
  intros Hv w ev ctx Happ Hout.
  destruct (missing_variables (env w)) as [|x l] eqn:Hm; [reflexivity|].
  destruct (Hv w ev ctx Happ) as (resp & t & Hrun & _ & _ & Hnone).
  - rewrite Hm. discriminate.
  - rewrite Hrun in Hout. contradiction.
Qed.

Lemma edge_validates w cors req :
  (Supabase.req_method req =? "OPTIONS") = false ->
  Js.truthy (ZOHO_CLIENT_ID (env w)) && Js.truthy (ZOHO_CLIENT_SECRET (env w))
    && Js.truthy (ZOHO_REFRESH_TOKEN (env w)) = false ->
  exists resp t,
    Supabase.serve cors req w 0 = (Ok resp, t)
    /\ Supabase.edge_status resp = 500%Z
    /\ Supabase.edge_body resp =
       JsonBody (Js.JObj
         [("error", Js.JStr "Zoho credentials not configured. Please check ZOHO_CLIENT_ID, ZOHO_CLIENT_SECRET, and ZOHO_REFRESH_TOKEN environment variables.");
          ("details", Js.JObj [("timestamp", Js.JTime (clock w 0));
                               ("path", Js.JStr (Supabase.pathname req))])])
    /\ outbound t = [].
Proof.
  intros Hm Hmiss.
  unfold Supabase.serve, Supabase.zohoConfig. autounfold with js.
  cbn -[Js.truthy]. rewrite Hm.
  destruct (Js.truthy (ZOHO_CLIENT_ID (env w)));
    destruct (Js.truthy (ZOHO_CLIENT_SECRET (env w)));
    destruct (Js.truthy (ZOHO_REFRESH_TOKEN (env w)));
    try discriminate Hmiss; cbn;
    (eexists; eexists; (split; [reflexivity|]); repeat split).
Qed.

Lemma payment_other_methods w ev ctx :
  (httpMethod ev =? "OPTIONS") = false ->
  (httpMethod ev =? "POST") = false ->
  fst (CreatePayment.handler ev ctx w 0) = Ok CreatePayment.method_not_allowed
  /\ outbound (snd (CreatePayment.handler ev ctx w 0)) = [].
Proof.
  intros Ho Hp. unfold CreatePayment.handler. autounfold with js. cbn.
  rewrite Ho, Hp. destruct (Js.truthy (awsRequestId ctx)); cbn; split; reflexivity.
Qed.

(** C5 (as amended).  In both revisions of zohoIntegration.js and in the
    Zoho test function, for every request other than the preflight, and in
    createPayment.js for every POST request: when any of the four
    variables is missing the handler answers 500 with the message "Missing
    Zoho configuration: " followed by exactly the missing names, in the
    order client id, client secret, refresh token, organisation id, and
    makes no outbound call, so that a call is made only when all four are
    present.  createPayment.js answers every other method with 405 before
    it looks at the variables.  The Supabase edge function checks the
    first three variables only and answers 500 with a fixed message when
    one of them is missing. *)
Theorem environment_validation :
  ValidatesConfig ZohoV1.handler not_preflight
  /\ ValidatesConfig ZohoV3.handler not_preflight
  /\ ValidatesConfig TestZoho.handler not_preflight
  /\ ValidatesConfig CreatePayment.handler is_post
  /\ (forall e n,
      In n (missing_variables e) <->
      exists v, In (n, v) (zoho_variables e) /\ Js.truthy v = false)
  /\ (forall w ev ctx,
      not_preflight ev = true ->
      (outbound (snd (ZohoV1.handler ev ctx w 0)) <> [] -> missing_variables (env w) = [])
      /\ (outbound (snd (ZohoV3.handler ev ctx w 0)) <> [] -> missing_variables (env w) = []))
  /\ (forall w ev ctx,
      not_preflight ev = true ->
      outbound (snd (TestZoho.handler ev ctx w 0)) <> [] -> missing_variables (env w) = [])
  /\ (forall w ev ctx,
      is_post ev = true ->
      outbound (snd (CreatePayment.handler ev ctx w 0)) <> [] ->
      missing_variables (env w) = [])
  /\ (forall w ev ctx,
      (httpMethod ev =? "OPTIONS") = false ->
      (httpMethod ev =? "POST") = false ->
      fst (CreatePayment.handler ev ctx w 0) = Ok CreatePayment.method_not_allowed
      /\ outbound (snd (CreatePayment.handler ev ctx w 0)) = [])
  /\ (forall w cors req,
      (Supabase.req_method req =? "OPTIONS") = false ->
      Js.truthy (ZOHO_CLIENT_ID (env w)) && Js.truthy (ZOHO_CLIENT_SECRET (env w))
        && Js.truthy (ZOHO_REFRESH_TOKEN (env w)) = false ->
      exists resp t,
        Supabase.serve cors req w 0 = (Ok resp, t)
        /\ Supabase.edge_status resp = 500%Z
        /\ Supabase.edge_body resp =
           JsonBody (Js.JObj
             [("error", Js.JStr "Zoho credentials not configured. Please check ZOHO_CLIENT_ID, ZOHO_CLIENT_SECRET, and ZOHO_REFRESH_TOKEN environment variables.");
              ("details", Js.JObj [("timestamp", Js.JTime (clock w 0));
                                   ("path", Js.JStr (Supabase.pathname req))])])
        /\ outbound t = []).
Proof.
  split; [exact v1_validates|].
  split; [exact v3_validates|].
  split; [exact test_zoho_validates|].
  split; [exact payment_validates|].
  split; [exact missing_variables_exact|].
  split.
  { intros w ev ctx Happ. split.
    - apply (proceeds_only_when_complete _ _ v1_validates); exact Happ.
    - apply (proceeds_only_when_complete _ _ v3_validates); exact Happ. }
  split; [intros w ev ctx; apply (proceeds_only_when_complete _ _ test_zoho_validates)|].
  split; [intros w ev ctx; apply (proceeds_only_when_complete _ _ payment_validates)|].
  split; [exact payment_other_methods | exact edge_validates].
Qed.

Lemma environment_validation_witness :
  exists resp t,
    ZohoV1.handler C5_input.get Sample.context
      (Sample.world C5_input.no_organization Sample.all_ok Sample.all_fetched Sample.all_sent) 0
    = (Ok resp, t)
    /\ statusCode resp = 500%Z
    /\ body_error resp = Some (Js.JStr "Missing Zoho configuration: ZOHO_ORGANIZATION_ID")
    /\ outbound t = [].
Proof.
  apply (proj1 environment_validation
           (Sample.world C5_input.no_organization Sample.all_ok Sample.all_fetched
                         Sample.all_sent)
           C5_input.get Sample.context).
  - reflexivity.
  - discriminate.
Defined.

(** C5 as stated fails on createPayment.js: a GET request with none of the
    four variables set is answered 405, not 500; and on the Supabase edge
    function: with only the organisation id missing the request goes on to
    the vendor. *)
Lemma payment_get_not_validated :
  missing_variables (env C5_input.world) =
    ["ZOHO_CLIENT_ID"; "ZOHO_CLIENT_SECRET"; "ZOHO_REFRESH_TOKEN"; "ZOHO_ORGANIZATION_ID"]
  /\ option_map statusCode
       (match fst (CreatePayment.handler C5_input.get Sample.context C5_input.world 0) with
        | Ok r => Some r
        | Throw _ => None
        end) = Some 405%Z
  /\ missing_variables C5_input.no_organization = ["ZOHO_ORGANIZATION_ID"]
  /\ http_requests
       (snd (Supabase.serve []
               {| Supabase.req_method := "GET"; Supabase.pathname := "/zoho-integration/token";
                  Supabase.req_json := Parses Netlify.empty_request |}
               (Sample.world C5_input.no_organization Sample.all_ok Sample.all_fetched
                             Sample.all_sent) 0))
     = [Supabase.token_request (Supabase.zohoConfig C5_input.no_organization)].
Proof.
  repeat split; reflexivity.
Qed.

(** *** Invoice documents *)

Lemma line_items_of with_quantity items :
  Forall2 LineItemOf items (map (line_item with_quantity) items).
Proof.
  induction items as [|item rest IH]; cbn; constructor; [|exact IH].
  unfold LineItemOf, line_item; cbn. repeat split.
  destruct with_quantity.
  - exists (" (Quantity: " ++ Js.of_Z (quantity item) ++ ")"). reflexivity.
  - exists "". reflexivity.
Qed.

Lemma line_items_one_each with_quantity (items : list ServiceItem) :
  length (map (line_item with_quantity) items) = length items.
Proof. apply length_map. Qed.

Lemma utc_day_plus_30 t :
  utc_day (t + 30 * 24 * 60 * 60 * 1000)%Z = (utc_day t + 30)%Z.
Proof.
  unfold utc_day, ms_per_day.
  replace (t + 30 * 24 * 60 * 60 * 1000)%Z with (t + 30 * (24 * 60 * 60 * 1000))%Z by lia.
  apply Z.div_add. discriminate.
Qed.

Lemma v1_due_date cid data items tn td tdue :
  DueIn30Days (ZohoV1.invoicePayload cid data items tn td tdue) td tdue.
Proof.
  unfold DueIn30Days; cbn -[utc_day Z.mul Z.add]. rewrite utc_day_plus_30.
  repeat split. intros H. rewrite H. reflexivity.
Qed.

Lemma payment_due_date cid data items tn td tdue :
  DueIn30Days (CreatePayment.invoicePayload cid data items tn td tdue) td tdue.
Proof.
  unfold DueIn30Days; cbn -[utc_day Z.mul Z.add]. rewrite utc_day_plus_30.
  repeat split. intros H. rewrite H. reflexivity.
Qed.

(** The two dates come from two clock readings: a reading just before
    midnight followed by one at midnight puts the due date 31 days after
    the invoice date. *)
Remark due_date_across_midnight :
  let p := ZohoV1.invoicePayload None C6_input.data [] 0 86399999 86400000 in
  ip_date p = 0%Z /\ ip_due_date p = 31%Z.
Proof. split; reflexivity. Qed.

Lemma v1_invoice_created w n token cid data items resp d inv :
  serviceItems data = Some items ->
  let p := ZohoV1.invoicePayload cid data (map (line_item true) items)
             (clock w n) (clock w (1 + n)) (clock w (2 + n)) in
  let rq := ZohoV1.invoice_request (ZohoV1.ZOHO_CONFIG (env w)) token p in
  axios w (3 + n) rq = AxiosResolved resp ->
  ax_data resp = Some d -> invoice d = Some inv ->
  ZohoV1.createZohoInvoice token cid data w n =
  (Ok (summary_of "invoice.zoho.in" inv ++ [("customer_id", Js.jstr cid)])%list,
   [EvClock (clock w n); EvClock (clock w (1 + n)); EvClock (clock w (2 + n));
    EvAxios rq (AxiosResolved resp)]).
Proof.
  intros Hi p rq H Hd Hinv. subst rq p.
  unfold ZohoV1.createZohoInvoice, bind, catch, ask, axios_request, defined, ret, now.
  cbn -[ZohoV1.invoicePayload] in *. rewrite Hi. cbn -[ZohoV1.invoicePayload].
  rewrite H. cbn. rewrite Hd. cbn. rewrite Hinv. reflexivity.
Qed.

Lemma payment_invoice_created w n token cid data items resp d inv :
  serviceItems data = Some items ->
  let p := CreatePayment.invoicePayload cid data (map (line_item false) items)
             (clock w n) (clock w (1 + n)) (clock w (2 + n)) in
  let rq := ZohoV1.invoice_request (CreatePayment.ZOHO_CONFIG (env w)) token p in
  axios w (3 + n) rq = AxiosResolved resp ->
  ax_data resp = Some d -> invoice d = Some inv ->
  CreatePayment.createZohoInvoice token cid data w n =
  (Ok (summary_of "invoice.zoho.com" inv),
   [EvClock (clock w n); EvClock (clock w (1 + n)); EvClock (clock w (2 + n));
    EvAxios rq (AxiosResolved resp)]).
Proof.
  intros Hi p rq H Hd Hinv. subst rq p.
  unfold CreatePayment.createZohoInvoice, bind, catch, ask, axios_request, defined, ret, now.
  cbn -[CreatePayment.invoicePayload] in *. rewrite Hi. cbn -[CreatePayment.invoicePayload].
  rewrite H. cbn. rewrite Hd. cbn. rewrite Hinv. reflexivity.
Qed.

Lemma edge_invoice_created w n config data items rt token resp d inv :
  fetch w n (Supabase.token_request config) = FetchResolved rt ->
  f_ok rt = true -> f_json rt = Some token ->
  rd_serviceItems data = Some items ->
  let p := CreatePayment.invoicePayload (customerId data) (as_invoice data)
             (map (line_item true) items)
             (clock w (1 + n)) (clock w (2 + n)) (clock w (3 + n)) in
  let rq := Supabase.invoice_request token config p in
  fetch w (4 + n) rq = FetchResolved resp ->
  f_ok resp = true -> f_json resp = Some d -> invoice d = Some inv ->
  Supabase.createZohoInvoice data config w n =
  (Ok (summary_of "invoice.zoho.com" inv),
   [EvFetch (Supabase.token_request config) (FetchResolved rt);
    EvClock (clock w (1 + n)); EvClock (clock w (2 + n)); EvClock (clock w (3 + n));
    EvFetch rq (FetchResolved resp)]).
Proof.
  intros Ht Hok Hj Hi p rq H Hrok Hd Hinv. subst rq p.
  unfold Supabase.createZohoInvoice, bind.
  rewrite (edge_token_ok _ _ _ _ _ Ht Hok Hj).
  unfold fetch_request, Supabase.response_json, defined, ret, now.
  cbn -[CreatePayment.invoicePayload] in *. rewrite Hi. cbn -[CreatePayment.invoicePayload].
  rewrite H. cbn. rewrite Hrok. cbn. rewrite Hd. cbn. rewrite Hinv.
  reflexivity.
Qed.

(** C6 (as amended).  [createZohoInvoice] posts an invoice document with
    one line item per service item, carrying the service name, a
    description naming the package tier, the unit price as rate, the
    quantity and the total price as item total; the due date is the UTC day
    of the clock reading plus 30 days, which is exactly 30 days after the
    invoice date whenever the two clock readings fall on the same UTC day.
    When the vendor answers with an invoice the function returns a summary
    made of the vendor's id, number, total and status and the payment URL
    derived from the id: exactly these five properties in createPayment.js
    and in the Supabase edge function, and these five followed by
    [customer_id], the id the caller passed, in zohoIntegration.js. *)
Theorem invoice_reshaping :
  (forall w n token cid data items resp d inv,
      serviceItems data = Some items ->
      let p := ZohoV1.invoicePayload cid data (map (line_item true) items)
                 (clock w n) (clock w (1 + n)) (clock w (2 + n)) in
      let rq := ZohoV1.invoice_request (ZohoV1.ZOHO_CONFIG (env w)) token p in
      axios w (3 + n) rq = AxiosResolved resp ->
      ax_data resp = Some d -> invoice d = Some inv ->
      ZohoV1.createZohoInvoice token cid data w n =
      (Ok (summary_of "invoice.zoho.in" inv ++ [("customer_id", Js.jstr cid)])%list,
       [EvClock (clock w n); EvClock (clock w (1 + n)); EvClock (clock w (2 + n));
        EvAxios rq (AxiosResolved resp)]))
  /\ (forall w n token cid data items resp d inv,
      serviceItems data = Some items ->
      let p := CreatePayment.invoicePayload cid data (map (line_item false) items)
                 (clock w n) (clock w (1 + n)) (clock w (2 + n)) in
      let rq := ZohoV1.invoice_request (CreatePayment.ZOHO_CONFIG (env w)) token p in
      axios w (3 + n) rq = AxiosResolved resp ->
      ax_data resp = Some d -> invoice d = Some inv ->
      CreatePayment.createZohoInvoice token cid data w n =
      (Ok (summary_of "invoice.zoho.com" inv),
       [EvClock (clock w n); EvClock (clock w (1 + n)); EvClock (clock w (2 + n));
        EvAxios rq (AxiosResolved resp)]))
  /\ (forall w n config data items rt token resp d inv,
      fetch w n (Supabase.token_request config) = FetchResolved rt ->
      f_ok rt = true -> f_json rt = Some token ->
      rd_serviceItems data = Some items ->
      let p := CreatePayment.invoicePayload (customerId data) (as_invoice data)
                 (map (line_item true) items)
                 (clock w (1 + n)) (clock w (2 + n)) (clock w (3 + n)) in
      let rq := Supabase.invoice_request token config p in
      fetch w (4 + n) rq = FetchResolved resp ->
      f_ok resp = true -> f_json resp = Some d -> invoice d = Some inv ->
      Supabase.createZohoInvoice data config w n =
      (Ok (summary_of "invoice.zoho.com" inv),
       [EvFetch (Supabase.token_request config) (FetchResolved rt);
        EvClock (clock w (1 + n)); EvClock (clock w (2 + n)); EvClock (clock w (3 + n));
        EvFetch rq (FetchResolved resp)]))
  /\ (forall with_quantity items,
      Forall2 LineItemOf items (map (line_item with_quantity) items)
      /\ length (map (line_item with_quantity) items) = length items)
  /\ (forall cid data lineItems tn td tdue,
      ip_line_items (ZohoV1.invoicePayload cid data lineItems tn td tdue) = lineItems
      /\ DueIn30Days (ZohoV1.invoicePayload cid data lineItems tn td tdue) td tdue
      /\ ip_line_items (CreatePayment.invoicePayload cid data lineItems tn td tdue) = lineItems
      /\ DueIn30Days (CreatePayment.invoicePayload cid data lineItems tn td tdue) td tdue).
Proof.
  split; [exact v1_invoice_created|].
  split; [exact payment_invoice_created|].
  split; [exact edge_invoice_created|].
  split.
  - intros b items. split; [apply line_items_of | apply line_items_one_each].
  - intros cid data li tn td tdue.
    split; [reflexivity|]. split; [apply v1_due_date|].
    split; [reflexivity|]. apply payment_due_date.
Qed.

Lemma invoice_reshaping_witness :
  let w := C6_input.world in
  let p := CreatePayment.invoicePayload (Some "c-1") C6_input.data
             (map (line_item false) [C6_input.item]) 0 0 0 in
  let rq := ZohoV1.invoice_request (CreatePayment.ZOHO_CONFIG (env w)) (Some "tok") p in
  CreatePayment.createZohoInvoice (Some "tok") (Some "c-1") C6_input.data w 0 =
  (Ok (summary_of "invoice.zoho.com" C6_input.vendor_invoice),
   [EvClock 0; EvClock 0; EvClock 0;
    EvAxios rq (AxiosResolved (Sample.ok_response C6_input.invoice_data))]).
Proof.
  intros w p rq.
  apply (proj1 (proj2 invoice_reshaping) w 0%nat (Some "tok") (Some "c-1") C6_input.data
               [C6_input.item] (Sample.ok_response C6_input.invoice_data)
               C6_input.invoice_data C6_input.vendor_invoice).
  - reflexivity.
  - reflexivity.
  - reflexivity.
  - reflexivity.
Defined.

(** C6 as stated fails on zohoIntegration.js: the summary it returns has a
    sixth property, [customer_id], which is not taken from the vendor's
    response. *)
Lemma zoho_summary_has_customer_id :
  match fst (ZohoV1.createZohoInvoice (Some "tok") (Some "c-1") C6_input.data
               C6_input.world 0) with
  | Ok summary =>
      map fst summary =
        ["invoice_id"; "invoice_number"; "payment_url"; "total"; "status"; "customer_id"]
      /\ map fst summary <>
        ["invoice_id"; "invoice_number"; "payment_url"; "total"; "status"]
      /\ Js.get "customer_id" (Js.obj summary) = Some (Js.JStr "c-1")
  | Throw _ => False
  end.
Proof.
  cbn. repeat split. discriminate.
Qed.

(** *** Timeouts *)

Ltac audit_timeouts :=
  unfold timeouts_from, no_timeouts; run; cbn;
  repeat match goal with
         | |- Forall _ [] => constructor
         | |- Forall _ (_ :: _) => constructor
         | |- timeout _ = _ => reflexivity
         end.

Lemma v1_timeouts w ev ctx :
  timeouts_from (timeout_table 10000) (snd (ZohoV1.handler ev ctx w 0)).
Proof. audit_timeouts. Qed.

Lemma v3_timeouts w ev ctx :
  timeouts_from (timeout_table 15000) (snd (ZohoV3.handler ev ctx w 0)).
Proof. audit_timeouts. Qed.

Lemma payment_timeouts w ev ctx :
  timeouts_from (timeout_table 10000) (snd (CreatePayment.handler ev ctx w 0)).
Proof. audit_timeouts. Qed.

Lemma test_zoho_timeouts w ev ctx :
  timeouts_from (timeout_table 10000) (snd (TestZoho.handler ev ctx w 0)).
Proof. audit_timeouts. Qed.

Lemma edge_no_timeouts w cors req :
  no_timeouts (snd (Supabase.serve cors req w 0)).
Proof. audit_timeouts. Qed.

(** C7 (as amended).  Every HTTP call the Netlify Zoho functions make
    carries a timeout that is a constant of the kind of call, whatever the
    request and whatever happened before: 10 seconds for the token refresh
    (15 in the later revision of zohoIntegration.js), 15 seconds for
    contact calls and invoice look-ups, 20 seconds for invoice creation.
    The calls of the Supabase edge function carry no timeout at all. *)
Theorem fixed_timeouts :
  (forall w ev ctx,
      timeouts_from (timeout_table 10000) (snd (ZohoV1.handler ev ctx w 0))
      /\ timeouts_from (timeout_table 15000) (snd (ZohoV3.handler ev ctx w 0))
      /\ timeouts_from (timeout_table 10000) (snd (CreatePayment.handler ev ctx w 0)))
  /\ (forall w ev ctx,
      timeouts_from (timeout_table 10000) (snd (TestZoho.handler ev ctx w 0)))
  /\ (forall w cors req, no_timeouts (snd (Supabase.serve cors req w 0)))
  /\ (forall token,
      map (timeout_table token) [TokenRefresh; ContactCall; InvoiceCreation; InvoiceStatus]
      = [token; 15000; 20000; 15000]%Z).
Proof.
  split; [|split; [|split]].
  - intros w ev ctx. split; [|split].
    + apply v1_timeouts.
    + apply v3_timeouts.
    + apply payment_timeouts.
  - apply test_zoho_timeouts.
  - apply edge_no_timeouts.
  - reflexivity.
Qed.

(** C7 as stated fails on the Supabase edge function: its token refresh is
    made without a timeout. *)
Lemma edge_token_refresh_has_no_timeout :
  http_requests (snd (Supabase.serve [] C7_input.request C7_input.world 0))
  = [Supabase.token_request (Supabase.zohoConfig Sample.full_env)]
  /\ timeout (Supabase.token_request (Supabase.zohoConfig Sample.full_env)) = None.
Proof. split; reflexivity. Qed.

Example payment_timeouts_run :
  let ev := {| httpMethod := "POST"; pathSegments := Some [];
               body := Some (Parses {| customerData := Some Sample.alice_data;
                                       rd_serviceItems := Some [C6_input.item];
                                       rd_currency := Some "USD"; rd_notes := None;
                                       customerId := None; rd_name := None; rd_email := None;
                                       rd_phone := None; rd_company := None |}) |} in
  let w := Sample.world Sample.full_env
             (fun n => match n with
                       | 0 => AxiosResolved (Sample.ok_response Sample.token_data)
                       | 1 => AxiosResolved (Sample.ok_response Sample.created_data)
                       | _ => AxiosResolved (Sample.ok_response C6_input.invoice_data)
                       end)%nat
             Sample.all_fetched Sample.all_sent in
  map timeout (http_requests (snd (CreatePayment.handler ev Sample.context w 0)))
  = [Some 10000; Some 15000; Some 20000]%Z.
Proof. reflexivity. Qed.
(** *** Purchase page *)

Lemma addon_price_listed st id :
  ServicePurchase.getAddOnPrice st id
  = listed_price (ServicePurchase.convertedAddOns st) id.
Proof.
  unfold ServicePurchase.getAddOnPrice.
  induction (ServicePurchase.convertedAddOns st) as [|a rest IH]; cbn; [reflexivity|].
  destruct (String.eqb (ServicePurchase.addon_id a) id); [reflexivity | exact IH].
Qed.

Lemma total_addon_price st :
  ServicePurchase.getTotalAddOnPrice st
  = addons_sum st (ServicePurchase.selectedAddOns st).
Proof.
  unfold ServicePurchase.getTotalAddOnPrice, addons_sum.
  generalize 0%float.
  induction (ServicePurchase.selectedAddOns st) as [|id rest IH]; intros acc;
    cbn [fold_left]; [reflexivity|].
  now rewrite addon_price_listed, IH.
Qed.

Lemma absent_addon_free addOns id :
  (forall a, In a addOns -> ServicePurchase.addon_id a <> id) ->
  listed_price addOns id = 0%float.
Proof.
  induction addOns as [|a rest IH]; intros H; cbn; [reflexivity|].
  destruct (String.eqb (ServicePurchase.addon_id a) id) eqn:Heq.
  - apply String.eqb_eq in Heq. destruct (H a (or_introl eq_refl) Heq).
  - apply IH. intros b Hb. apply H. now right.
Qed.

Lemma priced_unit st s p :
  ServicePurchase.service st = Some s ->
  ServicePurchase.price_of (shown_table st s) (ServicePurchase.selectedPackage st) = Some p ->
  ordinary p = true ->
  ServicePurchase.getCurrentPrice st = p.
Proof.
  unfold ServicePurchase.getCurrentPrice, shown_table, ordinary.
  intros Hs Hp Ho. rewrite Hs, Hp. unfold ServicePurchase.or_zero.
  apply negb_true_iff in Ho. now rewrite Ho.
Qed.

Lemma unpriced_unit st :
  unpriced st -> ServicePurchase.getCurrentPrice st = 0%float.
Proof.
  unfold unpriced, ServicePurchase.getCurrentPrice, shown_table, ordinary.
  destruct (ServicePurchase.service st) as [s|]; [|reflexivity].
  destruct (ServicePurchase.price_of _ _) as [p|]; [|reflexivity].
  unfold ServicePurchase.or_zero. intros Ho. apply negb_false_iff in Ho.
  now rewrite Ho.
Qed.

(** C8.  In the double arithmetic of the page, the order total is the unit
    price of the selected package times the quantity plus the sum of the
    listed prices of the selected add-ons times the quantity: the unit
    price is the entry of the selected package in the price table of the
    customer's currency (0 when there is no such price), the add-on prices
    are added in the order of selection, starting from 0, so that add-on
    charges scale with the quantity; an add-on id that is not in the
    add-on list is listed at 0. *)
Theorem purchase_total :
  (forall st s p,
      ServicePurchase.service st = Some s ->
      ServicePurchase.price_of (shown_table st s) (ServicePurchase.selectedPackage st)
      = Some p ->
      ordinary p = true ->
      ServicePurchase.getTotalPrice st
      = (p * ServicePurchase.quantity st
         + addons_sum st (ServicePurchase.selectedAddOns st) * ServicePurchase.quantity st)%float)
  /\ (forall st,
         unpriced st ->
         ServicePurchase.getTotalPrice st
         = (0 * ServicePurchase.quantity st
            + addons_sum st (ServicePurchase.selectedAddOns st)
              * ServicePurchase.quantity st)%float)
  /\ (forall addOns id,
         (forall a, In a addOns -> ServicePurchase.addon_id a <> id) ->
         listed_price addOns id = 0%float).
Proof.
  split; [|split].
  - intros st s p Hs Hp Ho. unfold ServicePurchase.getTotalPrice.
    now rewrite total_addon_price, (priced_unit st s p Hs Hp Ho).
  - intros st Hu. unfold ServicePurchase.getTotalPrice.
    now rewrite total_addon_price, (unpriced_unit st Hu).
  - exact absent_addon_free.
Qed.

Lemma purchase_total_witness :
  ServicePurchase.getTotalPrice Purchase_input.state
  = (50 * 3 + (0 + 5 + 8 + 0) * 3)%float
  /\ listed_price Purchase_input.addOns "unknown" = 0%float.
Proof.
  split.
  - apply (proj1 purchase_total Purchase_input.state
             {| ServicePurchase.service_id := "email-migration";
                ServicePurchase.service_name := "Email Migration";
                ServicePurchase.pricing := Purchase_input.prices |} 50%float);
      reflexivity.
  - apply (proj2 (proj2 purchase_total) Purchase_input.addOns "unknown").
    intros a Hin. cbn in Hin.
    repeat match goal with
           | H : _ \/ _ |- _ => destruct H
           | H : False |- _ => destruct H
           end; subst a; cbn; discriminate.
Defined.

Example purchase_total_run :
  ServicePurchase.getTotalPrice Purchase_input.state = 189%float.
Proof. reflexivity. Qed.

(** The total is not the unit price plus the add-on sum, multiplied by the
    quantity: 30.4 * 5 + 15.2 * 5 is 228, and (30.4 + 15.2) * 5 is
    227.99999999999997. *)
Lemma purchase_total_not_factored :
  ServicePurchase.getTotalPrice Purchase_input.rounding = 228%float
  /\ factored_total 30.4 (addons_sum Purchase_input.rounding ["backup-service"]) 5
     = 227.99999999999997%float
  /\ ServicePurchase.getTotalPrice Purchase_input.rounding
     <> factored_total 30.4 (addons_sum Purchase_input.rounding ["backup-service"]) 5.
Proof.
  split; [reflexivity|]. split; [reflexivity|].
  vm_compute. discriminate.
Qed.

Ltac purchase_step :=
  match goal with
  | |- context [match ?x with _ => _ end] =>
      lazymatch x with
      | context [match _ with _ => _ end] => fail
      | _ => destruct x eqn:?
      end
  | H : context [match ?x with _ => _ end] |- _ =>
      lazymatch x with
      | context [match _ with _ => _ end] => fail
      | _ => destruct x eqn:?
      end
  end.

Lemma order_rows st w row :
  In row (ServicePurchase.inserted (snd (ServicePurchase.handlePurchase st w 0))) ->
  ServicePurchase.inserted (snd (ServicePurchase.handlePurchase st w 0)) = [row]
  /\ Js.assoc "status" row = Some (Js.JStr "pending")
  /\ Js.assoc "currency" row = Some (Js.JStr (ServicePurchase.userCurrency st))
  /\ exists usd inr aud,
       Js.assoc "amount_usd" row = Some (Js.JNum usd)
       /\ Js.assoc "amount_inr" row = Some (Js.JNum inr)
       /\ Js.assoc "amount_aud" row = Some (Js.JNum aud)
       /\ (ServicePurchase.userCurrency st = "USD" -> usd = ServicePurchase.getTotalPrice st)
       /\ (ServicePurchase.userCurrency st = "INR" -> inr = ServicePurchase.getTotalPrice st)
       /\ (ServicePurchase.userCurrency st = "AUD" -> aud = ServicePurchase.getTotalPrice st).
Proof.
  unfold ServicePurchase.handlePurchase, ServicePurchase.try_catch_finally,
    ServicePurchase.pbind, ServicePurchase.setIsLoading, ServicePurchase.convertCurrency,
    ServicePurchase.insert_order, ServicePurchase.navigate, ServicePurchase.alert,
    ServicePurchase.pret, ServicePurchase.pthrow.
  cbn -[ServicePurchase.getTotalPrice ServicePurchase.getCurrentPrice].
  repeat (purchase_step;
          cbn -[ServicePurchase.getTotalPrice ServicePurchase.getCurrentPrice] in * );
    intros Hin;
    repeat match goal with
           | H : _ \/ _ |- _ => destruct H
           | H : False |- _ => destruct H
           end;
    subst; cbn;
    (split; [reflexivity|]); (split; [reflexivity|]); (split; [reflexivity|]);
    eexists; eexists; eexists;
    (split; [reflexivity|]); (split; [reflexivity|]); (split; [reflexivity|]);
    repeat split; intros Hc; rewrite Hc in *; cbn in *; congruence.
Qed.

(** C10.  Every order row [handlePurchase] hands to the database has
    status 'pending' and carries the three amounts [amount_usd],
    [amount_inr] and [amount_aud], the amount in the user's currency being
    the displayed total; an execution inserts at most this one row, so no
    order is created in another status. *)
Theorem new_order_invariant :
  forall st w row,
    In row (ServicePurchase.inserted (snd (ServicePurchase.handlePurchase st w 0))) ->
    ServicePurchase.inserted (snd (ServicePurchase.handlePurchase st w 0)) = [row]
    /\ Js.assoc "status" row = Some (Js.JStr "pending")
    /\ Js.assoc "currency" row = Some (Js.JStr (ServicePurchase.userCurrency st))
    /\ exists usd inr aud,
         Js.assoc "amount_usd" row = Some (Js.JNum usd)
         /\ Js.assoc "amount_inr" row = Some (Js.JNum inr)
         /\ Js.assoc "amount_aud" row = Some (Js.JNum aud)
         /\ (ServicePurchase.userCurrency st = "USD" -> usd = ServicePurchase.getTotalPrice st)
         /\ (ServicePurchase.userCurrency st = "INR" -> inr = ServicePurchase.getTotalPrice st)
         /\ (ServicePurchase.userCurrency st = "AUD" -> aud = ServicePurchase.getTotalPrice st).
Proof.
  exact order_rows.
Qed.

Lemma new_order_invariant_witness :
  let total := ServicePurchase.getTotalPrice Purchase_input.state in
  let row := [("client_id", Js.JStr "u-1");
              ("service_id", Js.JStr "email-migration");
              ("package_type", Js.JStr "standard");
              ("amount_usd", Js.JNum total);
              ("amount_inr", Js.JNum total);
              ("amount_aud", Js.JNum total);
              ("currency", Js.JStr "USD");
              ("status", Js.JStr "pending")] in
  ServicePurchase.inserted
    (snd (ServicePurchase.handlePurchase Purchase_input.state Purchase_input.browser 0))
  = [row]
  /\ Js.assoc "status" row = Some (Js.JStr "pending")
  /\ Js.assoc "currency" row
     = Some (Js.JStr (ServicePurchase.userCurrency Purchase_input.state))
  /\ exists usd inr aud,
       Js.assoc "amount_usd" row = Some (Js.JNum usd)
       /\ Js.assoc "amount_inr" row = Some (Js.JNum inr)
       /\ Js.assoc "amount_aud" row = Some (Js.JNum aud)
       /\ (ServicePurchase.userCurrency Purchase_input.state = "USD" -> usd = total)
       /\ (ServicePurchase.userCurrency Purchase_input.state = "INR" -> inr = total)
       /\ (ServicePurchase.userCurrency Purchase_input.state = "AUD" -> aud = total).
Proof.
  intros total row.
  apply (new_order_invariant Purchase_input.state Purchase_input.browser row).
  left. reflexivity.
Defined.

(** With nothing bound to [setIsLoading], as in the file, the first
    statement of the [try] block throws and no row is inserted. *)
Remark purchase_without_setIsLoading st w :
  ServicePurchase.setIsLoading_bound w = false ->
  ServicePurchase.inserted (snd (ServicePurchase.handlePurchase st w 0)) = [].
Proof.
  intros Hb.
  unfold ServicePurchase.handlePurchase, ServicePurchase.try_catch_finally,
    ServicePurchase.pbind, ServicePurchase.setIsLoading, ServicePurchase.alert,
    ServicePurchase.pret.
  destruct (ServicePurchase.user st); [|reflexivity].
  destruct (ServicePurchase.service st); [|reflexivity].
  rewrite Hb. reflexivity.
Qed.

(** *** Preflight *)

Ltac preflight_proof :=
  let Hm := fresh in
  intros ? ? ? Hm; autounfold with js; rewrite Hm; cbn;
  repeat (case_step; cbn); split; reflexivity.

Lemma v1_preflight : Preflight ZohoV1.handler ZohoV1.preflight.
Proof. preflight_proof. Qed.

Lemma v3_preflight : Preflight ZohoV3.handler ZohoV1.preflight.
Proof. preflight_proof. Qed.

Lemma payment_preflight : Preflight CreatePayment.handler CreatePayment.preflight.
Proof. preflight_proof. Qed.

Lemma test_zoho_preflight : Preflight TestZoho.handler TestZoho.preflight.
Proof. preflight_proof. Qed.

Lemma mail_v1_preflight : Preflight SendEmailV1.handler SendEmailV1.preflight.
Proof. preflight_proof. Qed.

Lemma mail_retry_preflight : Preflight SendEmail.handler SendEmail.preflight.
Proof. preflight_proof. Qed.

Lemma test_email_preflight : Preflight TestEmail.handler TestZoho.preflight.
Proof. preflight_proof. Qed.

Lemma edge_preflight w cors req :
  Supabase.req_method req = "OPTIONS" ->
  Supabase.serve cors req w 0 =
  (Ok {| Supabase.edge_status := 200; Supabase.edge_headers := cors;
         Supabase.edge_body := EmptyBody |}, []).
Proof.
  intros Hm. unfold Supabase.serve. autounfold with js. rewrite Hm. reflexivity.
Qed.

Lemma preflights_cors_ok :
  cors_ok ZohoV1.preflight /\ cors_ok CreatePayment.preflight
  /\ cors_ok TestZoho.preflight /\ cors_ok SendEmailV1.preflight
  /\ cors_ok SendEmail.preflight.
Proof.
  unfold cors_ok; cbn. intuition.
Qed.

Lemma test_mailer_ignores_method w ev ev' ctx ctx' :
  TestMailer.handler ev ctx w 0 = TestMailer.handler ev' ctx' w 0.
Proof. reflexivity. Qed.

(** C9 (as amended).  Every serverless handler but one answers every
    OPTIONS request with status 200, an empty body and CORS headers (the
    headers imported from the shared module in the Supabase edge function);
    the answer is the same whatever the environment and the body, and no
    outbound call is made.  The exception is the nodemailer test function,
    which has no preflight branch and treats an OPTIONS request as any
    other. *)
Theorem cors_preflight :
  Preflight ZohoV1.handler ZohoV1.preflight
  /\ Preflight ZohoV3.handler ZohoV1.preflight
  /\ Preflight CreatePayment.handler CreatePayment.preflight
  /\ Preflight TestZoho.handler TestZoho.preflight
  /\ Preflight SendEmailV1.handler SendEmailV1.preflight
  /\ Preflight SendEmail.handler SendEmail.preflight
  /\ Preflight TestEmail.handler TestZoho.preflight
  /\ (forall w cors req,
      Supabase.req_method req = "OPTIONS" ->
      Supabase.serve cors req w 0 =
      (Ok {| Supabase.edge_status := 200; Supabase.edge_headers := cors;
             Supabase.edge_body := EmptyBody |}, []))
  /\ (cors_ok ZohoV1.preflight /\ cors_ok CreatePayment.preflight
      /\ cors_ok TestZoho.preflight /\ cors_ok SendEmailV1.preflight
      /\ cors_ok SendEmail.preflight)
  /\ (forall w ev ev' ctx ctx',
      TestMailer.handler ev ctx w 0 = TestMailer.handler ev' ctx' w 0).
Proof.
  split; [exact v1_preflight|].
  split; [exact v3_preflight|].
  split; [exact payment_preflight|].
  split; [exact test_zoho_preflight|].
  split; [exact mail_v1_preflight|].
  split; [exact mail_retry_preflight|].
  split; [exact test_email_preflight|].
  split; [exact edge_preflight|].
  split; [exact preflights_cors_ok | exact test_mailer_ignores_method].
Qed.

Lemma cors_preflight_witness :
  fst (TestZoho.handler C9_input.options Sample.context C9_input.bare 0)
  = Ok TestZoho.preflight
  /\ outbound (snd (TestZoho.handler C9_input.options Sample.context C9_input.bare 0)) = [].
Proof.
  apply (proj1 (proj2 (proj2 (proj2 cors_preflight)))).
  reflexivity.
Defined.

(** C9 as stated fails on the nodemailer test function: an OPTIONS request
    is answered 500 with a JSON body and no header when the credentials are
    missing, and leads to an SMTP call when they are set. *)
Lemma test_mailer_has_no_preflight :
  fst (TestMailer.handler C9_input.options Sample.context C9_input.bare 0)
  = Ok {| statusCode := 500;
          resp_headers := [];
          resp_body := JsonBody (Js.JObj [("error", Js.JStr "Email credentials not configured.")]) |}
  /\ outbound (snd (TestMailer.handler C9_input.options Sample.context C9_input.configured 0))
     = [EvVerify None].
Proof. split; reflexivity. Qed.

(** *** Every request is answered *)

Ltac answer_leaf :=
  eexists; (split; [reflexivity|]); unfold status_agrees; cbn;
  (split; [tauto|]);
  (split; [let H := fresh in intros H; first [reflexivity | discriminate H]|]);
  let H := fresh in
  intros H; first [left; reflexivity | right; reflexivity | discriminate H].

Lemma v1_answers : Answers ZohoV1.handler [200; 404; 500]%Z.
Proof. intros w ev ctx. run; answer_leaf. Qed.

Lemma payment_answers : Answers CreatePayment.handler [200; 405; 500]%Z.
Proof. intros w ev ctx. run; answer_leaf. Qed.

Lemma test_zoho_answers : Answers TestZoho.handler [200; 500]%Z.
Proof. intros w ev ctx. run; answer_leaf. Qed.

Lemma mail_v1_answers : Answers SendEmailV1.handler [200; 405; 500]%Z.
Proof. intros w ev ctx. run; answer_leaf. Qed.

Lemma mail_retry_answers : Answers SendEmail.handler [200; 405; 500]%Z.
Proof. intros w ev ctx. run; answer_leaf. Qed.

Lemma test_email_answers : Answers TestEmail.handler [200; 500]%Z.
Proof. intros w ev ctx. run; answer_leaf. Qed.

Lemma test_mailer_answers : Answers TestMailer.handler [200; 500]%Z.
Proof. intros w ev ctx. run; answer_leaf. Qed.

Lemma v3_answers : Answers ZohoV3.handler [200; 405; 500]%Z.
Proof. intros w ev ctx. run; answer_leaf. Qed.

Lemma edge_answers w cors req :
  exists resp,
    fst (Supabase.serve cors req w 0) = Ok resp /\ edge_status_agrees resp.
Proof.
  run; (eexists; (split; [reflexivity|]); unfold edge_status_agrees, edge_error; cbn;
        first [ left; reflexivity
              | right; split; [cbn; tauto | eexists; reflexivity] ]).
Qed.

(** X1.  The Netlify handlers never reject: both revisions of the Zoho
    function, the payment function, the Zoho test function, both e-mail
    functions and the two e-mail test functions answer every request, with
    a status from a fixed few; [success: true] is sent only with status
    200, and a 200 response is the empty preflight answer or carries
    [success: true].  The edge function never rejects either: it answers
    200, or 404 or 500 with an [error] text (its answers carry no
    [success] field). *)
Theorem handlers_always_answer :
  Answers ZohoV1.handler [200; 404; 500]%Z
  /\ Answers ZohoV3.handler [200; 405; 500]%Z
  /\ Answers CreatePayment.handler [200; 405; 500]%Z
  /\ Answers TestZoho.handler [200; 500]%Z
  /\ Answers SendEmailV1.handler [200; 405; 500]%Z
  /\ Answers SendEmail.handler [200; 405; 500]%Z
  /\ Answers TestEmail.handler [200; 500]%Z
  /\ Answers TestMailer.handler [200; 500]%Z
  /\ (forall w cors req,
      exists resp,
        fst (Supabase.serve cors req w 0) = Ok resp /\ edge_status_agrees resp).
Proof.
  split; [exact v1_answers|].
  split; [exact v3_answers|].
  split; [exact payment_answers|].
  split; [exact test_zoho_answers|].
  split; [exact mail_v1_answers|].
  split; [exact mail_retry_answers|].
  split; [exact test_email_answers|].
  split; [exact test_mailer_answers | exact edge_answers].
Qed.

(** *** The order of the vendor calls *)

Ltac pick_member :=
  cbn; repeat first [left; reflexivity | right]; fail.

Ltac use_equations :=
  repeat match goal with
         | H : ?x = _ |- context [?x] => rewrite H
         end.

Ltac forward_leaf :=
  unfold forwards_token; cbn; use_equations; cbn;
  repeat match goal with
         | |- Forall _ [] => constructor
         | |- Forall _ (_ :: _) => constructor
         | |- _ \/ _ => first [left; reflexivity | right; split; reflexivity]
         end.

Ltac calls_leaf := split; [pick_member | forward_leaf].

Lemma v1_calls w ev ctx :
  holds (fun t =>
           In (call_kinds t)
              [[]; [TokenRefresh]; [TokenRefresh; ContactCall];
               [TokenRefresh; ContactCall; ContactCall];
               [TokenRefresh; InvoiceCreation]; [TokenRefresh; InvoiceStatus]]
           /\ forwards_token (env w) t)
        (snd (ZohoV1.handler ev ctx w 0)).
Proof. run; unfold holds; calls_leaf. Qed.

Lemma v3_calls w ev ctx :
  holds (fun t =>
           (In (call_kinds t)
               [[]; [TokenRefresh]; [TokenRefresh; ContactCall];
                [TokenRefresh; ContactCall; ContactCall];
                [TokenRefresh; ContactCall; ContactCall; ContactCall];
                [TokenRefresh; ContactCall; ContactCall; InvoiceCreation];
                [TokenRefresh; ContactCall; ContactCall; ContactCall; InvoiceCreation];
                [TokenRefresh; ContactCall; InvoiceStatus]]
            /\ forwards_token (env w) t)
           /\ ((length (http_requests t) <= 1)%nat
               \/ Js.truthy (granted_token t) = true))
        (snd (ZohoV3.handler ev ctx w 0)).
Proof.
  run; unfold holds; (split; [calls_leaf|]); cbn; use_equations; cbn;
    first [left; cbn; lia | right; congruence].
Qed.

Lemma payment_calls w ev ctx :
  holds (fun t =>
           In (call_kinds t)
              [[]; [TokenRefresh]; [TokenRefresh; ContactCall];
               [TokenRefresh; ContactCall; ContactCall];
               [TokenRefresh; ContactCall; InvoiceCreation];
               [TokenRefresh; ContactCall; ContactCall; InvoiceCreation]]
           /\ forwards_token (env w) t)
        (snd (CreatePayment.handler ev ctx w 0)).
Proof. run; unfold holds; calls_leaf. Qed.

Lemma test_zoho_calls w ev ctx :
  holds (fun t =>
           In (call_kinds t) [[]; [TokenRefresh]; [TokenRefresh; ContactCall]]
           /\ forwards_token (env w) t)
        (snd (TestZoho.handler ev ctx w 0)).
Proof. run; unfold holds; calls_leaf. Qed.

(** X2.  In the Netlify Zoho functions the token refresh is always the
    first vendor call and is made at most once; contact calls follow it,
    and an invoice is created last: the kinds of the calls of an execution
    form one of a few fixed sequences. *)
Theorem vendor_call_sequences :
  forall w ev ctx,
    In (call_kinds (snd (ZohoV1.handler ev ctx w 0)))
       [[]; [TokenRefresh]; [TokenRefresh; ContactCall];
        [TokenRefresh; ContactCall; ContactCall];
        [TokenRefresh; InvoiceCreation]; [TokenRefresh; InvoiceStatus]]
    /\ In (call_kinds (snd (ZohoV3.handler ev ctx w 0)))
         [[]; [TokenRefresh]; [TokenRefresh; ContactCall];
          [TokenRefresh; ContactCall; ContactCall];
          [TokenRefresh; ContactCall; ContactCall; ContactCall];
          [TokenRefresh; ContactCall; ContactCall; InvoiceCreation];
          [TokenRefresh; ContactCall; ContactCall; ContactCall; InvoiceCreation];
          [TokenRefresh; ContactCall; InvoiceStatus]]
    /\ In (call_kinds (snd (CreatePayment.handler ev ctx w 0)))
         [[]; [TokenRefresh]; [TokenRefresh; ContactCall];
          [TokenRefresh; ContactCall; ContactCall];
          [TokenRefresh; ContactCall; InvoiceCreation];
          [TokenRefresh; ContactCall; ContactCall; InvoiceCreation]].
Proof.
  intros w ev ctx. split; [|split].
  - apply (v1_calls w ev ctx).
  - apply (v3_calls w ev ctx).
  - apply (payment_calls w ev ctx).
Qed.

(** X3.  Every call the Netlify Zoho functions make after the token
    refresh is authorised with exactly the access token that refresh
    returned and names the configured organisation. *)
Theorem token_is_forwarded :
  (forall w ev ctx,
      forwards_token (env w) (snd (ZohoV1.handler ev ctx w 0))
      /\ forwards_token (env w) (snd (ZohoV3.handler ev ctx w 0))
      /\ forwards_token (env w) (snd (CreatePayment.handler ev ctx w 0)))
  /\ (forall w ev ctx, forwards_token (env w) (snd (TestZoho.handler ev ctx w 0))).
Proof.
  split.
  - intros w ev ctx. split; [|split].
    + apply (v1_calls w ev ctx).
    + apply (v3_calls w ev ctx).
    + apply (payment_calls w ev ctx).
  - intros w ev ctx. apply (test_zoho_calls w ev ctx).
Qed.

(** X4.  The later revision of zohoIntegration.js goes on to the invoicing
    API only with a non-empty access token: an execution with more than
    one vendor call was granted one. *)
Theorem later_revision_checks_token :
  forall w ev ctx,
    (length (http_requests (snd (ZohoV3.handler ev ctx w 0))) <= 1)%nat
    \/ Js.truthy (granted_token (snd (ZohoV3.handler ev ctx w 0))) = true.
Proof.
  intros w ev ctx. apply (v3_calls w ev ctx).
Qed.

(** The first revision has no such check: without a token in the vendor's
    reply it calls the API with the text "undefined" as token. *)
Remark first_revision_sends_undefined_token :
  map (fun r => Authorization (headers r))
      (http_requests (snd (ZohoV1.handler X_input.create_customer Sample.context
                             X_input.tokenless 0)))
  = [None; Some "Zoho-oauthtoken undefined"].
Proof. reflexivity. Qed.

(** *** E-mail functions *)

Ltac all_mails :=
  repeat match goal with
         | |- Forall _ [] => constructor
         | |- Forall _ (_ :: _) => constructor
         | |- _ = _ => reflexivity
         end.

Lemma mail_v1_senders w ev ctx :
  holds (fun t => Forall (fun m => from m = EMAIL_USER (env w)) (mails t))
        (snd (SendEmailV1.handler ev ctx w 0)).
Proof. run; unfold holds; cbn; all_mails. Qed.

Lemma mail_retry_senders w ev ctx :
  holds (fun t => Forall (fun m => from m = EMAIL_USER (env w)) (mails t)
                  /\ verified_first t)
        (snd (SendEmail.handler ev ctx w 0)).
Proof.
  run; unfold holds; (split; [cbn; all_mails|]); unfold verified_first; cbn;
    first [exact I | reflexivity].
Qed.

Lemma test_email_senders w ev ctx :
  holds (fun t => Forall (fun m => from m = EMAIL_USER (env w)
                                   /\ to m = EMAIL_USER (env w)) (mails t)
                  /\ (mails t = [] \/ (httpMethod ev =? "POST") = true))
        (snd (TestEmail.handler ev ctx w 0)).
Proof.
  run; unfold holds;
    (split;
     [ cbn; repeat match goal with
                   | |- Forall _ [] => constructor
                   | |- Forall _ (_ :: _) => constructor
                   | |- _ /\ _ => split; reflexivity
                   end
     | first [left; reflexivity | right; reflexivity] ]).
Qed.

(** X5.  Every message the e-mail functions hand to the relay is sent from
    the configured [EMAIL_USER]; the retrying function verifies the SMTP
    connection before its first send and sends nothing when the
    verification fails; the e-mail test function sends only on POST, and
    only to [EMAIL_USER] itself. *)
Theorem mail_senders :
  forall w ev ctx evt,
    Forall (fun m => from m = EMAIL_USER (env w))
           (mails (snd (SendEmailV1.handler ev ctx w 0)))
    /\ Forall (fun m => from m = EMAIL_USER (env w))
              (mails (snd (SendEmail.handler ev ctx w 0)))
    /\ verified_first (snd (SendEmail.handler ev ctx w 0))
    /\ Forall (fun m => from m = EMAIL_USER (env w) /\ to m = EMAIL_USER (env w))
              (mails (snd (TestEmail.handler evt ctx w 0)))
    /\ (mails (snd (TestEmail.handler evt ctx w 0)) = []
        \/ (httpMethod evt =? "POST") = true).
Proof.
  intros w ev ctx evt.
  split; [apply (mail_v1_senders w ev ctx)|].
  split; [apply (mail_retry_senders w ev ctx)|].
  split; [apply (mail_retry_senders w ev ctx)|].
  apply (test_email_senders w evt ctx).
Qed.

Ltac refuse_leaf :=
  first
    [ congruence
    | eexists; eexists; (split; [reflexivity|]); cbn; repeat split ].

Lemma payment_malformed w ev ctx e :
  httpMethod ev = "POST" -> body ev = Some (Malformed e) ->
  exists resp t,
    CreatePayment.handler ev ctx w 0 = (Ok resp, t)
    /\ statusCode resp = 500%Z /\ outbound t = [].
Proof.
  intros Hm Hb. autounfold with js. rewrite Hm, Hb. run; refuse_leaf.
Qed.

Lemma mail_v1_malformed w ev ctx e :
  httpMethod ev = "POST" -> body ev = Some (Malformed e) ->
  exists resp t,
    SendEmailV1.handler ev ctx w 0 = (Ok resp, t)
    /\ statusCode resp = 500%Z
    /\ body_error resp = Some (Js.JStr (message e))
    /\ outbound t = [].
Proof.
  intros Hm Hb. autounfold with js. rewrite Hm, Hb. run; refuse_leaf.
Qed.

Lemma mail_retry_malformed w ev ctx e :
  httpMethod ev = "POST" -> body ev = Some (Malformed e) ->
  exists resp t,
    SendEmail.handler ev ctx w 0 = (Ok resp, t)
    /\ statusCode resp = 500%Z
    /\ body_error resp = Some (Js.JStr "Invalid JSON in request body")
    /\ outbound t = [].
Proof.
  intros Hm Hb. autounfold with js. rewrite Hm, Hb. run; refuse_leaf.
Qed.

Ltac only_leaf :=
  first
    [ congruence
    | eexists; eexists; (split; [reflexivity|]); cbn;
      (split; [reflexivity|]); unfold only_calls; cbn;
      (split; [|split; reflexivity]);
      first [ left; reflexivity
            | right; left; reflexivity
            | right; right; eexists; reflexivity ] ].

Lemma v1_malformed w ev ctx e :
  httpMethod ev = "POST" -> body ev = Some (Malformed e) ->
  exists resp t,
    ZohoV1.handler ev ctx w 0 = (Ok resp, t)
    /\ statusCode resp = 500%Z
    /\ only_calls (ZohoV1.token_request (ZohoV1.ZOHO_CONFIG (env w)))
         None t.
Proof.
  intros Hm Hb. autounfold with js. rewrite Hm, Hb. run; only_leaf.
Qed.

Lemma v3_malformed w ev ctx e :
  httpMethod ev = "POST" -> body ev = Some (Malformed e) ->
  exists resp t,
    ZohoV3.handler ev ctx w 0 = (Ok resp, t)
    /\ statusCode resp = 500%Z
    /\ only_calls (ZohoV3.token_request (ZohoV3.ZOHO_CONFIG (env w)))
         (Some (ZohoV3.probe_request (ZohoV3.ZOHO_CONFIG (env w)))) t.
Proof.
  intros Hm Hb. autounfold with js. rewrite Hm, Hb. run; only_leaf.
Qed.

(** X6.  A POST whose body is not JSON is always answered 500, and
    nothing is created or sent for it.  createPayment.js and both e-mail
    functions refuse it before any outbound call (the retrying e-mail
    function with the message "Invalid JSON in request body", the first
    one with the parser's message).  The two revisions of
    zohoIntegration.js find it out only after the token refresh, and the
    later one after its connection test as well: their calls are no other
    than the token request and, in the later revision, the GET that tests
    the connection, so that no request posts a customer or an invoice. *)
Theorem malformed_body_refused :
  forall w ctx e,
    (forall ev,
        httpMethod ev = "POST" -> body ev = Some (Malformed e) ->
        (exists resp t,
            CreatePayment.handler ev ctx w 0 = (Ok resp, t)
            /\ statusCode resp = 500%Z /\ outbound t = [])
        /\ (exists resp t,
            ZohoV1.handler ev ctx w 0 = (Ok resp, t)
            /\ statusCode resp = 500%Z
            /\ only_calls (ZohoV1.token_request (ZohoV1.ZOHO_CONFIG (env w)))
                 None t)
        /\ (exists resp t,
            ZohoV3.handler ev ctx w 0 = (Ok resp, t)
            /\ statusCode resp = 500%Z
            /\ only_calls (ZohoV3.token_request (ZohoV3.ZOHO_CONFIG (env w)))
                 (Some (ZohoV3.probe_request (ZohoV3.ZOHO_CONFIG (env w)))) t))
    /\ (forall ev,
        httpMethod ev = "POST" -> body ev = Some (Malformed e) ->
        (exists resp t,
            SendEmailV1.handler ev ctx w 0 = (Ok resp, t)
            /\ statusCode resp = 500%Z
            /\ body_error resp = Some (Js.JStr (message e))
            /\ outbound t = [])
        /\ (exists resp t,
            SendEmail.handler ev ctx w 0 = (Ok resp, t)
            /\ statusCode resp = 500%Z
            /\ body_error resp = Some (Js.JStr "Invalid JSON in request body")
            /\ outbound t = [])).
Proof.
  intros w ctx e. split; intros ev Hm Hb.
  - split; [|split].
    + exact (payment_malformed w ev ctx e Hm Hb).
    + exact (v1_malformed w ev ctx e Hm Hb).
    + exact (v3_malformed w ev ctx e Hm Hb).
  - split.
    + exact (mail_v1_malformed w ev ctx e Hm Hb).
    + exact (mail_retry_malformed w ev ctx e Hm Hb).
Qed.

Lemma malformed_body_refused_witness :
  exists resp t,
    CreatePayment.handler
      {| httpMethod := "POST"; pathSegments := Some [];
         body := Some (Malformed (new_Error "Unexpected token < in JSON")) |}
      Sample.context C9_input.configured 0 = (Ok resp, t)
    /\ statusCode resp = 500%Z /\ outbound t = [].
Proof.
  apply (proj1 (malformed_body_refused C9_input.configured Sample.context
                  (new_Error "Unexpected token < in JSON"))
               {| httpMethod := "POST"; pathSegments := Some [];
                  body := Some (Malformed (new_Error "Unexpected token < in JSON")) |}).
  - reflexivity.
  - reflexivity.
Defined.







Lemma mail_retry_incomplete_contact w ev ctx rq d :
  httpMethod ev = "POST" -> body ev = Some (Parses rq) ->
  is_type (type rq) "contact_form" = true -> data rq = Some d ->
  contact_complete d = false ->
  exists resp t,
    SendEmail.handler ev ctx w 0 = (Ok resp, t)
    /\ statusCode resp = 500%Z
    /\ mails t = []
    /\ (relay_ready w -> body_error resp = Some (Js.JStr SendEmail.required_missing)).
Proof.
  intros Hm Hb Hty Hd Hc. unfold contact_complete in Hc.
  autounfold with js. rewrite Hm, Hb. norm. rewrite Hty. norm. rewrite Hd.
  cbn -[Js.truthy].
  destruct (Js.truthy (d_name d)); destruct (Js.truthy (d_email d));
    destruct (Js.truthy (d_subject d)); destruct (Js.truthy (d_message d));
    try discriminate Hc; cbn;
    repeat (case_step; norm);
    (eexists; eexists; (split; [reflexivity|]); cbn;
     (split; [reflexivity|]); (split; [reflexivity|]);
     intros (Hcfg & Hct & Hv); unfold mail_configured in Hcfg;
     first [reflexivity | congruence
           | rewrite Hv in *; discriminate
           | destruct (Js.truthy (EMAIL_USER (env w)));
             destruct (Js.truthy (EMAIL_PASSWORD (env w))); discriminate ]).
Qed.

Lemma mail_retry_complete_contact w ev ctx rq d :
  httpMethod ev = "POST" -> body ev = Some (Parses rq) ->
  is_type (type rq) "contact_form" = true -> data rq = Some d ->
  Forall (fun m => Js.truthy (to m) = true
                   /\ (to m = d_email d \/ to m = Some business_address))
         (mails (snd (SendEmail.handler ev ctx w 0))).
Proof.
  intros Hm Hb Hty Hd.
  autounfold with js. rewrite Hm, Hb. norm. rewrite Hty. norm. rewrite Hd.
  cbn -[Js.truthy].
  destruct (Js.truthy (d_name d)); destruct (Js.truthy (d_email d)) eqn:He;
    destruct (Js.truthy (d_subject d)); destruct (Js.truthy (d_message d));
    cbn; repeat (case_step; norm); cbn;
    repeat match goal with
           | |- Forall _ [] => constructor
           | |- Forall _ (_ :: _) => constructor
           | |- _ /\ _ => split
           | |- Js.truthy _ = true => first [exact He | reflexivity]
           | |- _ \/ _ => first [left; reflexivity | right; reflexivity]
           end.
Qed.

Lemma is_type_eq t name : is_type t name = true -> t = Some name.
Proof.
  destruct t as [x|]; cbn; [|discriminate].
  intros H. apply String.eqb_eq in H. now subst.
Qed.

(** X8.  The retrying e-mail function validates a contact form.  When the
    name, the e-mail address, the subject or the message is missing or
    empty it answers 500 and sends nothing, with the message "Missing
    required fields: name, email, subject, message" once the relay is
    configured and verified.  When the four fields are there and the relay
    is configured and verified, it hands the confirmation, addressed to
    the submitted address, and the notification, addressed to the business
    address, to the relay, and answers 200 exactly when both were sent.
    Every message it sends for a contact form has a non-empty recipient,
    the submitted address or the business address. *)
Theorem contact_form_validated :
  forall w ev ctx rq d,
    httpMethod ev = "POST" -> body ev = Some (Parses rq) ->
    is_type (type rq) "contact_form" = true -> data rq = Some d ->
    (contact_complete d = false ->
     exists resp t,
       SendEmail.handler ev ctx w 0 = (Ok resp, t)
       /\ statusCode resp = 500%Z
       /\ mails t = []
       /\ (relay_ready w -> body_error resp = Some (Js.JStr SendEmail.required_missing)))
    /\ (contact_complete d = true -> relay_ready w ->
        JointlyAnswered (d_email d) "contact-confirmation" "contact-notification"
          (SendEmail.handler ev ctx w 0))
    /\ Forall (fun m => Js.truthy (to m) = true
                        /\ (to m = d_email d \/ to m = Some business_address))
              (mails (snd (SendEmail.handler ev ctx w 0))).
Proof.
  intros w ev ctx rq d Hm Hb Hty Hd. split; [|split].
  - intros Hc. exact (mail_retry_incomplete_contact w ev ctx rq d Hm Hb Hty Hd Hc).
  - intros Hc Hready.
    exact (retry_contact_answered w ev ctx rq d Hm Hb (is_type_eq _ _ Hty) Hd Hc Hready).
  - exact (mail_retry_complete_contact w ev ctx rq d Hm Hb Hty Hd).
Qed.

Lemma contact_form_validated_witness :
  (exists resp t,
      SendEmail.handler (X_mail.post "contact_form" X_mail.anonymous) Sample.context
        C9_input.configured 0 = (Ok resp, t)
      /\ statusCode resp = 500%Z
      /\ mails t = []
      /\ (relay_ready C9_input.configured ->
          body_error resp = Some (Js.JStr SendEmail.required_missing)))
  /\ JointlyAnswered (Some "alice@example.com") "contact-confirmation"
       "contact-notification"
       (SendEmail.handler (X_mail.post "contact_form" C3_input.contact) Sample.context
          C9_input.configured 0).
Proof.
  split.
  - apply (proj1 (contact_form_validated C9_input.configured
                    (X_mail.post "contact_form" X_mail.anonymous) Sample.context
                    {| type := Some "contact_form"; data := Some X_mail.anonymous |}
                    X_mail.anonymous eq_refl eq_refl eq_refl eq_refl)).
    reflexivity.
  - apply (proj1 (proj2 (contact_form_validated C9_input.configured
                           (X_mail.post "contact_form" C3_input.contact) Sample.context
                           {| type := Some "contact_form"; data := Some C3_input.contact |}
                           C3_input.contact eq_refl eq_refl eq_refl eq_refl))).
    + reflexivity.
    + split; [reflexivity | split; [reflexivity | intros k; reflexivity]].
Defined.

(** The first e-mail function has no such check: once it has a
    transporter, the same form is handed to the relay with no
    recipient. *)
Remark first_sender_does_not_validate :
  map to (mails (snd (SendEmailV1.handler (X_mail.post "contact_form" X_mail.anonymous)
                        Sample.context C9_input.configured 0)))
  = [None; Some business_address].
Proof. reflexivity. Qed.

Lemma known_type_false t :
  known_type t = false ->
  is_type t "contact_form" = false /\ is_type t "quote_request" = false
  /\ is_type t "welcome_email" = false /\ is_type t "payment_confirmation" = false.
Proof.
  unfold known_type. intros H.
  destruct (is_type t "contact_form"); [discriminate|].
  destruct (is_type t "quote_request"); [discriminate|].
  destruct (is_type t "welcome_email"); [discriminate|].
  destruct (is_type t "payment_confirmation"); [discriminate|].
  repeat split.
Qed.

Lemma mail_retry_unknown_type w ev ctx rq :
  httpMethod ev = "POST" -> body ev = Some (Parses rq) ->
  known_type (type rq) = false ->
  exists resp t,
    SendEmail.handler ev ctx w 0 = (Ok resp, t)
    /\ statusCode resp = 500%Z
    /\ mails t = []
    /\ (relay_ready w ->
        body_error resp = Some (Js.JStr ("Invalid email type: " ++ Js.show (type rq)))).
Proof.
  intros Hm Hb Hk. apply known_type_false in Hk. destruct Hk as (H1 & H2 & H3 & H4).
  autounfold with js. rewrite Hm, Hb. norm. rewrite H1, H2, H3, H4.
  cbn -[Js.truthy].
  repeat (case_step; norm);
    (eexists; eexists; (split; [reflexivity|]); cbn;
     (split; [reflexivity|]); (split; [reflexivity|]);
     intros (Hcfg & Hct & Hv); unfold mail_configured in Hcfg;
     first [reflexivity | congruence
           | rewrite Hv in *; discriminate
           | destruct (Js.truthy (EMAIL_USER (env w)));
             destruct (Js.truthy (EMAIL_PASSWORD (env w))); discriminate ]).
Qed.

Lemma mail_v1_unknown_type w ev ctx rq :
  httpMethod ev = "POST" -> body ev = Some (Parses rq) ->
  known_type (type rq) = false ->
  exists resp t,
    SendEmailV1.handler ev ctx w 0 = (Ok resp, t)
    /\ statusCode resp = 500%Z
    /\ outbound t = [].
Proof.
  intros Hm Hb Hk. apply known_type_false in Hk. destruct Hk as (H1 & H2 & H3 & H4).
  autounfold with js. rewrite Hm, Hb. norm. rewrite H1, H2, H3, H4.
  repeat (case_step; norm);
    (eexists; eexists; (split; [reflexivity|]); cbn; repeat split).
Qed.

(** X9.  A request whose type is none of [contact_form], [quote_request],
    [welcome_email] and [payment_confirmation] is answered 500 and no
    message is sent; the retrying function, once the relay is configured
    and verified, names the type in its message. *)
Theorem unknown_mail_type_refused :
  forall w ev ctx rq,
    httpMethod ev = "POST" -> body ev = Some (Parses rq) ->
    known_type (type rq) = false ->
    (exists resp t,
        SendEmail.handler ev ctx w 0 = (Ok resp, t)
        /\ statusCode resp = 500%Z
        /\ mails t = []
        /\ (relay_ready w ->
            body_error resp
            = Some (Js.JStr ("Invalid email type: " ++ Js.show (type rq)))))
    /\ (exists resp t,
        SendEmailV1.handler ev ctx w 0 = (Ok resp, t)
        /\ statusCode resp = 500%Z
        /\ outbound t = []).
Proof.
  intros w ev ctx rq Hm Hb Hk. split.
  - exact (mail_retry_unknown_type w ev ctx rq Hm Hb Hk).
  - exact (mail_v1_unknown_type w ev ctx rq Hm Hb Hk).
Qed.

Lemma unknown_mail_type_refused_witness :
  exists resp t,
    SendEmail.handler (X_mail.post "newsletter" X_mail.welcome) Sample.context
      C9_input.configured 0 = (Ok resp, t)
    /\ statusCode resp = 500%Z
    /\ mails t = []
    /\ (relay_ready C9_input.configured ->
        body_error resp = Some (Js.JStr "Invalid email type: newsletter")).
Proof.
  apply (proj1 (unknown_mail_type_refused C9_input.configured
                  (X_mail.post "newsletter" X_mail.welcome) Sample.context
                  {| type := Some "newsletter"; data := Some X_mail.welcome |}
                  eq_refl eq_refl eq_refl)).
Defined.

Lemma single_mail w ev ctx rq :
  httpMethod ev = "POST" -> body ev = Some (Parses rq) ->
  type rq = Some "welcome_email" \/ type rq = Some "payment_confirmation" ->
  exists resp t,
    SendEmail.handler ev ctx w 0 = (Ok resp, t)
    /\ (length (final_sends t) <= 1)%nat
    /\ (statusCode resp = 200%Z <-> exists i, final_sends t = [Sent i])
    /\ (forall d, data rq = Some d -> Forall (fun m => to m = clientEmail d) (mails t)).
Proof.
  intros Hm Hb Hty.
  autounfold with js. rewrite Hm, Hb. norm.
  destruct Hty as [Hty|Hty]; rewrite Hty; norm;
    repeat (case_step; norm);
    (eexists; eexists; (split; [reflexivity|]); cbn;
     (split; [lia|]);
     (split;
      [ split;
        [ let H := fresh in intros H; first [discriminate H | eauto]
        | let H := fresh in intros (? & H); first [discriminate H | reflexivity] ]
      | let H := fresh in
        intros ? H; inversion H; subst;
        repeat match goal with
               | |- Forall _ [] => constructor
               | |- Forall _ (_ :: _) => constructor
               | |- _ = _ => reflexivity
               end ])).
Qed.

(** X10.  For a [welcome_email] or [payment_confirmation] request the
    retrying e-mail function sends at most one message (with its retry),
    addressed to [clientEmail], and answers 200 exactly when that send
    succeeded. *)
Theorem single_mail_requests :
  forall w ev ctx rq,
    httpMethod ev = "POST" -> body ev = Some (Parses rq) ->
    type rq = Some "welcome_email" \/ type rq = Some "payment_confirmation" ->
    exists resp t,
      SendEmail.handler ev ctx w 0 = (Ok resp, t)
      /\ (length (final_sends t) <= 1)%nat
      /\ (statusCode resp = 200%Z <-> exists i, final_sends t = [Sent i])
      /\ (forall d, data rq = Some d -> Forall (fun m => to m = clientEmail d) (mails t)).
Proof.
  exact single_mail.
Qed.

Lemma single_mail_requests_witness :
  exists resp t,
    SendEmail.handler (X_mail.post "welcome_email" X_mail.welcome) Sample.context
      C2_input.world 0 = (Ok resp, t)
    /\ (length (final_sends t) <= 1)%nat
    /\ (statusCode resp = 200%Z <-> exists i, final_sends t = [Sent i])
    /\ (forall d, Some X_mail.welcome = Some d ->
                  Forall (fun m => to m = clientEmail d) (mails t)).
Proof.
  apply (single_mail_requests C2_input.world
           (X_mail.post "welcome_email" X_mail.welcome) Sample.context
           {| type := Some "welcome_email"; data := Some X_mail.welcome |}).
  - reflexivity.
  - reflexivity.
  - left. reflexivity.
Defined.

(** *** The retry loop in general *)

Lemma backoff_double k : backoff_ms (S k) = (2 * backoff_ms k)%Z.
Proof.
  unfold backoff_ms. rewrite Nat2Z.inj_succ, Z.pow_succ_r by lia. lia.
Qed.

Lemma retry_loop_shape m maxRetries :
  forall remaining attempt w n,
    (attempt + remaining = S maxRetries)%nat ->
    let r := fst (SendEmail.retry_loop remaining attempt maxRetries m w n) in
    let t := snd (SendEmail.retry_loop remaining attempt maxRetries m w n) in
    Forall (fun m' => m' = m) (mails t)
    /\ (forall e, r = Throw e ->
                  length (send_attempts t) = remaining
                  /\ forallb send_failed (send_attempts t) = true
                  /\ last (send_attempts t) (Sent Sample.sent) = SendFailed e)
    /\ (forall i, r = Ok (Some i) ->
                  exists fails,
                    send_attempts t = (fails ++ [Sent i])%list
                    /\ forallb send_failed fails = true)
    /\ (r = Ok None -> remaining = 0%nat)
    /\ (remaining <> 0%nat ->
        exists p, length (send_attempts t) = S p
                  /\ (total_wait t + backoff_ms attempt = backoff_ms (attempt + p))%Z).
Proof.
  induction remaining as [|k IH]; intros attempt w n Hsum.
  - cbn. repeat split; try discriminate; try constructor. intros H; now destruct H.
  - cbn -[Z.pow Z.mul backoff_ms].
    unfold catch, bind, transporter_sendMail, ret, sleep, throw.
    destruct (sendMail w n m) as [i|e]; cbn -[Z.pow Z.mul backoff_ms].
    + split; [repeat constructor|].
      split; [discriminate|].
      split; [intros i' H; injection H as <-; exists []; split; reflexivity|].
      split; [discriminate|].
      intros _. exists 0%nat. split; [reflexivity|].
      unfold total_wait; cbn. now rewrite Nat.add_0_r.
    + destruct (attempt =? maxRetries)%nat eqn:Hlast; cbn -[Z.pow Z.mul backoff_ms].
      * apply Nat.eqb_eq in Hlast.
        split; [repeat constructor|].
        split; [intros e' H; injection H as <-; repeat split; f_equal; lia|].
        split; [discriminate|].
        split; [discriminate|].
        intros _. exists 0%nat. split; [reflexivity|].
        unfold total_wait; cbn. now rewrite Nat.add_0_r.
      * apply Nat.eqb_neq in Hlast.
        assert (Hk : k <> 0%nat) by lia.
        specialize (IH (S attempt) w (S (S n)) ltac:(lia)).
        destruct (SendEmail.retry_loop k (S attempt) maxRetries m w (S (S n)))
          as [r' t'] eqn:Hrun.
        cbn -[Z.pow Z.mul backoff_ms] in *.
        fold (send_attempts t') in *. fold (mails t') in *.
        destruct IH as (Hm & Hthrow & Hok & Hnone & Hwait).
        split; [constructor; [reflexivity | exact Hm]|].
        split.
        { intros e' H. destruct (Hthrow e' H) as (Hl & Hf & Hlast').
          repeat split; [now rewrite Hl | exact Hf |].
          destruct (send_attempts t') as [|o rest]; [cbn in Hl; lia | exact Hlast']. }
        split.
        { intros i H. destruct (Hok i H) as (fails & Hs & Hf).
          exists (SendFailed e :: fails). split; [now rewrite Hs | exact Hf]. }
        split; [intros H; apply Hnone in H; contradiction|].
        intros _. destruct (Hwait Hk) as (p & Hl & Hw).
        exists (S p). split; [now rewrite Hl|].
        unfold total_wait in *; cbn -[Z.pow Z.mul backoff_ms].
        fold (backoff_ms attempt).
        replace (attempt + S p)%nat with (S (attempt + p)) by lia.
        rewrite backoff_double in Hw. lia.
Qed.

(** X11.  [sendEmailWithRetry], for any [maxRetries]: every attempt sends
    the same message; it throws only after exactly [maxRetries] attempts
    that all failed, and then the error of the last one; it returns the
    result of the one successful attempt, all earlier ones having failed;
    it returns [undefined] only when [maxRetries] is 0; and after [a]
    attempts it has waited [2 + 4 + ... + 2^(a-1)] seconds in all, that is
    [2^a - 2] seconds. *)
Theorem retry_in_general :
  forall m maxRetries w n,
    let r := fst (SendEmail.sendEmailWithRetry m maxRetries w n) in
    let t := snd (SendEmail.sendEmailWithRetry m maxRetries w n) in
    Forall (fun m' => m' = m) (mails t)
    /\ (forall e, r = Throw e ->
                  length (send_attempts t) = maxRetries
                  /\ forallb send_failed (send_attempts t) = true
                  /\ last (send_attempts t) (Sent Sample.sent) = SendFailed e)
    /\ (forall i, r = Ok (Some i) ->
                  exists fails,
                    send_attempts t = (fails ++ [Sent i])%list
                    /\ forallb send_failed fails = true)
    /\ (r = Ok None -> maxRetries = 0%nat)
    /\ (maxRetries <> 0%nat ->
        total_wait t
        = ((2 ^ Z.of_nat (length (send_attempts t)) - 2) * 1000)%Z).
Proof.
  intros m maxRetries w n r t.
  destruct (retry_loop_shape m maxRetries maxRetries 1 w n ltac:(lia))
    as (Hm & Hthrow & Hok & Hnone & Hwait).
  split; [exact Hm|]. split; [exact Hthrow|]. split; [exact Hok|].
  split; [exact Hnone|].
  intros Hpos. destruct (Hwait Hpos) as (p & Hl & Hw).
  subst t. unfold SendEmail.sendEmailWithRetry. rewrite Hl.
  unfold backoff_ms in Hw.
  replace (Z.of_nat (1 + p)) with (Z.of_nat (S p)) in Hw by reflexivity.
  change (2 ^ Z.of_nat 1 * 1000)%Z with 2000%Z in Hw. lia.
Qed.

Lemma retry_in_general_witness :
  total_wait (snd (SendEmail.sendEmailWithRetry C2_input.message 3
                     (Sample.world Sample.full_env Sample.all_ok Sample.all_fetched
                        (fun _ => SendFailed (new_Error "421 try again"))) 0%nat))
  = ((2 ^ Z.of_nat
            (length (send_attempts
                       (snd (SendEmail.sendEmailWithRetry C2_input.message 3
                               (Sample.world Sample.full_env Sample.all_ok
                                  Sample.all_fetched
                                  (fun _ => SendFailed (new_Error "421 try again"))) 0%nat))))
      - 2) * 1000)%Z.
Proof.
  apply (proj2 (proj2 (proj2 (proj2
           (retry_in_general C2_input.message 3
              (Sample.world Sample.full_env Sample.all_ok Sample.all_fetched
                 (fun _ => SendFailed (new_Error "421 try again"))) 0%nat))))).
  discriminate.
Defined.

Example three_attempts_wait_six_seconds :
  total_wait (snd (SendEmail.sendEmailWithRetry C2_input.message 3
                     (Sample.world Sample.full_env Sample.all_ok Sample.all_fetched
                        (fun _ => SendFailed (new_Error "421 try again"))) 0%nat))
  = 6000%Z.
Proof. reflexivity. Qed.

(** *** The vendor helpers *)

Ltac label_leaf :=
  unfold holds, labelled; cbn;
  first [ reflexivity | exact I
        | match goal with
          | |- context [String.prefix "" ?s] => destruct s; reflexivity
          end ].

Lemma v1_find_labelled token email w n :
  holds (labelled ["Customer lookup failed: "])
        (fst (ZohoV1.findZohoCustomer token email w n)).
Proof. run; label_leaf. Qed.

Lemma v3_find_labelled token email w n :
  holds (labelled ["Customer lookup failed: "])
        (fst (ZohoV3.findZohoCustomer token email w n)).
Proof. run; label_leaf. Qed.

Lemma v3_create_labelled token c w n :
  holds (labelled ["Customer creation failed: "; "Customer lookup failed: "])
        (fst (ZohoV3.createZohoCustomer token c w n)).
Proof. run; label_leaf. Qed.

Lemma v3_probe_labelled token w n :
  holds (labelled ["Zoho API authorization failed."; "Access denied.";
                   "Zoho API test failed: "])
        (fst (ZohoV3.testZohoConnection token w n)).
Proof. run; label_leaf. Qed.

Lemma v1_invoice_labelled token cid data w n :
  holds (labelled ["Invoice creation failed: "])
        (fst (ZohoV1.createZohoInvoice token cid data w n)).
Proof. run; label_leaf. Qed.

Lemma payment_invoice_labelled token cid data w n :
  holds (labelled ["Invoice creation failed: "])
        (fst (CreatePayment.createZohoInvoice token cid data w n)).
Proof. run; label_leaf. Qed.

Lemma v1_status_labelled token id w n :
  holds (labelled ["Invoice status check failed: "])
        (fst (ZohoV1.getZohoInvoiceStatus token id w n)).
Proof. run; label_leaf. Qed.

Lemma payment_token_labelled w n :
  holds (labelled ["Zoho authentication failed: "])
        (fst (CreatePayment.getZohoAccessToken w n)).
Proof. run; label_leaf. Qed.

Lemma payment_find_rethrown token email w n :
  holds (fun x =>
           rethrown (axios w n (ZohoV1.search_request
                                  (CreatePayment.ZOHO_CONFIG (env w)) token email))
                    (fst x))
        (CreatePayment.findZohoCustomer token email w n).
Proof.
  run; unfold holds, rethrown; cbn;
    first [ exact I | left; reflexivity | right; left; reflexivity
          | right; right; reflexivity ].
Qed.

(** X12.  These vendor helpers label what they throw: whatever goes wrong
    inside the customer lookup of zohoIntegration.js (both revisions), its
    customer creation and connection test (later revision), the invoice
    creation of zohoIntegration.js and of createPayment.js, the status
    check, or the token refresh of createPayment.js, the error thrown
    starts with the text that names that step.  The customer lookup of
    createPayment.js is the exception: it throws what it caught, as it
    came. *)
Theorem helper_errors_are_labelled :
  forall w n token,
    (forall email,
        labelled ["Customer lookup failed: "]
          (fst (ZohoV1.findZohoCustomer token email w n))
        /\ labelled ["Customer lookup failed: "]
             (fst (ZohoV3.findZohoCustomer token email w n)))
    /\ (forall c,
           labelled ["Customer creation failed: "; "Customer lookup failed: "]
             (fst (ZohoV3.createZohoCustomer token c w n)))
    /\ labelled ["Zoho API authorization failed."; "Access denied.";
                 "Zoho API test failed: "]
         (fst (ZohoV3.testZohoConnection token w n))
    /\ (forall cid data,
           labelled ["Invoice creation failed: "]
             (fst (ZohoV1.createZohoInvoice token cid data w n))
           /\ labelled ["Invoice creation failed: "]
                (fst (CreatePayment.createZohoInvoice token cid data w n)))
    /\ (forall id,
           labelled ["Invoice status check failed: "]
             (fst (ZohoV1.getZohoInvoiceStatus token id w n)))
    /\ labelled ["Zoho authentication failed: "]
         (fst (CreatePayment.getZohoAccessToken w n))
    /\ (forall email,
           rethrown (axios w n (ZohoV1.search_request
                                  (CreatePayment.ZOHO_CONFIG (env w)) token email))
                    (fst (CreatePayment.findZohoCustomer token email w n))).
Proof.
  intros w n token.
  split; [intros email; split;
          [apply v1_find_labelled | apply v3_find_labelled]|].
  split; [intros c; apply v3_create_labelled|].
  split; [apply v3_probe_labelled|].
  split; [intros cid data; split;
          [apply v1_invoice_labelled | apply payment_invoice_labelled]|].
  split; [intros id; apply v1_status_labelled|].
  split; [apply payment_token_labelled|].
  intros email. apply (payment_find_rethrown token email w n).
Qed.

Example payment_lookup_is_not_labelled :
  fst (CreatePayment.findZohoCustomer (Some "tok") (Some "alice@example.com")
         (Sample.world Sample.full_env Sample.all_ok Sample.all_fetched Sample.all_sent) 0)
  = Throw (new_Error "Customer not found").
Proof. reflexivity. Qed.

Example empty_lookup_is_labelled :
  fst (ZohoV1.findZohoCustomer (Some "tok") (Some "alice@example.com")
         (Sample.world Sample.full_env Sample.all_ok Sample.all_fetched Sample.all_sent) 0)
  = Throw (new_Error "Customer lookup failed: Customer not found").
Proof. reflexivity. Qed.

Lemma or_default_nonempty v d : d <> "" -> Js.or_default v d <> "".
Proof.
  intros Hd. unfold Js.or_default, Js.truthy, Js.show.
  destruct v as [s|]; [|exact Hd].
  destruct (String.eqb s "") eqn:Hs; cbn; [exact Hd|].
  now apply String.eqb_neq in Hs.
Qed.

Ltac shape_leaf :=
  unfold holds, invoice_call_shape; cbn;
  first [ assumption
        | do 2 eexists;
          repeat (split; [first [eassumption | reflexivity
                                | apply length_map
                                | apply or_default_nonempty; discriminate]|]);
          reflexivity ].

Lemma v1_invoice_shape token cid data w n :
  holds (invoice_call_shape cid data)
        (snd (ZohoV1.createZohoInvoice token cid data w n)).
Proof. run; shape_leaf. Qed.

Lemma payment_invoice_shape token cid data w n :
  holds (invoice_call_shape cid data)
        (snd (CreatePayment.createZohoInvoice token cid data w n)).
Proof. run; shape_leaf. Qed.

(** X13.  [createZohoInvoice] makes at most one call.  Without service
    items it makes none; otherwise it posts one invoice, for the customer
    it was given, with one line per service item, notes that are never
    empty, the fixed payment terms and the currency of the request. *)
Theorem one_invoice_call :
  forall w n token cid data,
    invoice_call_shape cid data (snd (ZohoV1.createZohoInvoice token cid data w n))
    /\ invoice_call_shape cid data
         (snd (CreatePayment.createZohoInvoice token cid data w n)).
Proof.
  intros. split; [apply v1_invoice_shape | apply payment_invoice_shape].
Qed.

Lemma v1_status_lookup token id w n :
  holds (fun x =>
           http_requests (snd x)
           = [ZohoV1.status_request (ZohoV1.ZOHO_CONFIG (env w)) token id]
           /\ match fst x with
              | Ok fields =>
                  map fst fields = ["status"; "total"; "payment_date"]
                  /\ exists resp d inv,
                       axios w n (ZohoV1.status_request (ZohoV1.ZOHO_CONFIG (env w)) token id)
                       = AxiosResolved resp
                       /\ ax_data resp = Some d /\ invoice d = Some inv
                       /\ map snd fields
                          = [Js.jstr (status inv); total inv;
                             Js.jstr (last_payment_date inv)]
              | Throw _ => True
              end)
        (ZohoV1.getZohoInvoiceStatus token id w n).
Proof.
  run; unfold holds; cbn; (split; [reflexivity|]); try exact I.
  split; [reflexivity|]. do 3 eexists.
  repeat (split; [first [reflexivity | eassumption]|]). reflexivity.
Qed.

(** X14.  [getZohoInvoiceStatus] makes exactly one call, a GET of
    [<base>/invoices/<id>] with the token it was given, and what it
    returns has exactly the fields [status], [total] and [payment_date],
    taken from the invoice of the reply ([payment_date] from
    [last_payment_date]). *)
Theorem invoice_status_lookup :
  forall w n token id,
    let rq := ZohoV1.status_request (ZohoV1.ZOHO_CONFIG (env w)) token id in
    let x := ZohoV1.getZohoInvoiceStatus token id w n in
    http_requests (snd x) = [rq]
    /\ method rq = GET
    /\ url rq = "https://invoice.zoho.in/api/v3/invoices/" ++ id
    /\ Authorization (headers rq) = Some ("Zoho-oauthtoken " ++ Js.show token)
    /\ match fst x with
       | Ok fields =>
           map fst fields = ["status"; "total"; "payment_date"]
           /\ exists resp d inv,
                axios w n rq = AxiosResolved resp
                /\ ax_data resp = Some d /\ invoice d = Some inv
                /\ map snd fields
                   = [Js.jstr (status inv); total inv; Js.jstr (last_payment_date inv)]
       | Throw _ => True
       end.
Proof.
  intros w n token id rq x.
  destruct (v1_status_lookup token id w n) as [Hcalls Hres].
  split; [exact Hcalls|]. split; [reflexivity|]. split; [reflexivity|].
  split; [reflexivity|]. exact Hres.
Qed.

(** *** The invoice is issued to the customer just found or created *)

Ltac bill_leaf :=
  unfold holds; cbn; unfold contact_of_reply; cbn; use_equations; cbn;
  repeat split.

Lemma payment_bills w ev ctx :
  holds (bills_last_contact None) (snd (CreatePayment.handler ev ctx w 0)).
Proof. run; bill_leaf. Qed.

Lemma v3_bills w ev ctx :
  holds (bills_last_contact None) (snd (ZohoV3.handler ev ctx w 0)).
Proof. run; bill_leaf. Qed.

(** X15.  In the payment function and in the later revision of the Zoho
    function, an invoice is always issued to the contact that the last
    successful contact call before it returned: the contact just created,
    or the first one the fallback search found. *)
Theorem invoice_billed_to_contact :
  forall w ev ctx,
    bills_last_contact None (snd (CreatePayment.handler ev ctx w 0))
    /\ bills_last_contact None (snd (ZohoV3.handler ev ctx w 0)).
Proof.
  intros. split; [apply payment_bills | apply v3_bills].
Qed.

(** *** Unknown routes *)

Ltac route_leaf :=
  unfold holds; cbn;
  let resp := fresh "resp" in
  let H := fresh "H" in
  let Hs := fresh "Hs" in
  intros resp H Hs;
  first [ discriminate H
        | injection H as <-; cbn in Hs; first [discriminate Hs | reflexivity] ].

Lemma v1_not_found w ev ctx :
  holds (fun x => forall resp,
             fst x = Ok resp -> statusCode resp = 404%Z ->
             call_kinds (snd x) = [TokenRefresh])
        (ZohoV1.handler ev ctx w 0).
Proof. run; route_leaf. Qed.

Lemma v3_not_allowed w ev ctx :
  holds (fun x => forall resp,
             fst x = Ok resp -> statusCode resp = 405%Z ->
             call_kinds (snd x) = [TokenRefresh; ContactCall])
        (ZohoV3.handler ev ctx w 0).
Proof. run; route_leaf. Qed.

Lemma payment_not_allowed w ev ctx :
  holds (fun x => forall resp,
             fst x = Ok resp -> statusCode resp = 405%Z ->
             outbound (snd x) = [])
        (CreatePayment.handler ev ctx w 0).
Proof. run; route_leaf. Qed.

Lemma edge_not_found w cors req :
  holds (fun x => forall resp,
             fst x = Ok resp -> Supabase.edge_status resp = 404%Z ->
             outbound (snd x) = [])
        (Supabase.serve cors req w 0).
Proof. run; route_leaf. Qed.

(** X16.  The Zoho function looks at the route only after it has
    refreshed the token: a 404 answer (first revision) has cost exactly
    the token call, a 405 answer of the later revision the token call and
    the connection test.  The payment function refuses a method other than
    POST before any call, and the edge function answers 404 without any
    call. *)
Theorem route_checked_after_token :
  forall w ev ctx,
    (forall resp,
        fst (ZohoV1.handler ev ctx w 0) = Ok resp -> statusCode resp = 404%Z ->
        call_kinds (snd (ZohoV1.handler ev ctx w 0)) = [TokenRefresh])
    /\ (forall resp,
           fst (ZohoV3.handler ev ctx w 0) = Ok resp -> statusCode resp = 405%Z ->
           call_kinds (snd (ZohoV3.handler ev ctx w 0)) = [TokenRefresh; ContactCall])
    /\ (forall resp,
           fst (CreatePayment.handler ev ctx w 0) = Ok resp -> statusCode resp = 405%Z ->
           outbound (snd (CreatePayment.handler ev ctx w 0)) = [])
    /\ (forall cors req resp,
           fst (Supabase.serve cors req w 0) = Ok resp ->
           Supabase.edge_status resp = 404%Z ->
           outbound (snd (Supabase.serve cors req w 0)) = []).
Proof.
  intros w ev ctx.
  split; [apply (v1_not_found w ev ctx)|].
  split; [apply (v3_not_allowed w ev ctx)|].
  split; [apply (payment_not_allowed w ev ctx)|].
  intros cors req. apply (edge_not_found w cors req).
Qed.

Lemma route_checked_after_token_witness :
  call_kinds (snd (ZohoV1.handler X_route.put Sample.context X_route.granting 0))
  = [TokenRefresh]
  /\ call_kinds (snd (ZohoV3.handler X_route.put Sample.context X_route.granting 0))
     = [TokenRefresh; ContactCall]
  /\ outbound (snd (CreatePayment.handler X_route.put Sample.context X_route.granting 0))
     = []
  /\ outbound (snd (Supabase.serve [] X_edge.get_customers X_route.granting 0)) = [].
Proof.
  pose proof (route_checked_after_token X_route.granting X_route.put Sample.context)
    as (H1 & H3 & Hp & He).
  split; [eapply H1; reflexivity|].
  split; [eapply H3; reflexivity|].
  split; [eapply Hp; reflexivity | eapply He; reflexivity].
Defined.

(** *** The edge function *)

Ltac pair_leaf :=
  unfold holds, fetches; cbn;
  repeat match goal with
         | |- _ /\ _ => split
         | |- True => exact I
         | |- (_ <= _)%nat => lia
         | |- exists _ _, _ => do 2 eexists
         | |- _ = _ => first [reflexivity | eassumption]
         end.

Lemma edge_pairs w cors req :
  holds (fun t =>
           token_per_call (Supabase.zohoConfig (env w)) (fetches t)
           /\ (length (fetches t) <= 4)%nat)
        (snd (Supabase.serve cors req w 0)).
Proof. run; pair_leaf. Qed.

(** X17.  The edge function asks for a fresh token before every vendor
    call: its calls come in pairs, a token request (built from the
    configured credentials) followed by one call that carries the token
    just granted and the configured organisation; there are at most two
    such pairs. *)
Theorem edge_token_per_call :
  forall w cors req,
    token_per_call (Supabase.zohoConfig (env w))
      (fetches (snd (Supabase.serve cors req w 0)))
    /\ (length (fetches (snd (Supabase.serve cors req w 0))) <= 4)%nat.
Proof.
  intros. apply edge_pairs.
Qed.

(** X18.  Routing in the edge function is by substring, [/token] first:
    a request whose path contains [/token] is answered, whatever its
    method (other than OPTIONS) and body, with the access token the vendor
    granted, after that one call. *)
Theorem edge_token_route :
  forall w cors req rt d,
    req_method_is_options req = false ->
    Js.truthy (ZOHO_CLIENT_ID (env w)) = true ->
    Js.truthy (ZOHO_CLIENT_SECRET (env w)) = true ->
    Js.truthy (ZOHO_REFRESH_TOKEN (env w)) = true ->
    Js.includes "/token" (Supabase.pathname req) = true ->
    fetch w 0 (Supabase.token_request (Supabase.zohoConfig (env w))) = FetchResolved rt ->
    f_ok rt = true -> f_json rt = Some d ->
    Supabase.serve cors req w 0
    = (Ok {| Supabase.edge_status := 200;
             Supabase.edge_headers := (("Content-Type", "application/json") :: cors)%list;
             Supabase.edge_body :=
               JsonBody (Js.obj [("access_token", Js.jstr (access_token d))]) |},
       [EvFetch (Supabase.token_request (Supabase.zohoConfig (env w))) (FetchResolved rt)]).
Proof.
  unfold req_method_is_options.
  intros w cors req rt d Hm Hid Hsecret Hrefresh Hpath Hfetch Hok Hjson.
  unfold Supabase.serve, ask, bind, catch, ret. cbn.
  rewrite Hm. cbn. rewrite Hid, Hsecret, Hrefresh. cbn. rewrite Hpath.
  unfold Supabase.getZohoAccessToken, bind, fetch_request, Supabase.response_json, ret.
  cbn. rewrite Hfetch. cbn. rewrite Hok. cbn. rewrite Hjson. reflexivity.
Qed.

Lemma edge_token_route_witness :
  Supabase.serve [] X_edge.delete_token X_edge.granting 0
  = (Ok {| Supabase.edge_status := 200;
           Supabase.edge_headers := [("Content-Type", "application/json")];
           Supabase.edge_body :=
             JsonBody (Js.obj [("access_token", Js.jstr (Some "tok"))]) |},
     [EvFetch (Supabase.token_request (Supabase.zohoConfig Sample.full_env))
        (FetchResolved (Sample.fetched 200 Sample.token_data))]).
Proof.
  apply (edge_token_route X_edge.granting [] X_edge.delete_token
           (Sample.fetched 200 Sample.token_data) Sample.token_data);
    reflexivity.
Defined.

(** *** The invoice id of a path *)

Lemma append_assoc_string (a b c : string) : (a ++ b) ++ c = a ++ (b ++ c).
Proof.
  induction a as [|x a IH]; cbn; [reflexivity | now rewrite IH].
Qed.

Lemma slash_free_app a b :
  slash_free (a ++ b) = slash_free a && slash_free b.
Proof.
  induction a as [|x a IH]; cbn; [reflexivity|].
  rewrite IH. now rewrite andb_assoc.
Qed.

Lemma last_segment_from_free acc s :
  slash_free acc = true -> slash_free (Supabase.last_segment_from acc s) = true.
Proof.
  revert acc. induction s as [|c s IH]; intros acc Hacc; cbn; [exact Hacc|].
  destruct (Ascii.eqb c "/") eqn:Hc.
  - apply IH. reflexivity.
  - apply IH. rewrite slash_free_app, Hacc. cbn. now rewrite Hc.
Qed.

Lemma last_segment_from_slash acc p s :
  Supabase.last_segment_from acc (p ++ String "/" s) = Supabase.last_segment_from "" s.
Proof.
  revert acc. induction p as [|c p IH]; intros acc; cbn; [reflexivity|].
  destruct (Ascii.eqb c "/"); apply IH.
Qed.

Lemma last_segment_from_id acc s :
  slash_free s = true -> Supabase.last_segment_from acc s = acc ++ s.
Proof.
  revert acc. induction s as [|c s IH]; intros acc Hs; cbn in *.
  - clear Hs. induction acc as [|x acc IHacc]; cbn; [reflexivity | now rewrite <- IHacc].
  - apply andb_prop in Hs. destruct Hs as [Hc Hs].
    apply negb_true_iff in Hc. rewrite Hc, (IH _ Hs).
    now rewrite append_assoc_string.
Qed.

(** X19.  The invoice id the edge function takes from a path
    ([path.split('/').pop()]) contains no slash; it is the text after the
    last slash, so for a path [<prefix>/<id>] with a slash-free [id] it is
    [id], a path without a slash is its own last segment, and a path that
    ends in a slash gives the empty id. *)
Theorem invoice_id_of_path :
  (forall path, slash_free (Supabase.last_segment path) = true)
  /\ (forall prefix id,
         slash_free id = true ->
         Supabase.last_segment (prefix ++ "/" ++ id) = id)
  /\ (forall path, slash_free path = true -> Supabase.last_segment path = path)
  /\ (forall prefix, Supabase.last_segment (prefix ++ "/") = "").
Proof.
  unfold Supabase.last_segment.
  split; [intros path; now apply last_segment_from_free|].
  split.
  { intros prefix id Hid. cbn. rewrite last_segment_from_slash.
    now rewrite last_segment_from_id. }
  split; [intros path Hp; now rewrite last_segment_from_id|].
  intros prefix. now rewrite last_segment_from_slash.
Qed.

Lemma invoice_id_of_path_witness :
  Supabase.last_segment ("/functions/v1/zoho-integration/invoices" ++ "/" ++ "460000000038080")
  = "460000000038080"
  /\ Supabase.last_segment "token" = "token".
Proof.
  split.
  - apply (proj1 (proj2 invoice_id_of_path)). reflexivity.
  - apply (proj1 (proj2 (proj2 invoice_id_of_path))). reflexivity.
Defined.

(** *** What the customer sees of a purchase *)

Ltac purchase_open :=
  unfold ServicePurchase.handlePurchase, ServicePurchase.try_catch_finally,
    ServicePurchase.pbind, ServicePurchase.setIsLoading, ServicePurchase.convertCurrency,
    ServicePurchase.insert_order, ServicePurchase.navigate, ServicePurchase.alert,
    ServicePurchase.pret, ServicePurchase.pthrow;
  cbn -[ServicePurchase.getTotalPrice ServicePurchase.getCurrentPrice];
  repeat (purchase_step;
          cbn -[ServicePurchase.getTotalPrice ServicePurchase.getCurrentPrice] in * ).

Ltac shown_leaf :=
  unfold holds, PurchaseFacts.outcome_shown, PurchaseFacts.loading_handled; cbn;
  repeat match goal with
         | H : ?x = _ |- context [?x] => rewrite H
         end; cbn;
  repeat match goal with
         | |- _ /\ _ => split
         | |- exists _, _ => eexists
         | |- context [if ?b then _ else _] => destruct b
         | |- Some _ <> None => discriminate
         | |- _ = _ => first [reflexivity | eassumption]
         | |- _ \/ _ => first [left; reflexivity | right; reflexivity]
         end.

Lemma purchase_shown st w :
  holds (fun x => PurchaseFacts.outcome_shown st x
                  /\ PurchaseFacts.loading_handled w x)
        (ServicePurchase.handlePurchase st w 0).
Proof. unfold PurchaseFacts.outcome_shown, PurchaseFacts.can_order. purchase_open; shown_leaf. Qed.

(** X20.  For a visitor who is not signed in, or on a page without a
    service, [handlePurchase] does nothing at all: it returns with no
    event.  For everyone else it shows exactly one outcome: it navigates
    to [/payment/<id>] only for the order the one insert returned without
    an error, and otherwise raises the one alert.  With [setIsLoading]
    bound it never rejects and lowers the loading flag it raised; with
    [setIsLoading] unbound it converts and stores nothing. *)
Theorem purchase_outcome :
  forall st w,
    PurchaseFacts.outcome_shown st (ServicePurchase.handlePurchase st w 0)
    /\ PurchaseFacts.loading_handled w (ServicePurchase.handlePurchase st w 0).
Proof.
  intros st w. apply (purchase_shown st w).
Qed.

Ltac conversion_leaf :=
  unfold holds, PurchaseFacts.conversions_sound; cbn;
  repeat match goal with
         | H : (_ =? _) = true |- _ => apply String.eqb_eq in H
         | H : (_ =? _) = false |- _ => apply String.eqb_neq in H
         end;
  repeat match goal with
         | |- _ /\ _ => split
         | |- Forall _ [] => constructor
         | |- Forall _ (_ :: _) => constructor
         | |- (_ <= _)%nat => cbn; lia
         end; cbn;
  try solve [ discriminate | assumption | reflexivity
            | left; split; reflexivity
            | right; split; [reflexivity | left; reflexivity]
            | right; split; [reflexivity | right; reflexivity]
            | left; reflexivity | right; reflexivity
            | congruence ].

Lemma conversions_of_purchase st w :
  holds (PurchaseFacts.conversions_sound st)
        (snd (ServicePurchase.handlePurchase st w 0)).
Proof. purchase_open; conversion_leaf. Qed.

(** X21.  The currency conversions of a purchase go into USD from the
    customer's currency, or from USD into INR or AUD, and never from a
    currency into itself; there are at most four, and a row reaches the
    database only when every conversion before it resolved. *)
Theorem purchase_conversions :
  forall st w,
    PurchaseFacts.conversions_sound st (snd (ServicePurchase.handlePurchase st w 0)).
Proof.
  intros st w. apply (conversions_of_purchase st w).
Qed.

(** *** Selecting add-ons *)

Lemma unit_price_is_a_number st :
  PrimFloat.is_nan (ServicePurchase.getCurrentPrice st) = false
  /\ (PrimFloat.is_zero (ServicePurchase.getCurrentPrice st) = false
      \/ ServicePurchase.getCurrentPrice st = 0%float).
Proof.
  unfold ServicePurchase.getCurrentPrice.
  destruct (ServicePurchase.service st) as [s|]; [|split; [|right]; reflexivity].
  destruct (ServicePurchase.price_of _ _) as [p|]; [|split; [|right]; reflexivity].
  unfold ServicePurchase.or_zero.
  destruct (PrimFloat.is_zero p) eqn:Hz; [split; [|right]; reflexivity|].
  destruct (PrimFloat.is_nan p) eqn:Hn; [split; [|right]; reflexivity|].
  cbn [orb]. split; [exact Hn | left; exact Hz].
Qed.

(** X22.  Selecting one more add-on, after those already selected, adds
    its listed price to the running sum of the add-on prices, in one
    rounded addition, and the total becomes the unit price times the
    quantity plus that sum times the quantity.  The unit price the page
    shows is never NaN and never negative zero. *)
Theorem addon_selection :
  forall st,
    (forall ids id,
        ServicePurchase.getTotalAddOnPrice
          (PurchaseFacts.setSelectedAddOns (ids ++ [id])%list st)
        = (ServicePurchase.getTotalAddOnPrice (PurchaseFacts.setSelectedAddOns ids st)
           + listed_price (ServicePurchase.convertedAddOns st) id)%float
        /\ ServicePurchase.getTotalPrice
             (PurchaseFacts.setSelectedAddOns (ids ++ [id])%list st)
           = (ServicePurchase.getCurrentPrice st * ServicePurchase.quantity st
              + (ServicePurchase.getTotalAddOnPrice (PurchaseFacts.setSelectedAddOns ids st)
                 + listed_price (ServicePurchase.convertedAddOns st) id)
                * ServicePurchase.quantity st)%float)
    /\ PrimFloat.is_nan (ServicePurchase.getCurrentPrice st) = false
    /\ (PrimFloat.is_zero (ServicePurchase.getCurrentPrice st) = false
        \/ ServicePurchase.getCurrentPrice st = 0%float).
Proof.
  intros st. split; [|exact (unit_price_is_a_number st)].
  intros ids id.
  assert (Hsum :
    ServicePurchase.getTotalAddOnPrice
      (PurchaseFacts.setSelectedAddOns (ids ++ [id])%list st)
    = (ServicePurchase.getTotalAddOnPrice (PurchaseFacts.setSelectedAddOns ids st)
       + listed_price (ServicePurchase.convertedAddOns st) id)%float).
  { unfold ServicePurchase.getTotalAddOnPrice.
    cbn [ServicePurchase.selectedAddOns PurchaseFacts.setSelectedAddOns].
    rewrite fold_left_app. cbn [fold_left].
    rewrite (addon_price_listed (PurchaseFacts.setSelectedAddOns (ids ++ [id])%list st)).
    reflexivity. }
  split; [exact Hsum|].
  unfold ServicePurchase.getTotalPrice. rewrite Hsum. reflexivity.
Qed.

(** In double arithmetic the total does depend on the order in which the
    add-ons were selected. *)
Example selection_order_matters :
  ServicePurchase.getTotalPrice (X_purchase.selecting ["a"; "b"; "c"])
  = 65.35999999999999%float
  /\ ServicePurchase.getTotalPrice (X_purchase.selecting ["a"; "c"; "b"])
     = 65.36%float.
Proof. split; reflexivity. Qed.

Example euro_purchase_conversions :
  map (fun c => (PurchaseFacts.conv_source c, PurchaseFacts.conv_target c))
      (PurchaseFacts.conversions
         (snd (ServicePurchase.handlePurchase X_purchase.euro_state
                 Purchase_input.browser 0)))
  = [("EUR", "USD"); ("EUR", "USD"); ("USD", "INR"); ("USD", "AUD")].
Proof. reflexivity. Qed.

(** *** The e-mail verification page *)

Ltac page_open :=
  unfold EmailVerificationPage.checkVerification,
    EmailVerificationPage.onAuthStateChange, EmailVerificationPage.confirmed,
    EmailVerificationPage.handleResendEmail,
    EmailVerificationPage.createClientProfile, EmailVerificationPage.vcatch,
    EmailVerificationPage.vfinally, EmailVerificationPage.vbind,
    EmailVerificationPage.emit, EmailVerificationPage.getUser,
    EmailVerificationPage.select_profile, EmailVerificationPage.insert_profile,
    EmailVerificationPage.update_profile, EmailVerificationPage.resend,
    EmailVerificationPage.now_iso, EmailVerificationPage.window_origin,
    EmailVerificationPage.vret;
  cbn; repeat (case_step; cbn).

Ltac profile_leaf :=
  unfold holds, VerificationFacts.profile_handled; cbn;
  (split; [reflexivity|]);
  do 2 eexists; (split; [reflexivity|]); cbn; (split; [reflexivity|]);
  repeat match goal with
         | |- _ /\ _ => split
         | |- exists _, _ => eexists
         | |- Js.or_default _ _ <> _ => apply or_default_nonempty; discriminate
         | |- _ = _ => first [reflexivity | eassumption]
         end.

Lemma profile_run user userData w n :
  holds (fun x => fst x = Ok tt /\ VerificationFacts.profile_handled user (snd x))
        (EmailVerificationPage.createClientProfile user userData w n).
Proof. page_open; profile_leaf. Qed.

(** X23.  [createClientProfile] never rejects.  It looks the profile up
    once, first, and writes at most once: when the lookup found no profile
    it inserts one with the user's id, a name that is never empty and the
    verified flag; when it found one it updates the two verification
    fields only; when the lookup was rejected it writes nothing. *)
Theorem profile_written_once :
  forall user userData w n,
    fst (EmailVerificationPage.createClientProfile user userData w n) = Ok tt
    /\ VerificationFacts.profile_handled user
         (snd (EmailVerificationPage.createClientProfile user userData w n)).
Proof.
  intros. apply profile_run.
Qed.

Ltac resend_leaf :=
  unfold holds, VerificationFacts.resend_reported; cbn;
  (split; [reflexivity|]);
  repeat match goal with
         | H : ?x = _ |- context [?x] => rewrite H
         end; cbn;
  first
    [ split; reflexivity
    | eexists; (split; [reflexivity|]); cbn;
      repeat match goal with
             | H : ?x = _ |- context [?x] => rewrite H
             end; cbn;
      (split; [reflexivity|]); (split; [reflexivity|]); (split; [reflexivity|]);
      split; intros Hx; first [reflexivity | discriminate Hx] ].

Lemma resend_run email w n :
  holds (fun x => fst x = Ok tt /\ VerificationFacts.resend_reported w email (snd x))
        (EmailVerificationPage.handleResendEmail email w n).
Proof. page_open; resend_leaf. Qed.

(** X24.  A click on "Resend Email" never rejects.  Without an e-mail
    address it only shows the not-found message, in red, and calls
    nothing.  With one it makes exactly one resend call, of kind [signup],
    for that address and with the page's own verification URL as redirect;
    it clears the message first and ends with the message that matches the
    outcome; it raises the resending flag and lowers it last; and the
    final message is shown in green exactly when the call resolved without
    an error. *)
Theorem resend_feedback :
  forall email w n,
    fst (EmailVerificationPage.handleResendEmail email w n) = Ok tt
    /\ VerificationFacts.resend_reported w email
         (snd (EmailVerificationPage.handleResendEmail email w n)).
Proof.
  intros. apply resend_run.
Qed.

Ltac redirect_leaf :=
  unfold holds, VerificationFacts.redirected, VerificationFacts.checked_user,
    VerificationFacts.signed_in_user; cbn;
  repeat match goal with
         | H : ?x = _ |- context [?x] => rewrite H
         end; cbn;
  repeat match goal with
         | |- _ /\ _ => split
         | |- exists _, _ => eexists
         | |- True => exact I
         | |- _ = _ => first [reflexivity | eassumption]
         end.

Lemma check_run userData w n :
  holds (fun t => VerificationFacts.redirected (VerificationFacts.checked_user t) t)
        (snd (EmailVerificationPage.checkVerification userData w n)).
Proof. page_open; redirect_leaf. Qed.

Lemma listener_run userData event session w n :
  holds (VerificationFacts.redirected (VerificationFacts.signed_in_user event session))
        (snd (EmailVerificationPage.onAuthStateChange userData event session w n)).
Proof. page_open; redirect_leaf. Qed.

(** X25.  Both the initial check and the sign-in listener send a user on
    to [/client/thank-you], two seconds later and as their last step, when
    and only when the user's e-mail address is confirmed (for the
    listener: on a [SIGNED_IN] event), and only after that user's profile
    was looked up; for anyone else they touch neither the [clients] table
    nor the timer. *)
Theorem confirmed_users_redirected :
  forall userData w n,
    VerificationFacts.redirected
      (VerificationFacts.checked_user
         (snd (EmailVerificationPage.checkVerification userData w n)))
      (snd (EmailVerificationPage.checkVerification userData w n))
    /\ (forall event session,
           VerificationFacts.redirected
             (VerificationFacts.signed_in_user event session)
             (snd (EmailVerificationPage.onAuthStateChange userData event session w n))).
Proof.
  intros userData w n. split.
  - apply (check_run userData w n).
  - intros event session. apply (listener_run userData event session w n).
Qed.

Example first_visit_of_a_confirmed_user :
  snd (EmailVerificationPage.checkVerification X_verify.no_data X_verify.page 0)
  = [EmailVerificationPage.EvGetUser (Ok (Some X_verify.alice));
     EmailVerificationPage.EvSetIsVerified true;
     EmailVerificationPage.EvSelectProfile "u-1" (Ok X_verify.nothing);
     EmailVerificationPage.EvNow 0;
     EmailVerificationPage.EvInsertProfile
       [("id", Js.JStr "u-1"); ("name", Js.JStr "User");
        ("email", Js.JStr "alice@example.com");
        ("phone", Js.JNull); ("company", Js.JNull);
        ("email_verified", Js.JBool true); ("email_verified_at", Js.JTime 0)]
       (Ok X_verify.nothing);
     EmailVerificationPage.EvSetTimeout "/client/thank-you" 2000].
Proof. reflexivity. Qed.
